(** * SwiftParser-OSS: a shallow embedding of the parsing and detection core

    The development follows the JavaScript sources: the base SWIFT parser
    (class [SWIFTParser]), the per-system banking parsers ([BANCSParser],
    [FISParser], [FiservParser], [TemenosParser]), the ISO 20022 parser, the
    COBOL stub and the facade class [SwiftParserOSS].

    Conventions of the model:
    - a JavaScript string is a [string]: a sequence of code units, of which
      the model covers those below 256;
    - a thrown [Error] is its message; a function that may throw returns a
      [Result];
    - a number is kept as the exact decimal its numeral denotes (the
      JavaScript value is the double nearest to it); a division is done on
      the doubles, by the Standard Library's specification of IEEE 754
      ([SpecFloat]), and its result is kept as the decimal that double is;
    - values the platform hands out during a call (UUIDs, clock readings) are
      explicit inputs of the function that asks for them;
    - library calls whose code is not part of the repository ([JSON.parse],
      xml2js) are fields of the class [Platform]. *)

From Stdlib Require Import Ascii String ZArith QArith Lia Floats.SpecFloat.
From stdpp Require Import gmap strings list fin_maps.

Local Open Scope string_scope.
Local Open Scope Z_scope.

Set Warnings "-clear-no-such-hyp".

(** ** Results of functions that may throw *)

Inductive Result (A : Type) : Type :=
| Return (a : A)
| Throw (message : string).

Arguments Return {A} a.
Arguments Throw {A} message.

Definition bind {A B : Type} (r : Result A) (k : A -> Result B) : Result B :=
  match r with
  | Return a => k a
  | Throw m => Throw m
  end.

(** [try { body } catch (error) { handler(error.message) }] *)
Definition try_catch {A : Type} (body : Result A) (handler : string -> Result A)
  : Result A :=
  match body with
  | Return a => Return a
  | Throw m => handler m
  end.

Notation "'let*' x ':=' e 'in' k" := (bind e (fun x => k))
  (at level 10, x pattern, e at level 100, k at level 200).

Definition returns {A : Type} (r : Result A) : bool :=
  match r with Return _ => true | Throw _ => false end.

(** ** Strings: the methods of [String.prototype] the sources call *)

Module Str.

Definition is_digit (c : ascii) : bool :=
  let n := nat_of_ascii c in ((48 <=? n) && (n <=? 57))%nat.

Definition is_upper (c : ascii) : bool :=
  let n := nat_of_ascii c in ((65 <=? n) && (n <=? 90))%nat.

Definition is_lower (c : ascii) : bool :=
  let n := nat_of_ascii c in ((97 <=? n) && (n <=? 122))%nat.

(** White space and line terminators below code unit 256: TAB, LF, VT, FF,
    CR, SP and NBSP. *)
Definition is_space (c : ascii) : bool :=
  let n := nat_of_ascii c in
  ((9 <=? n) && (n <=? 13) || (n =? 32) || (n =? 160))%nat.

Definition eqc (a b : ascii) : bool := Ascii.eqb a b.

Fixpoint all (p : ascii -> bool) (s : string) : bool :=
  match s with
  | EmptyString => true
  | String c s' => p c && all p s'
  end.

(** [s.startsWith(p)] *)
Fixpoint startsWith (p s : string) : bool :=
  match p, s with
  | EmptyString, _ => true
  | String a p', String b s' => eqc a b && startsWith p' s'
  | String _ _, EmptyString => false
  end.

(** [s.includes(p)] *)
Fixpoint includes (p s : string) : bool :=
  startsWith p s ||
  match s with
  | EmptyString => false
  | String _ s' => includes p s'
  end.

(** The text after the first [n] code units. *)
Fixpoint drop (n : nat) (s : string) : string :=
  match n, s with
  | O, _ => s
  | S _, EmptyString => EmptyString
  | S n', String _ s' => drop n' s'
  end.

(** The first [n] code units. *)
Fixpoint take (n : nat) (s : string) : string :=
  match n, s with
  | O, _ => EmptyString
  | S _, EmptyString => EmptyString
  | S n', String c s' => String c (take n' s')
  end.

(** [s.substring(a, b)] for [a <= b]; indices past the end are clamped. *)
Definition substring (a b : nat) (s : string) : string :=
  take (b - a) (drop a s).

(** [s.trimStart()] *)
Fixpoint trimStart (s : string) : string :=
  match s with
  | EmptyString => EmptyString
  | String c s' => if is_space c then trimStart s' else s
  end.

(** [s.trimEnd()] *)
Fixpoint trimEnd (s : string) : string :=
  match s with
  | EmptyString => EmptyString
  | String c s' =>
      match trimEnd s' with
      | EmptyString => if is_space c then EmptyString else String c EmptyString
      | r => String c r
      end
  end.

(** [s.trim()] *)
Definition trim (s : string) : string := trimEnd (trimStart s).

(** [s.split(sep)] for a separator of one code unit: never empty. *)
Fixpoint split (sep : ascii) (s : string) : list string :=
  match s with
  | EmptyString => [EmptyString]
  | String c s' =>
      if eqc c sep then EmptyString :: split sep s'
      else match split sep s' with
           | x :: xs => String c x :: xs
           | [] => [String c EmptyString]
           end
  end.

(** [parts.join(sep)] *)
Fixpoint join (sep : string) (parts : list string) : string :=
  match parts with
  | [] => EmptyString
  | [x] => x
  | x :: xs => x +:+ sep +:+ join sep xs
  end.

Definition upper (c : ascii) : ascii :=
  if is_lower c then ascii_of_nat (nat_of_ascii c - 32) else c.

(** [s.toUpperCase()] on the letters a-z; other code units are kept. This
    is the method on texts of code units below 128; above, the method also
    changes the units 181, 223 (to the two letters SS) and 224 to 255. *)
Fixpoint toUpperCase (s : string) : string :=
  match s with
  | EmptyString => EmptyString
  | String c s' => String (upper c) (toUpperCase s')
  end.

(** The text after the first occurrence of [p], if there is one. *)
Fixpoint after (p s : string) : option string :=
  if startsWith p s then Some (drop (String.length p) s)
  else match s with
       | EmptyString => None
       | String _ s' => after p s'
       end.

(** The text before the first occurrence of the code unit [c], if any. *)
Fixpoint before (c : ascii) (s : string) : option string :=
  match s with
  | EmptyString => None
  | String d s' =>
      if eqc d c then Some EmptyString
      else option_map (String d) (before c s')
  end.

(** The case-insensitive [includes] of a pattern with flag [i]. *)
Definition includes_i (p s : string) : bool :=
  includes (toUpperCase p) (toUpperCase s).

End Str.

(** ** Numbers and values *)

(** A number, kept as the decimal its numeral denotes:
    [Decimal neg d e] stands for [(-1)^neg * d * 10^e]. *)
Inductive JsNum : Type :=
| NaN
| Infinity (negative : bool)
| Decimal (negative : bool) (digits : N) (exponent : Z).

#[warnings="-register-all"]
Inductive JsValue : Type :=
| JUndefined
| JNull
| JBool (b : bool)
| JNum (n : JsNum)
| JStr (s : string)
| JArr (items : list JsValue)
| JObj (fields : gmap string JsValue).

(** ** Global functions and operators of the language *)

Module Js.

(** The leading decimal digits of [s] and what follows them. *)
Fixpoint span_digits (s : string) : string * string :=
  match s with
  | EmptyString => (EmptyString, EmptyString)
  | String c s' =>
      if Str.is_digit c
      then let '(d, r) := span_digits s' in (String c d, r)
      else (EmptyString, s)
  end.

Definition digit_value (c : ascii) : N := N.of_nat (nat_of_ascii c - 48).

Fixpoint digits_value_from (acc : N) (s : string) : N :=
  match s with
  | EmptyString => acc
  | String c s' => digits_value_from (10 * acc + digit_value c)%N s'
  end.

(** The number a string of decimal digits denotes. *)
Definition digits_value (s : string) : N := digits_value_from 0%N s.

(** The optional exponent part [e[+-]ddd] at the head of [s]. *)
Definition exponent_part (s : string) : Z :=
  match s with
  | String c s' =>
      if Str.eqc c "e" || Str.eqc c "E" then
        match s' with
        | String sg s'' =>
            if Str.eqc sg "-" then
              match fst (span_digits s'') with
              | EmptyString => 0
              | d => - Z.of_N (digits_value d)
              end
            else if Str.eqc sg "+" then Z.of_N (digits_value (fst (span_digits s'')))
            else Z.of_N (digits_value (fst (span_digits s')))
        | EmptyString => 0
        end
      else 0
  | EmptyString => 0
  end.

(** The unsigned part of a [StrDecimalLiteral]: the longest prefix of [s]
    that is [Infinity], or digits with an optional fraction and exponent. *)
Definition parseUnsigned (negative : bool) (s : string) : JsNum :=
  if Str.startsWith "Infinity" s then Infinity negative
  else
    let '(int_part, r) := span_digits s in
    let '(frac_part, r') :=
      match r with
      | String c r1 => if Str.eqc c "." then span_digits r1 else (EmptyString, r)
      | EmptyString => (EmptyString, r)
      end in
    match int_part +:+ frac_part with
    | EmptyString => NaN
    | ds => Decimal negative (digits_value ds)
              (exponent_part r' - Z.of_nat (String.length frac_part))
    end.

(** [parseFloat(s)]: leading white space is skipped, then the longest prefix
    that is a decimal literal is read; [NaN] when there is none. *)
Definition parseFloat (s : string) : JsNum :=
  match Str.trimStart s with
  | String c s' =>
      if Str.eqc c "-" then parseUnsigned true s'
      else if Str.eqc c "+" then parseUnsigned false s'
      else parseUnsigned false (String c s')
  | EmptyString => NaN
  end.

(** [parseInt(s)] on a string of decimal digits. *)
Definition parseInt (s : string) : Z := Z.of_N (digits_value s).

(** The format of a JavaScript number: binary64, 53 bits of precision. *)
Definition prec : Z := 53.

Definition emax : Z := 1024.

(** The double a number is: the one nearest to the decimal (ties to even),
    an infinity past the largest double. An integer is rounded as it
    stands; a decimal with a negative exponent is the rounded quotient of
    its digits by the power of ten. *)
Definition toDouble (n : JsNum) : spec_float :=
  match n with
  | NaN => S754_nan
  | Infinity neg => S754_infinity neg
  | Decimal neg N0 _ => S754_zero neg
  | Decimal neg (Npos d) e =>
      if 0 <=? e then binary_round prec emax neg (d * Z.to_pos (10 ^ e)) 0
      else SFdiv prec emax (S754_finite neg d 0)
                           (S754_finite false (Z.to_pos (10 ^ (- e))) 0)
  end.

(** The decimal a double is: [m * 2 ^ e] written with the least number of
    decimal places (none for an integer). *)
Definition ofDouble (f : spec_float) : JsNum :=
  match f with
  | S754_nan => NaN
  | S754_infinity neg => Infinity neg
  | S754_zero neg => Decimal neg 0 0
  | S754_finite neg m e =>
      if 0 <=? e then Decimal neg (Z.to_N (Z.pos m * 2 ^ e)) 0
      else
        let k := Z.log2 (Z.gcd (Z.pos m) (2 ^ (- e))) in
        Decimal neg (Z.to_N (Z.pos m / 2 ^ k * 5 ^ (- e - k))) (e + k)
  end.

(** [n / 100]: the quotient of the two doubles, rounded to a double. *)
Definition div100 (n : JsNum) : JsNum :=
  ofDouble (SFdiv prec emax (toDouble n) (toDouble (Decimal false 100 0))).

(** The rational a finite number stands for. *)
Definition to_Q (n : JsNum) : option Q :=
  match n with
  | Decimal neg d e =>
      let m := if neg then (- Z.of_N d) else Z.of_N d in
      Some (if 0 <=? e then inject_Z (m * 10 ^ e)
            else Qmake m (Z.to_pos (10 ^ (- e))))
  | _ => None
  end.

(** [ToBoolean]: what [if (v)], [!v] and [v || w] test. A number is falsy
    when its double is a zero: the decimal 0, or one too small for a
    double. *)
Definition truthy (v : JsValue) : bool :=
  match v with
  | JUndefined | JNull => false
  | JBool b => b
  | JNum NaN => false
  | JNum (Infinity _) => true
  | JNum (Decimal neg d e) =>
      match toDouble (Decimal neg d e) with
      | S754_zero _ => false
      | _ => true
      end
  | JStr s => negb (String.eqb s EmptyString)
  | JArr _ | JObj _ => true
  end.

(** [v || w] *)
Definition or_else (v w : JsValue) : JsValue := if truthy v then v else w.

(** [typeof v] *)
Definition typeof (v : JsValue) : string :=
  match v with
  | JUndefined => "undefined"
  | JNull | JArr _ | JObj _ => "object"
  | JBool _ => "boolean"
  | JNum _ => "number"
  | JStr _ => "string"
  end.

Definition show (v : JsValue) : string :=
  match v with JNull => "null" | _ => "undefined" end.

(** [v.k] for a property name [k] that no prototype defines: the own
    property of an object, [undefined] on any other value, and a
    [TypeError] (Node's message) on [null] and [undefined]. *)
Definition get (v : JsValue) (k : string) : Result JsValue :=
  match v with
  | JUndefined | JNull =>
      Throw ("Cannot read properties of " +:+ show v +:+ " (reading '" +:+ k +:+ "')")
  | JObj fields => Return (default JUndefined (fields !! k))
  | _ => Return JUndefined
  end.

(** [v[0]] *)
Definition first (v : JsValue) : Result JsValue :=
  match v with
  | JUndefined | JNull =>
      Throw ("Cannot read properties of " +:+ show v +:+ " (reading '0')")
  | JArr items => Return (default JUndefined (head items))
  | JStr (String c _) => Return (JStr (String c EmptyString))
  | JObj fields => Return (default JUndefined (fields !! "0"))
  | _ => Return JUndefined
  end.

(** [v.startsWith(p)] where [path] is the text of the expression [v]: a
    [TypeError] when [v] is not a string. *)
Definition startsWith (path : string) (v : JsValue) (p : string) : Result bool :=
  match v with
  | JStr s => Return (Str.startsWith p s)
  | JUndefined | JNull =>
      Throw ("Cannot read properties of " +:+ show v +:+ " (reading 'startsWith')")
  | _ => Throw (path +:+ ".startsWith is not a function")
  end.

Definition obj (fields : list (string * JsValue)) : JsValue :=
  JObj (list_to_map fields).

(** [o.k = v] on an object. *)
Definition set (o : JsValue) (k : string) (v : JsValue) : JsValue :=
  match o with
  | JObj fields => JObj (<[k := v]> fields)
  | other => other
  end.

End Js.

(** ** The platform *)

(** Library calls whose code is outside the repository. [JSON_parse s] is
    [JSON.parse(s)]: the parsed value, or the message of the [SyntaxError].
    [xml2js_parseString s] is what [new xml2js.Parser().parseString(s, cb)]
    hands back to its caller (or throws) when [cb] rethrows the error it is
    given and returns the document otherwise. *)
Class Platform : Type := {
  JSON_parse : string -> Result JsValue;
  xml2js_parseString : string -> Result JsValue
}.

(** What one parser call reads from the platform: [uuidv4()] and
    [new Date().toISOString()]. *)
Record Stamp : Type := {
  uuid : string;
  now : string
}.

(** ** Dates: [Date.UTC] and [toISOString], by day number *)

Module JsDate.

(** The day number of the first day of year [y] (day 0 is 1970-01-01). *)
Definition DayFromYear (y : Z) : Z :=
  365 * (y - 1970) + (y - 1969) / 4 - (y - 1901) / 100 + (y - 1601) / 400.

Definition InLeapYear (y : Z) : bool :=
  ((y mod 4 =? 0) && negb (y mod 100 =? 0)) || (y mod 400 =? 0).

Definition DaysInYear (y : Z) : Z := if InLeapYear y then 366 else 365.

(** Days of the year before month [m] (0-based). *)
Definition month_start (leap : bool) (m : Z) : Z :=
  let l := if leap then 1 else 0 in
  match m with
  | 0 => 0 | 1 => 31 | 2 => 59 + l | 3 => 90 + l | 4 => 120 + l
  | 5 => 151 + l | 6 => 181 + l | 7 => 212 + l | 8 => 243 + l
  | 9 => 273 + l | 10 => 304 + l | 11 => 334 + l | _ => 365 + l
  end.

(** [MakeDay(year, month, date)]: months and days out of range carry over. *)
Definition MakeDay (year month date : Z) : Z :=
  let ym := year + month / 12 in
  let mn := month mod 12 in
  DayFromYear ym + month_start (InLeapYear ym) mn + date - 1.

Fixpoint year_search (fuel : nat) (y t : Z) : Z :=
  match fuel with
  | O => y
  | S fuel' => if DayFromYear (y + 1) <=? t then year_search fuel' (y + 1) t else y
  end.

(** The year of day [t], for the years 1970 to 9999. *)
Definition YearFromDay (t : Z) : Z := year_search 32 (1970 + t / 366) t.

Fixpoint month_search (fuel : nat) (leap : bool) (m d : Z) : Z :=
  match fuel with
  | O => m
  | S fuel' => if month_start leap (m + 1) <=? d then month_search fuel' leap (m + 1) d else m
  end.

(** The month (0-based) of day [d] of a year. *)
Definition MonthFromDayInYear (leap : bool) (d : Z) : Z := month_search 11 leap 0 d.

Definition digit_char (n : Z) : ascii := ascii_of_nat (48 + Z.to_nat n).

Definition pad2 (n : Z) : string :=
  String (digit_char (n / 10)) (String (digit_char (n mod 10)) EmptyString).

Definition pad4 (n : Z) : string := pad2 (n / 100) +:+ pad2 (n mod 100).

(** [new Date(Date.UTC(year, month, date)).toISOString().split('T')[0]] *)
Definition isoDate (year month date : Z) : string :=
  let t := MakeDay year month date in
  let y := YearFromDay t in
  let d := t - DayFromYear y in
  let m := MonthFromDayInYear (InLeapYear y) d in
  pad4 y +:+ "-" +:+ pad2 (m + 1) +:+ "-" +:+ pad2 (d - month_start (InLeapYear y) m + 1).

End JsDate.

(** ** The base SWIFT parser (class [SWIFTParser]) *)

Module SWIFTParser.

(** One entry of the object [fields]. *)
Record Field : Type := {
  tag : string;
  name : string;
  content : string
}.

(** Result of [parseAmountField]. *)
Record AmountData : Type := {
  valueDate : string;
  currency : string;
  amount : JsNum
}.

(** [SWIFT_FIELDS[messageType]]: the field table of a message type. *)
Definition SWIFT_FIELDS (messageType : string) : option (gmap string string) :=
  if String.eqb messageType "MT103" then
    Some (list_to_map
      [("20", "transaction_reference"); ("23B", "bank_operation_code");
       ("32A", "value_date_currency_amount"); ("50K", "ordering_customer");
       ("52A", "ordering_institution"); ("53A", "senders_correspondent");
       ("56A", "intermediary_institution"); ("57A", "account_with_institution");
       ("59", "beneficiary_customer"); ("70", "remittance_information");
       ("71A", "details_of_charges")])
  else if String.eqb messageType "MT202" then
    Some (list_to_map
      [("20", "transaction_reference"); ("21", "related_reference");
       ("32A", "value_date_currency_amount"); ("52A", "ordering_institution");
       ("53A", "senders_correspondent"); ("56A", "intermediary_institution");
       ("57A", "account_with_institution"); ("58A", "beneficiary_institution");
       ("72", "sender_to_receiver_information")])
  else None.

Definition supportedMessageTypes : list string := ["MT103"; "MT202"].

(** [list.includes(x)] *)
Definition includes (x : string) (l : list string) : bool :=
  existsb (String.eqb x) l.

(** The capture of [/\{2:I(\d{3})/]: the three digits after the first
    occurrence of the header mark that is followed by three digits. *)
Fixpoint headerMatch (message : string) : option string :=
  match message with
  | EmptyString => None
  | String _ rest =>
      if Str.startsWith "{2:I" message
         && (3 <=? String.length (Str.take 3 (Str.drop 4 message)))%nat
         && Str.all Str.is_digit (Str.take 3 (Str.drop 4 message))
      then Some (Str.take 3 (Str.drop 4 message))
      else headerMatch rest
  end.

Definition extractMessageType (message : string) : Result string :=
  match headerMatch message with
  | None => Throw "Invalid SWIFT message format: missing application header"
  | Some messageTypeNumber => Return ("MT" +:+ messageTypeNumber)
  end.

(** The capture of [/\{4:(.*?)\}/s]: the text between the first block-4 mark
    and the first closing brace after it. *)
Definition textBlockMatch (message : string) : option string :=
  match Str.after "{4:" message with
  | Some rest => Str.before "}" rest
  | None => None
  end.

(** [/:(\d{2}[A-Z]?):/] anchored at the head of [s]: the tag and the text
    after the closing colon. *)
Definition tag_at (s : string) : option (string * string) :=
  match s with
  | String c0 (String d1 (String d2 (String x rest))) =>
      if Str.eqc c0 ":" && Str.is_digit d1 && Str.is_digit d2 then
        if Str.eqc x ":" then Some (String d1 (String d2 EmptyString), rest)
        else
          match rest with
          | String y rest' =>
              if Str.is_upper x && Str.eqc y ":"
              then Some (String d1 (String d2 (String x EmptyString)), rest')
              else None
          | EmptyString => None
          end
      else None
  | _ => None
  end.

(** The lazy [(.*?)] under the lookahead [(?=:\d{2}[A-Z]?:|$)]: the text up
    to the next tag, or to the end. *)
Fixpoint content_until_tag (s : string) : string :=
  match s with
  | EmptyString => EmptyString
  | String c s' =>
      match tag_at s with
      | Some _ => EmptyString
      | None => String c (content_until_tag s')
      end
  end.

(** The array [textBlock.match(/:(\d{2}[A-Z]?):(.*?)(?=:\d{2}[A-Z]?:|$)/gs)]
    of matched texts, scanning from the left; [skip] code units belong to
    the tag of the match in progress. *)
Fixpoint fieldMatches_from (skip : nat) (s : string) : list string :=
  match s with
  | EmptyString => []
  | String c s' =>
      match skip with
      | S k => fieldMatches_from k s'
      | O =>
          match tag_at s with
          | Some (t, rest) =>
              (":" +:+ t +:+ ":" +:+ content_until_tag rest)
                :: fieldMatches_from (String.length t + 1) s'
          | None => fieldMatches_from 0 s'
          end
      end
  end.

Definition fieldMatches (textBlock : string) : list string :=
  fieldMatches_from 0 textBlock.

(** The second match of [parseFields], on one matched text [m] (a tag, then
    a greedy dot-all capture): the leftmost tag in [m] and all the text
    after it. *)
Fixpoint fieldMatch (m : string) : option (string * string) :=
  match tag_at m with
  | Some r => Some r
  | None =>
      match m with
      | EmptyString => None
      | String _ m' => fieldMatch m'
      end
  end.

(** The body of the [forEach] in [parseFields]. *)
Definition addField (fieldDefinitions : option (gmap string string))
    (fields : gmap string Field) (m : string) : Result (gmap string Field) :=
  match fieldMatch m with
  | Some (t, rest) =>
      match fieldDefinitions with
      | None =>
          Throw ("Cannot read properties of undefined (reading '" +:+ t +:+ "')")
      | Some defs =>
          match defs !! t with
          | Some n =>
              Return (<[t := {| tag := t; name := n; content := Str.trim rest |}]> fields)
          | None => Return fields
          end
      end
  | None => Return fields
  end.

Fixpoint forEach (fieldDefinitions : option (gmap string string))
    (fields : gmap string Field) (ms : list string) : Result (gmap string Field) :=
  match ms with
  | [] => Return fields
  | m :: ms' =>
      let* fields' := addField fieldDefinitions fields m in
      forEach fieldDefinitions fields' ms'
  end.

Definition parseFields (message messageType : string)
  : Result (gmap string Field) :=
  let fieldDefinitions := SWIFT_FIELDS messageType in
  match textBlockMatch message with
  | None => Throw "Invalid SWIFT message format: missing text block"
  | Some textBlock =>
      match fieldMatches textBlock with
      | [] => Throw "No valid fields found in message"
      | ms => forEach fieldDefinitions ∅ ms
      end
  end.

Definition getRequiredFields (messageType : string) : list string :=
  if String.eqb messageType "MT103" then ["20"; "32A"; "50K"; "59"]
  else if String.eqb messageType "MT202" then ["20"; "32A"; "52A"; "58A"]
  else [].

Fixpoint checkRequired (fields : gmap string Field) (messageType : string)
    (requiredFields : list string) : Result unit :=
  match requiredFields with
  | [] => Return tt
  | requiredField :: more =>
      match fields !! requiredField with
      | None => Throw ("Missing required field: " +:+ requiredField
                       +:+ " for " +:+ messageType)
      | Some _ => checkRequired fields messageType more
      end
  end.

Definition validateRequiredFields (fields : gmap string Field)
    (messageType : string) : Result unit :=
  checkRequired fields messageType (getRequiredFields messageType).

(** [/^(\d{6})([A-Z]{3})([\d,\.]+)$/] *)
Definition amountMatch (content : string) : option (string * string * string) :=
  let dateStr := Str.take 6 content in
  let cur := Str.take 3 (Str.drop 6 content) in
  let amountStr := Str.drop 9 content in
  if (String.length dateStr =? 6)%nat && Str.all Str.is_digit dateStr
     && (String.length cur =? 3)%nat && Str.all Str.is_upper cur
     && negb (String.eqb amountStr EmptyString)
     && Str.all (fun c => Str.is_digit c || Str.eqc c "," || Str.eqc c ".") amountStr
  then Some (dateStr, cur, amountStr)
  else None.

(** [s.replace(/,/g, '')] *)
Fixpoint removeCommas (s : string) : string :=
  match s with
  | EmptyString => EmptyString
  | String c s' => if Str.eqc c "," then removeCommas s' else String c (removeCommas s')
  end.

Definition parseAmountField (content : string) : Result AmountData :=
  match amountMatch content with
  | None => Throw ("Invalid amount field format: " +:+ content)
  | Some (dateStr, cur, amountStr) =>
      let year := 2000 + Js.parseInt (Str.substring 0 2 dateStr) in
      let month := Js.parseInt (Str.substring 2 4 dateStr) - 1 in
      let day := Js.parseInt (Str.substring 4 6 dateStr) in
      Return {| valueDate := JsDate.isoDate year month day;
                currency := cur;
                amount := Js.parseFloat (removeCommas amountStr) |}
  end.

(** [fields[t]?.content] *)
Definition contentOf (fields : gmap string Field) (t : string) : JsValue :=
  match fields !! t with
  | Some f => JStr (content f)
  | None => JUndefined
  end.

(** [s || null] *)
Definition orNull (s : string) : JsValue := Js.or_else (JStr s) JNull.

Definition parseCustomerInfo (c : JsValue) : JsValue :=
  match c with
  | JStr text =>
      if String.eqb text EmptyString then JNull
      else
        let lines := map Str.trim (Str.split "010" text) in
        Js.obj [("account", orNull (nth 0 lines EmptyString));
                ("name", orNull (nth 1 lines EmptyString));
                ("address", orNull (Str.join ", " (skipn 2 lines)));
                ("raw", JStr text)]
  | _ => JNull
  end.

Definition fieldObject (f : Field) : JsValue :=
  Js.obj [("tag", JStr (tag f)); ("name", JStr (name f)); ("content", JStr (content f))].

Definition createStandardizedMessage (stamp : Stamp)
    (fields : gmap string Field) (messageType : string) : Result JsValue :=
  let message :=
    Js.obj [("id", JStr (uuid stamp));
            ("messageType", JStr messageType);
            ("transactionReference", contentOf fields "20");
            ("timestamp", JStr (now stamp));
            ("status", JStr "parsed");
            ("originalFields", JObj (fieldObject <$> fields))] in
  let* message :=
    match fields !! "32A" with
    | Some f =>
        let* amountData := parseAmountField (content f) in
        Return (Js.set (Js.set (Js.set message
                  "amount" (JNum (amount amountData)))
                  "currency" (JStr (currency amountData)))
                  "valueDate" (JStr (valueDate amountData)))
    | None => Return message
    end in
  if String.eqb messageType "MT103" then
    Return (Js.set (Js.set (Js.set (Js.set (Js.set message
      "sender" (parseCustomerInfo (contentOf fields "50K")))
      "receiver" (parseCustomerInfo (contentOf fields "59")))
      "orderingInstitution" (contentOf fields "52A"))
      "beneficiaryInstitution" (contentOf fields "57A"))
      "remittanceInfo" (contentOf fields "70"))
  else if String.eqb messageType "MT202" then
    Return (Js.set (Js.set (Js.set message
      "orderingInstitution" (contentOf fields "52A"))
      "beneficiaryInstitution" (contentOf fields "58A"))
      "senderToReceiverInfo" (contentOf fields "72"))
  else Return message.

(** [parse(rawMessage)]; the [catch] logs and rethrows the error. *)
Definition parse (stamp : Stamp) (rawMessage : JsValue) : Result JsValue :=
  try_catch
    (match rawMessage with
     | JStr message =>
         if String.eqb message EmptyString
         then Throw "Invalid message format: message must be a non-empty string"
         else
           let* messageType := extractMessageType message in
           if negb (includes messageType supportedMessageTypes)
           then Throw ("Unsupported message type: " +:+ messageType)
           else
             let* fields := parseFields message messageType in
             let* _ := validateRequiredFields fields messageType in
             createStandardizedMessage stamp fields messageType
     | _ => Throw "Invalid message format: message must be a non-empty string"
     end)
    (fun error => Throw error).

(** [/^[A-Z]{4}[A-Z]{2}[0-9A-Z]{2}([0-9A-Z]{3})?$/]: four letters
    (institution), two letters (country), two letters or digits (location)
    and, optionally, three letters or digits (branch). *)
Definition bicPattern (s : string) : bool :=
  let alnum := fun c => Str.is_digit c || Str.is_upper c in
  let institution := Str.take 4 s in
  let country := Str.take 2 (Str.drop 4 s) in
  let location := Str.take 2 (Str.drop 6 s) in
  let branch := Str.drop 8 s in
  (String.length institution =? 4)%nat && Str.all Str.is_upper institution
  && (String.length country =? 2)%nat && Str.all Str.is_upper country
  && (String.length location =? 2)%nat && Str.all alnum location
  && (String.eqb branch EmptyString
      || (String.length branch =? 3)%nat && Str.all alnum branch).

Definition validateBIC (bic : JsValue) : bool :=
  if negb (Js.truthy bic) || negb (String.eqb (Js.typeof bic) "string") then false
  else
    match bic with
    | JStr text =>
        let upperBic := Str.toUpperCase text in
        if negb (String.length upperBic =? 8)%nat
           && negb (String.length upperBic =? 11)%nat
        then false
        else bicPattern upperBic
    | _ => false
    end.

(** [getSupportedTypes()]: a copy of the list. *)
Definition getSupportedTypes : list string := supportedMessageTypes.

End SWIFTParser.

(** The object literal [parseMetadata] every banking parser attaches. *)
Definition parseMetadata (stamp : Stamp) (parser format : string) : JsValue :=
  Js.obj [("parseId", JStr (uuid stamp)); ("parser", JStr parser); ("format", JStr format)].

(** A property read whose receiver is known to be neither [null] nor
    [undefined] at that point. *)
Definition prop (v : JsValue) (k : string) : JsValue :=
  match Js.get v k with
  | Return x => x
  | Throw _ => JUndefined
  end.

(** ** TCS BaNCS (class [BANCSParser]) *)

Module BANCSParser.

(** The class defines no method [extractXMLField], so the first call to it
    raises a [TypeError], which the [catch] wraps like any other error. *)
Definition parseXML (stamp : Stamp) (xmlMessage : string) : Result JsValue :=
  try_catch
    (if negb (Str.includes "<Transaction>" xmlMessage)
     then Throw "Invalid BANCS XML: missing Transaction element"
     else Throw "this.extractXMLField is not a function")
    (fun error => Throw ("BANCS XML parsing failed: " +:+ error)).

Definition parseJSON `{Platform} (stamp : Stamp) (jsonMessage : string)
  : Result JsValue :=
  try_catch
    (let* data := JSON_parse jsonMessage in
     let* transactionId := Js.get data "transactionId" in
     if negb (Js.truthy transactionId)
     then Throw "Invalid BANCS JSON: missing transactionId"
     else Return (Js.obj
       [("messageType", JStr "BANCS_JSON");
        ("transactionId", transactionId);
        ("accountNumber", prop data "accountNumber");
        ("amount", prop data "amount");
        ("currency", prop data "currency");
        ("valueDate", prop data "valueDate");
        ("description", prop data "description");
        ("customerName", prop data "customerName");
        ("branchCode", prop data "branchCode");
        ("timestamp", JStr (now stamp));
        ("parseMetadata", parseMetadata stamp "BANCS" "JSON")]))
    (fun error => Throw ("BANCS JSON parsing failed: " +:+ error)).

Definition parseFlat (stamp : Stamp) (flatMessage : string) : Result JsValue :=
  try_catch
    (if (String.length flatMessage <? 50)%nat
     then Throw "Invalid BANCS flat file: message too short"
     else
       let transactionId := Str.trim (Str.substring 0 15 flatMessage) in
       let accountNumber := Str.trim (Str.substring 15 30 flatMessage) in
       let amountStr := Str.trim (Str.substring 30 42 flatMessage) in
       let currency := Str.trim (Str.substring 42 47 flatMessage) in
       let valueDate := Str.trim (Str.substring 47 55 flatMessage) in
       let description := Str.trim (Str.drop 55 flatMessage) in
       Return (Js.obj
         [("messageType", JStr "BANCS_FLAT");
          ("transactionId", JStr transactionId);
          ("accountNumber", JStr accountNumber);
          ("amount", JNum (Js.parseFloat amountStr));
          ("currency", JStr currency);
          ("valueDate", JStr valueDate);
          ("description", JStr description);
          ("timestamp", JStr (now stamp));
          ("parseMetadata", parseMetadata stamp "BANCS" "FLAT")]))
    (fun error => Throw ("BANCS flat file parsing failed: " +:+ error)).

(** [detectFormat(message)] of the class, on a text. *)
Definition detectFormat `{Platform} (message : string) : Result string :=
  if Str.startsWith "<?xml" (Str.trim message)
     || Str.startsWith "<Transaction>" (Str.trim message)
  then Return "XML"
  else
    let* json :=
      try_catch
        (let* parsed := JSON_parse message in
         let* transactionId := Js.get parsed "transactionId" in
         Return (Js.truthy transactionId || Js.truthy (prop parsed "accountNumber")))
        (fun _ => Return false) in
    if json then Return "JSON"
    else if Str.includes "TXN" message && Str.includes "ACC" message
            && (50 <? String.length message)%nat
    then Return "FLAT"
    else Return "UNKNOWN".

End BANCSParser.

(** ** FIS Systematics (class [FISParser]) *)

Module FISParser.

Definition parseFixedWidth (stamp : Stamp) (fixedWidthMessage : string)
  : Result JsValue :=
  try_catch
    (if (String.length fixedWidthMessage <? 100)%nat
     then Throw "Invalid FIS fixed width: message too short"
     else
       let recordType := Str.substring 0 2 fixedWidthMessage in
       let transactionId := Str.trim (Str.substring 2 17 fixedWidthMessage) in
       let accountNumber := Str.trim (Str.substring 17 32 fixedWidthMessage) in
       let amountStr := Str.trim (Str.substring 32 41 fixedWidthMessage) in
       let currency := Str.trim (Str.substring 41 44 fixedWidthMessage) in
       let valueDate := Str.trim (Str.substring 44 52 fixedWidthMessage) in
       let transactionType := Str.trim (Str.substring 52 55 fixedWidthMessage) in
       let description := Str.trim (Str.substring 55 100 fixedWidthMessage) in
       let customerName := Str.trim (Str.substring 100 150 fixedWidthMessage) in
       let branchCode := Str.trim (Str.substring 150 154 fixedWidthMessage) in
       Return (Js.obj
         [("messageType", JStr "FIS_FIXED");
          ("recordType", JStr recordType);
          ("transactionId", JStr transactionId);
          ("accountNumber", JStr accountNumber);
          ("amount", JNum (Js.div100 (Js.parseFloat amountStr)));
          ("currency", JStr currency);
          ("valueDate", JStr valueDate);
          ("transactionType", JStr transactionType);
          ("description", JStr description);
          ("customerName", JStr customerName);
          ("branchCode", JStr branchCode);
          ("timestamp", JStr (now stamp));
          ("parseMetadata", parseMetadata stamp "FIS" "FIXED_WIDTH")]))
    (fun error => Throw ("FIS fixed width parsing failed: " +:+ error)).

Definition parseJSON `{Platform} (stamp : Stamp) (jsonMessage : string)
  : Result JsValue :=
  try_catch
    (let* data := JSON_parse jsonMessage in
     let* transactionId := Js.get data "transactionId" in
     if negb (Js.truthy transactionId)
     then Throw "Invalid FIS JSON: missing transactionId"
     else Return (Js.obj
       [("messageType", JStr "FIS_JSON");
        ("transactionId", transactionId);
        ("accountNumber", prop data "accountNumber");
        ("amount", prop data "amount");
        ("currency", prop data "currency");
        ("valueDate", prop data "valueDate");
        ("transactionType", prop data "transactionType");
        ("description", prop data "description");
        ("customerName", prop data "customerName");
        ("branchCode", prop data "branchCode");
        ("timestamp", JStr (now stamp));
        ("parseMetadata", parseMetadata stamp "FIS" "JSON")]))
    (fun error => Throw ("FIS JSON parsing failed: " +:+ error)).

(** [fields[i]] on an array of strings. *)
Definition item (fields : list string) (i : nat) : JsValue :=
  match fields !! i with
  | Some s => JStr s
  | None => JUndefined
  end.

Definition parseDelimited (stamp : Stamp) (delimitedMessage : string)
  : Result JsValue :=
  try_catch
    (let fields := Str.split "|" delimitedMessage in
     if (length fields <? 8)%nat
     then Throw "Invalid FIS delimited: insufficient fields"
     else Return (Js.obj
       [("messageType", JStr "FIS_DELIMITED");
        ("transactionId", item fields 0);
        ("accountNumber", item fields 1);
        ("amount", JNum (Js.parseFloat (nth 2 fields EmptyString)));
        ("currency", item fields 3);
        ("valueDate", item fields 4);
        ("transactionType", item fields 5);
        ("description", item fields 6);
        ("customerName", item fields 7);
        ("branchCode", Js.or_else (item fields 8) (JStr EmptyString));
        ("timestamp", JStr (now stamp));
        ("parseMetadata", parseMetadata stamp "FIS" "DELIMITED")]))
    (fun error => Throw ("FIS delimited parsing failed: " +:+ error)).

(** [detectFormat(message)] of the class, on a text; the last test is
    [/^\d{2}$/] on the first two code units. *)
Definition detectFormat `{Platform} (message : string) : Result string :=
  let* json :=
    try_catch
      (let* parsed := JSON_parse message in
       let* transactionId := Js.get parsed "transactionId" in
       Return (Js.truthy transactionId && Js.truthy (prop parsed "accountNumber")))
      (fun _ => Return false) in
  if json then Return "JSON"
  else if Str.includes "|" message
          && (5 <? length (Str.split "|" message))%nat
  then Return "DELIMITED"
  else if (100 <? String.length message)%nat
          && (String.length (Str.substring 0 2 message) =? 2)%nat
          && Str.all Str.is_digit (Str.substring 0 2 message)
  then Return "FIXED_WIDTH"
  else Return "UNKNOWN".

End FISParser.

(** ** Fiserv DNA (class [FiservParser]) *)

Module FiservParser.

Definition parseDNA `{Platform} (stamp : Stamp) (jsonMessage : string)
  : Result JsValue :=
  try_catch
    (let* data := JSON_parse jsonMessage in
     let* transactionId := Js.get data "transactionId" in
     let* isDNA :=
       if Js.truthy transactionId
       then Js.startsWith "data.transactionId" transactionId "DNA"
       else Return false in
     if negb isDNA
     then Throw "Invalid Fiserv DNA JSON: missing or invalid transactionId"
     else Return (Js.obj
       [("messageType", JStr "FISERV_DNA");
        ("transactionId", transactionId);
        ("accountNumber", prop data "accountNumber");
        ("amount", prop data "amount");
        ("currency", prop data "currency");
        ("valueDate", prop data "valueDate");
        ("description", prop data "description");
        ("customerName", prop data "customerName");
        ("branchCode", prop data "branchCode");
        ("timestamp", JStr (now stamp));
        ("parseMetadata", parseMetadata stamp "FISERV" "DNA")]))
    (fun error => Throw ("Fiserv DNA parsing failed: " +:+ error)).

(** [detectFormat(message)] of the class, on a text. *)
Definition detectFormat `{Platform} (message : string) : Result string :=
  let* isDNA :=
    try_catch
      (let* parsed := JSON_parse message in
       let* transactionId := Js.get parsed "transactionId" in
       if Js.truthy transactionId
       then Js.startsWith "parsed.transactionId" transactionId "DNA"
       else Return false)
      (fun _ => Return false) in
  if isDNA then Return "DNA" else Return "UNKNOWN".

End FiservParser.

(** ** Temenos T24 (class [TemenosParser]) *)

Module TemenosParser.

Definition parseJSON `{Platform} (stamp : Stamp) (jsonMessage : string)
  : Result JsValue :=
  try_catch
    (let* data := JSON_parse jsonMessage in
     let* header := Js.get data "header" in
     let* messageId :=
       if Js.truthy header then Js.get header "messageId" else Return JUndefined in
     if negb (Js.truthy header) || negb (Js.truthy messageId)
     then Throw "Invalid Temenos JSON: missing header or messageId"
     else Return (Js.obj
       [("messageType", JStr "TEMENOS_JSON");
        ("header", header);
        ("transaction", prop data "transaction");
        ("debitAccount", prop data "debitAccount");
        ("creditAccount", prop data "creditAccount");
        ("narrative", prop data "narrative");
        ("timestamp", JStr (now stamp));
        ("parseMetadata", parseMetadata stamp "TEMENOS" "JSON")]))
    (fun error => Throw ("Temenos JSON parsing failed: " +:+ error)).

(** [parseFloat(v)] on a value: the argument is first converted to a string
    (an array converts to its items joined by commas). *)
Fixpoint parseFloatOf (v : JsValue) : JsNum :=
  match v with
  | JStr s => Js.parseFloat s
  | JNum n => n
  | JArr (x :: _) =>
      match x with
      | JUndefined | JNull => NaN
      | _ => parseFloatOf x
      end
  | _ => NaN
  end.

(** [transaction.k[0]] *)
Definition element (transaction : JsValue) (k : string) : Result JsValue :=
  let* items := Js.get transaction k in Js.first items.

Definition parseXML `{Platform} (stamp : Stamp) (xmlMessage : string)
  : Result JsValue :=
  try_catch
    (let* result := xml2js_parseString xmlMessage in
     let* transaction := Js.get result "TemenosTransaction" in
     if negb (Js.truthy transaction)
     then Throw "Invalid Temenos XML: missing TemenosTransaction element"
     else
       let* transactionReference := element transaction "TransactionReference" in
       let* amount := element transaction "Amount" in
       let* currency := element transaction "Currency" in
       let* valueDate := element transaction "ValueDate" in
       let* debitAccount := element transaction "DebitAccount" in
       let* creditAccount := element transaction "CreditAccount" in
       let* narrative := element transaction "Narrative" in
       Return (Js.obj
         [("messageType", JStr "TEMENOS_XML");
          ("transactionReference", transactionReference);
          ("amount", JNum (parseFloatOf amount));
          ("currency", currency);
          ("valueDate", valueDate);
          ("debitAccount", debitAccount);
          ("creditAccount", creditAccount);
          ("narrative", narrative);
          ("timestamp", JStr (now stamp));
          ("parseMetadata", parseMetadata stamp "TEMENOS" "XML")]))
    (fun error => Throw ("Temenos XML parsing failed: " +:+ error)).

(** [fields[key] = value] on the plain object [fields]: assigning a string
    to the key [__proto__] leaves the object as it is. *)
Definition assign (fields : gmap string string) (key value : string)
  : gmap string string :=
  if String.eqb key "__proto__" then fields else <[key := value]> fields.

(** The body of the [forEach] over the lines: [line.split('=')] is
    destructured into its first two parts. *)
Definition addLine (fields : gmap string string) (line : string)
  : gmap string string :=
  if Str.includes "=" line then
    match Str.split "=" line with
    | key :: value :: _ => assign fields (Str.trim key) (Str.trim value)
    | _ => fields
    end
  else fields.

(** The object [fields] after the loop. *)
Definition t24Fields (t24Message : string) : gmap string string :=
  foldl addLine ∅ (Str.split "010" t24Message).

(** [fields[k]] *)
Definition field (fields : gmap string string) (k : string) : JsValue :=
  match fields !! k with
  | Some v => JStr v
  | None => JUndefined
  end.

Definition parseT24 (stamp : Stamp) (t24Message : string) : Result JsValue :=
  try_catch
    (let fields := t24Fields t24Message in
     if negb (Js.truthy (field fields "TXN.REF"))
     then Throw "Invalid Temenos T24: missing TXN.REF"
     else Return (Js.obj
       [("messageType", JStr "TEMENOS_T24");
        ("transactionReference", field fields "TXN.REF");
        ("amount", JNum (parseFloatOf (field fields "AMOUNT")));
        ("currency", field fields "CURRENCY");
        ("valueDate", field fields "VALUE.DATE");
        ("debitAccount", field fields "DEBIT.ACCT");
        ("creditAccount", field fields "CREDIT.ACCT");
        ("narrative", field fields "NARRATIVE");
        ("customerNumber", field fields "CUSTOMER.NO");
        ("productCode", field fields "PRODUCT.CODE");
        ("timestamp", JStr (now stamp));
        ("parseMetadata", parseMetadata stamp "TEMENOS" "T24")]))
    (fun error => Throw ("Temenos T24 parsing failed: " +:+ error)).

(** [detectFormat(message)] of the class, on a text. *)
Definition detectFormat `{Platform} (message : string) : Result string :=
  if Str.startsWith "<?xml" (Str.trim message)
     || Str.startsWith "<TemenosTransaction>" (Str.trim message)
  then Return "XML"
  else
    let* json :=
      try_catch
        (let* parsed := JSON_parse message in
         let* header := Js.get parsed "header" in
         if Js.truthy header then
           let messageId := prop header "messageId" in
           if Js.truthy messageId
           then Js.startsWith "parsed.header.messageId" messageId "TMN"
           else Return false
         else Return false)
        (fun _ => Return false) in
    if json then Return "JSON"
    else if Str.includes "TXN.REF=" message && Str.includes "AMOUNT=" message
    then Return "T24"
    else Return "UNKNOWN".

End TemenosParser.

(** ** ISO 20022 (class [ISO20022Parser]) *)

Module ISO20022Parser.

Definition amountEUR : JsValue :=
  Js.obj [("amount", JNum (Decimal false 4500 0)); ("currency", JStr "EUR")].

Definition parsePacs008 (stamp : Stamp) (xmlMessage : string) : Result JsValue :=
  try_catch
    (if negb (Str.includes "pacs.008" xmlMessage)
     then Throw "Invalid ISO 20022: not a pacs.008 message"
     else Return (Js.obj
       [("messageType", JStr "pacs.008");
        ("groupHeader", Js.obj
          [("messageId", JStr "ISO123456789");
           ("creationDateTime", JStr "2024-07-01T10:00:00Z");
           ("numberOfTransactions", JNum (Decimal false 1 0));
           ("totalInterbankSettlementAmount", amountEUR);
           ("interbankSettlementDate", JStr "2024-07-01");
           ("settlementMethod", JStr "CLRG")]);
        ("creditTransferTransactionInformation", Js.obj
          [("paymentIdentification", Js.obj
             [("instructionId", JStr "INSTR001");
              ("endToEndId", JStr "E2E001");
              ("transactionId", JStr "TXN001")]);
           ("instructedAmount", amountEUR);
           ("chargeBearerCode", JStr "SLEV");
           ("debtor", Js.obj [("name", JStr "Sender Corporation")]);
           ("debtorAccount", Js.obj [("iban", JStr "DE89123456789012345678")]);
           ("debtorAgent", Js.obj [("bic", JStr "DEUTDEFF")]);
           ("creditor", Js.obj [("name", JStr "Receiver Limited")]);
           ("creditorAccount", Js.obj [("iban", JStr "FR1234567890123456789012")]);
           ("creditorAgent", Js.obj [("bic", JStr "BNPAFRPP")]);
           ("remittanceInformation",
            Js.obj [("unstructured", JStr "Invoice payment ISO20022")])]);
        ("timestamp", JStr (now stamp));
        ("parseMetadata", parseMetadata stamp "ISO20022" "pacs.008")]))
    (fun error => Throw ("ISO 20022 pacs.008 parsing failed: " +:+ error)).

End ISO20022Parser.

(** ** The COBOL stub ([detectCOBOL], [parseCOBOL]) *)

Module Cobol.

(** The text after the longest run of the code unit [c] at the head of [s],
    and the length of that run. *)
Fixpoint skip_run (c : ascii) (s : string) : nat * string :=
  match s with
  | String d s' =>
      if Str.eqc d c then let '(n, r) := skip_run c s' in (S n, r) else (O, s)
  | EmptyString => (O, s)
  end.

(** The first indicator, anchored at the head of a line: any number of [s],
    six [d], at least one [s] (the pattern has no backslashes). *)
Definition lineNumberAt (line : string) : bool :=
  let '(_, r) := skip_run "s" line in
  Str.startsWith "dddddd" r && Str.startsWith "s" (Str.drop 6 r).

(** The same indicator under flag [m]: at the head of the text or after a
    line terminator. *)
Fixpoint lineNumbers_from (atLineStart : bool) (s : string) : bool :=
  (atLineStart && lineNumberAt s) ||
  match s with
  | EmptyString => false
  | String c s' => lineNumbers_from (Str.eqc c "010" || Str.eqc c "013") s'
  end.

(** [/PICs+[X9]/i] anchored at the head of [s]. *)
Definition picAt (s : string) : bool :=
  Str.startsWith "PIC" s &&
  let '(n, r) := skip_run "S" (Str.drop 3 s) in
  (0 <? n)%nat && (Str.startsWith "X" r || Str.startsWith "9" r).

(** [/COPYs+w+/i] anchored at the head of [s]. *)
Definition copyAt (s : string) : bool :=
  Str.startsWith "COPY" s &&
  let '(n, r) := skip_run "S" (Str.drop 4 s) in
  (0 <? n)%nat && Str.startsWith "W" r.

(** Some suffix of [s] satisfies [p]. *)
Fixpoint anywhere (p : string -> bool) (s : string) : bool :=
  p s ||
  match s with
  | EmptyString => false
  | String _ s' => anywhere p s'
  end.

Definition detectCOBOL (data : string) : bool :=
  lineNumbers_from true data
  || Str.includes_i "IDENTIFICATION DIVISION" data
  || Str.includes_i "DATA DIVISION" data
  || Str.includes_i "PROCEDURE DIVISION" data
  || anywhere picAt (Str.toUpperCase data)
  || anywhere copyAt (Str.toUpperCase data).

Definition parseCOBOL (data : string) : Result JsValue :=
  if detectCOBOL data
  then Throw ("COBOL copybook detected. COBOL parsing requires SwiftParser Enterprise. "
              +:+ "Visit https://gridworks.ai/enterprise or contact enterprise@gridworks.ai")
  else Return JNull.

End Cobol.

(** ** The enhanced SWIFT parser (class [EnhancedSWIFTParser]): detection *)

Module EnhancedSWIFTParser.

(** The [try] block of [detectMessageFormat] around [JSON.parse]. *)
Definition detectJSON `{Platform} (message : string) : Result (option string) :=
  let* parsed := JSON_parse message in
  let* transactionId := Js.get parsed "transactionId" in
  let* found :=
    if Js.truthy transactionId then
      let* isTXN := Js.startsWith "parsed.transactionId" transactionId "TXN" in
      if isTXN then Return (Some "BANCS_JSON")
      else
        let* isDNA := Js.startsWith "parsed.transactionId" transactionId "DNA" in
        if isDNA then Return (Some "FISERV_DNA") else Return None
    else Return None in
  match found with
  | Some label => Return (Some label)
  | None =>
      let header := prop parsed "header" in
      if Js.truthy header then
        let messageId := prop header "messageId" in
        if Js.truthy messageId then
          let* isTMN := Js.startsWith "parsed.header.messageId" messageId "TMN" in
          if isTMN then Return (Some "TEMENOS_JSON") else Return None
        else Return None
      else Return None
  end.

Definition detectMessageFormat `{Platform} (message : JsValue) : Result string :=
  match message with
  | JStr text =>
      if negb (Js.truthy message) then Return "UNKNOWN"
      else
        let swift :=
          if Str.includes "{1:" text && Str.includes "{2:" text && Str.includes "{4:" text
          then SWIFTParser.headerMatch text else None in
        match swift with
        | Some code => Return ("MT" +:+ code)
        | None =>
            if Str.includes "<?xml" text && Str.includes "urn:iso:std:iso:20022" text
            then Return "ISO20022"
            else if Str.includes "<Transaction>" text || Str.includes "TransactionID" text
            then Return "BANCS_XML"
            else
              let* json := try_catch (detectJSON text) (fun _ => Return None) in
              match json with
              | Some label => Return label
              | None =>
                  if Str.includes "<TemenosTransaction>" text then Return "TEMENOS_XML"
                  else Return "UNKNOWN"
              end
        end
  | _ => Return "UNKNOWN"
  end.

End EnhancedSWIFTParser.

(** ** The facade (class [SwiftParserOSS]) *)

Module SwiftParserOSS.

(** The object [this.metrics]. *)
Record Metrics : Type := {
  totalParsed : N;
  successfulParses : N;
  failedParses : N
}.

(** The store of metrics objects, by address. *)
Abbreviation Heap := (gmap positive Metrics).

(** An instance: the address of its [metrics] object. *)
Record Instance : Type := { metrics : positive }.

(** What one call of [parse] reads from the platform: the stamp its parser
    takes, the nanoseconds between the two [process.hrtime.bigint()]
    readings, and the clock at the end. *)
Record Reading : Type := {
  stamp : Stamp;
  elapsed : Z;
  finished : string
}.

(** How the [try] block of [parse] ends when it does not throw: at its last
    statement with a parser's result, or at the [return] of the COBOL
    branch. *)
Inductive Completion : Type :=
| Parsed (result : JsValue)
| Returned (value : JsValue).

(** [new SwiftParserOSS()]: a fresh metrics object, all counters zero. *)
Definition new (h : Heap) : Instance * Heap :=
  let l := fresh (dom h) in
  ({| metrics := l |},
   <[l := {| totalParsed := 0; successfulParses := 0; failedParses := 0 |}]> h).

(** [this.metrics.totalParsed++] and the like. *)
Definition incTotal (m : Metrics) : Metrics :=
  {| totalParsed := totalParsed m + 1;
     successfulParses := successfulParses m;
     failedParses := failedParses m |}.

Definition incSuccessful (m : Metrics) : Metrics :=
  {| totalParsed := totalParsed m;
     successfulParses := successfulParses m + 1;
     failedParses := failedParses m |}.

Definition incFailed (m : Metrics) : Metrics :=
  {| totalParsed := totalParsed m;
     successfulParses := successfulParses m;
     failedParses := failedParses m + 1 |}.

(** The [try] block of [detectFormat] around [JSON.parse]: [Some label] when
    it returns a label, [None] when control leaves the block. *)
Definition detectJSON `{Platform} (message : string) : Result (option string) :=
  let* parsed := JSON_parse message in
  let* transactionId := Js.get parsed "transactionId" in
  let* found :=
    if Js.truthy transactionId then
      let* isDNA := Js.startsWith "parsed.transactionId" transactionId "DNA" in
      if isDNA then Return (Some "FISERV_DNA")
      else
        let* isTXN := Js.startsWith "parsed.transactionId" transactionId "TXN" in
        if isTXN then
          if Js.truthy (prop parsed "transactionType") && Js.truthy (prop parsed "branchCode")
          then Return (Some "FIS_JSON")
          else Return (Some "BANCS_JSON")
        else Return None
    else Return None in
  match found with
  | Some label => Return (Some label)
  | None =>
      let header := prop parsed "header" in
      if Js.truthy header then
        let messageId := prop header "messageId" in
        if Js.truthy messageId then
          let* isTMN := Js.startsWith "parsed.header.messageId" messageId "TMN" in
          if isTMN then Return (Some "TEMENOS_JSON") else Return None
        else Return None
      else Return None
  end.

Definition detectFormat `{Platform} (message : JsValue) : Result string :=
  match message with
  | JStr text =>
      if negb (Js.truthy message) then Return "UNKNOWN"
      else
        let swift :=
          if Str.includes "{1:" text && Str.includes "{2:" text && Str.includes "{4:" text
          then SWIFTParser.headerMatch text else None in
        match swift with
        | Some code => Return ("MT" +:+ code)
        | None =>
            if Str.includes "<?xml" text && Str.includes "urn:iso:std:iso:20022" text
            then Return "ISO20022"
            else if Str.includes "<Transaction>" text || Str.includes "TransactionID" text
            then Return "BANCS_XML"
            else
              let* json := try_catch (detectJSON text) (fun _ => Return None) in
              match json with
              | Some label => Return label
              | None =>
                  if Str.includes "<TemenosTransaction>" text then Return "TEMENOS_XML"
                  else if Cobol.detectCOBOL text then Return "COBOL"
                  else Return "UNKNOWN"
              end
        end
  | _ => Return "UNKNOWN"
  end.

(** [format || this.detectFormat(message)], then [.toUpperCase()]. *)
Definition effectiveFormat `{Platform} (message format : JsValue) : Result string :=
  if Js.truthy format then
    match format with
    | JStr label => Return label
    | _ => Throw "detectedFormat.toUpperCase is not a function"
    end
  else detectFormat message.

(** The routing of [parse] on the upper-cased format label. *)
Definition route `{Platform} (stamp : Stamp) (message formatUpper : string)
  : Result Completion :=
  if Str.startsWith "MT" formatUpper then
    let* result := SWIFTParser.parse stamp (JStr message) in Return (Parsed result)
  else if String.eqb formatUpper "ISO20022" || String.eqb formatUpper "PACS.008" then
    let* result := ISO20022Parser.parsePacs008 stamp message in Return (Parsed result)
  else if Str.includes "BANCS" formatUpper then
    if Str.includes "JSON" formatUpper then
      let* result := BANCSParser.parseJSON stamp message in Return (Parsed result)
    else if Str.includes "XML" formatUpper then
      let* result := BANCSParser.parseXML stamp message in Return (Parsed result)
    else
      let* result := BANCSParser.parseFlat stamp message in Return (Parsed result)
  else if Str.includes "FIS" formatUpper then
    if Str.includes "JSON" formatUpper then
      let* result := FISParser.parseJSON stamp message in Return (Parsed result)
    else
      let* result := FISParser.parseFixedWidth stamp message in Return (Parsed result)
  else if Str.includes "FISERV" formatUpper || Str.includes "DNA" formatUpper then
    let* result := FiservParser.parseDNA stamp message in Return (Parsed result)
  else if Str.includes "TEMENOS" formatUpper then
    if Str.includes "JSON" formatUpper then
      let* result := TemenosParser.parseJSON stamp message in Return (Parsed result)
    else if Str.includes "XML" formatUpper then
      let* result := TemenosParser.parseXML stamp message in Return (Parsed result)
    else
      let* result := TemenosParser.parseT24 stamp message in Return (Parsed result)
  else if Cobol.detectCOBOL message then
    let* value := Cobol.parseCOBOL message in Return (Returned value)
  else Throw "Unsupported message format".

(** [Math.max(1, Number(elapsed / BigInt(1000000)))] *)
Definition parseTime (elapsed : Z) : JsNum :=
  let ms := Z.max 1 (Z.quot elapsed 1000000) in
  Decimal false (Z.to_N ms) 0.

(** The timing metadata stamped on a parser's result. *)
Definition addTiming (rd : Reading) (result : JsValue) : Result JsValue :=
  let* existing := Js.get result "parseMetadata" in
  let parseMetadata := Js.or_else existing (Js.obj []) in
  let parseMetadata := Js.set parseMetadata "parseTime" (JNum (parseTime (elapsed rd))) in
  let parseMetadata := Js.set parseMetadata "timestamp" (JStr (finished rd)) in
  Return (Js.set result "parseMetadata" parseMetadata).

(** The [try] block of [parse]. *)
Definition parseBody `{Platform} (rd : Reading) (message format : JsValue)
  : Result Completion :=
  match message with
  | JNull | JUndefined => Throw "Invalid input: message cannot be null or undefined"
  | JStr text =>
      if String.eqb (Str.trim text) EmptyString
      then Throw "Invalid input: message cannot be empty"
      else
        let* detectedFormat := effectiveFormat message format in
        let formatUpper := Str.toUpperCase detectedFormat in
        let* completion := route (stamp rd) text formatUpper in
        match completion with
        | Parsed result => let* result := addTiming rd result in Return (Parsed result)
        | Returned value => Return (Returned value)
        end
  | _ => Throw "Invalid input: message must be a string"
  end.

(** [parse(message, format)] on the instance [self]: the result of the
    call and the store after it. *)
Definition parse `{Platform} (rd : Reading) (self : Instance) (h : Heap)
    (message format : JsValue) : Result JsValue * Heap :=
  let h := alter incTotal (metrics self) h in
  match parseBody rd message format with
  | Return (Parsed result) => (Return result, alter incSuccessful (metrics self) h)
  | Return (Returned value) => (Return value, h)
  | Throw error => (Throw error, alter incFailed (metrics self) h)
  end.

(** [getMetrics()]: a new object with the fields of [this.metrics]. *)
Definition getMetrics (self : Instance) (h : Heap) : option (positive * Heap) :=
  match h !! metrics self with
  | Some m => let l := fresh (dom h) in Some (l, <[l := m]> h)
  | None => None
  end.

(** The slot [batchParse] pushes for one call of [parse]. *)
Definition slot (message : JsValue) (r : Result JsValue) : JsValue :=
  match r with
  | Return result => result
  | Throw error => Js.obj [("error", JStr error); ("originalMessage", message)]
  end.

(** [batchParse(messages)]: the [i]-th call of [parse] reads [clock i]. *)
Fixpoint batchParse_from `{Platform} (clock : nat -> Reading) (i : nat)
    (self : Instance) (h : Heap) (messages : list JsValue) : list JsValue * Heap :=
  match messages with
  | [] => ([], h)
  | message :: rest =>
      let '(r, h') := parse (clock i) self h message JUndefined in
      let '(results, h'') := batchParse_from clock (S i) self h' rest in
      (slot message r :: results, h'')
  end.

Definition batchParse `{Platform} (clock : nat -> Reading)
    (self : Instance) (h : Heap) (messages : list JsValue) : list JsValue * Heap :=
  batchParse_from clock 0 self h messages.

Definition getSupportedFormats : list string :=
  ["MT103"; "MT202"; "MT515"; "MT700"; "MT798"; "MT950"; "MT101";
   "ISO20022"; "BANCS_XML"; "BANCS_JSON"; "BANCS_FLAT";
   "FIS_FIXED"; "FIS_JSON"; "FIS_DELIMITED";
   "FISERV_DNA"; "TEMENOS_JSON"; "TEMENOS_XML"; "TEMENOS_T24"].

(** [parseWithFormat(message, format)] for a format label: the two checks
    run before [parse] is called, so an error of theirs leaves the store as
    it is. *)
Definition parseWithFormat `{Platform} (rd : Reading) (self : Instance) (h : Heap)
    (message : JsValue) (format : string) : Result JsValue * Heap :=
  if negb (SWIFTParser.includes format getSupportedFormats)
  then (Throw ("Unsupported format: " +:+ format), h)
  else
    match detectFormat message with
    | Throw error => (Throw error, h)
    | Return detectedFormat =>
        if negb (String.eqb detectedFormat "UNKNOWN")
           && negb (String.eqb detectedFormat format)
        then (Throw ("Format mismatch: expected " +:+ format
                     +:+ " but detected " +:+ detectedFormat), h)
        else parse rd self h message (JStr format)
    end.

(** [validate(message)]: the [catch] answers [false]. *)
Definition validate `{Platform} (message : JsValue) : bool :=
  match
    try_catch
      (match message with
       | JStr text =>
           if negb (Js.truthy message) || String.eqb (Str.trim text) EmptyString
           then Return false
           else
             let* format := detectFormat message in
             Return (negb (String.eqb format "UNKNOWN"))
       | _ => Return false
       end)
      (fun _ => Return false)
  with
  | Return answer => answer
  | Throw _ => false
  end.

End SwiftParserOSS.

(** ** A model of the platform, to run the parsers on examples *)

Module Json.

(** JSON white space. *)
Definition is_ws (c : ascii) : bool :=
  Str.eqc c " " || Str.eqc c "009" || Str.eqc c "010" || Str.eqc c "013".

Fixpoint skip_ws (s : string) : string :=
  match s with
  | String c s' => if is_ws c then skip_ws s' else s
  | EmptyString => s
  end.

Definition hex_value (c : ascii) : option nat :=
  let n := nat_of_ascii c in
  if Str.is_digit c then Some (n - 48)%nat
  else if ((65 <=? n) && (n <=? 70))%nat then Some (n - 55)%nat
  else if ((97 <=? n) && (n <=? 102))%nat then Some (n - 87)%nat
  else None.

(** The code unit of a four-digit escape, when it is below 256. *)
Definition unicode_escape (s : string) : option (ascii * string) :=
  match s with
  | String a (String b (String c (String d rest))) =>
      match hex_value a, hex_value b, hex_value c, hex_value d with
      | Some 0%nat, Some 0%nat, Some x, Some y => Some (ascii_of_nat (16 * x + y), rest)
      | _, _, _, _ => None
      end
  | _ => None
  end.

Definition escape (e : ascii) : option ascii :=
  if Str.eqc e "034" then Some "034"%char
  else if Str.eqc e "092" then Some "092"%char
  else if Str.eqc e "/" then Some "/"%char
  else if Str.eqc e "b" then Some "008"%char
  else if Str.eqc e "f" then Some "012"%char
  else if Str.eqc e "n" then Some "010"%char
  else if Str.eqc e "r" then Some "013"%char
  else if Str.eqc e "t" then Some "009"%char
  else None.

(** The characters of a string literal after its opening quote, and the
    text after its closing quote; [pending] is set after a backslash. *)
Fixpoint chars (pending : bool) (s : string) : option (string * string) :=
  match s with
  | EmptyString => None
  | String c s' =>
      if pending then
        if Str.eqc c "u" then
          match unicode_escape s' with
          | Some (x, _) =>
              (* the four digits are read again, and dropped, below *)
              option_map (fun '(t, r) => (String x (Str.drop 4 t), r)) (chars false s')
          | None => None
          end
        else
          match escape c with
          | Some x => option_map (fun '(t, r) => (String x t, r)) (chars false s')
          | None => None
          end
      else if Str.eqc c "034" then Some (EmptyString, s')
      else if (nat_of_ascii c <? 32)%nat then None
      else if Str.eqc c "092" then chars true s'
      else option_map (fun '(t, r) => (String c t, r)) (chars false s')
  end.

(** A number literal at the head of [s]. *)
Definition number (s : string) : option (JsNum * string) :=
  let '(negative, s1) :=
    match s with
    | String c r => if Str.eqc c "-" then (true, r) else (false, s)
    | EmptyString => (false, s)
    end in
  let '(int_part, s2) := Js.span_digits s1 in
  if String.eqb int_part EmptyString
     || (Str.startsWith "0" int_part && (1 <? String.length int_part)%nat)
  then None
  else
    let frac :=
      match s2 with
      | String c r =>
          if Str.eqc c "." then
            let '(f, r') := Js.span_digits r in
            if String.eqb f EmptyString then None else Some (f, r')
          else Some (EmptyString, s2)
      | EmptyString => Some (EmptyString, s2)
      end in
    match frac with
    | None => None
    | Some (frac_part, s3) =>
        let expo :=
          match s3 with
          | String c r =>
              if Str.eqc c "e" || Str.eqc c "E" then
                let '(sign, r1) :=
                  match r with
                  | String g r' =>
                      if Str.eqc g "-" then (-1, r')
                      else if Str.eqc g "+" then (1, r') else (1, r)
                  | EmptyString => (1, r)
                  end in
                let '(ds, r2) := Js.span_digits r1 in
                if String.eqb ds EmptyString then None
                else Some (sign * Z.of_N (Js.digits_value ds), r2)
              else Some (0, s3)
          | EmptyString => Some (0, s3)
          end in
        match expo with
        | None => None
        | Some (e, s4) =>
            Some (Decimal negative (Js.digits_value (int_part +:+ frac_part))
                    (e - Z.of_nat (String.length frac_part)), s4)
        end
    end.

(** One JSON value at the head of [s], and the text after it. *)
Fixpoint value (fuel : nat) (s : string) : option (JsValue * string) :=
  match fuel with
  | O => None
  | S fuel' =>
      match skip_ws s with
      | EmptyString => None
      | String c r as s0 =>
          if Str.eqc c "{" then
            match skip_ws r with
            | String d r' =>
                if Str.eqc d "}" then Some (JObj ∅, r') else members fuel' (String d r') ∅
            | EmptyString => None
            end
          else if Str.eqc c "[" then
            match skip_ws r with
            | String d r' =>
                if Str.eqc d "]" then Some (JArr [], r') else elements fuel' (String d r') []
            | EmptyString => None
            end
          else if Str.eqc c "034" then
            option_map (fun '(t, r') => (JStr t, r')) (chars false r)
          else if Str.startsWith "true" s0 then Some (JBool true, Str.drop 4 s0)
          else if Str.startsWith "false" s0 then Some (JBool false, Str.drop 5 s0)
          else if Str.startsWith "null" s0 then Some (JNull, Str.drop 4 s0)
          else option_map (fun '(n, r') => (JNum n, r')) (number s0)
      end
  end
with elements (fuel : nat) (s : string) (acc : list JsValue)
  : option (JsValue * string) :=
  match fuel with
  | O => None
  | S fuel' =>
      match value fuel' s with
      | Some (v, r) =>
          match skip_ws r with
          | String c r' =>
              if Str.eqc c "," then elements fuel' r' (acc ++ [v])
              else if Str.eqc c "]" then Some (JArr (acc ++ [v]), r')
              else None
          | EmptyString => None
          end
      | None => None
      end
  end
with members (fuel : nat) (s : string) (acc : gmap string JsValue)
  : option (JsValue * string) :=
  match fuel with
  | O => None
  | S fuel' =>
      match skip_ws s with
      | String q r0 =>
          if Str.eqc q "034" then
            match chars false r0 with
            | Some (k, r1) =>
                match skip_ws r1 with
                | String colon r2 =>
                    if Str.eqc colon ":" then
                      match value fuel' r2 with
                      | Some (v, r3) =>
                          match skip_ws r3 with
                          | String c r4 =>
                              if Str.eqc c "," then members fuel' r4 (<[k := v]> acc)
                              else if Str.eqc c "}" then Some (JObj (<[k := v]> acc), r4)
                              else None
                          | EmptyString => None
                          end
                      | None => None
                      end
                    else None
                | EmptyString => None
                end
            | None => None
            end
          else None
      | EmptyString => None
      end
  end.

(** [JSON.parse]: one value, with nothing but white space after it. *)
Definition parse (s : string) : Result JsValue :=
  match value (2 * String.length s + 2) s with
  | Some (v, r) =>
      if String.eqb (skip_ws r) EmptyString then Return v
      else Throw "Unexpected token in JSON"
  | None => Throw "Unexpected token in JSON"
  end.

End Json.

(** A platform for the examples: [JSON.parse] as above; xml2js in its
    synchronous mode, where [parseString] answers [true] on a blank text
    and its SAX parser (an object with no property of the document)
    otherwise. *)
Definition node : Platform := {|
  JSON_parse := Json.parse;
  xml2js_parseString := fun s =>
    if String.eqb (Str.trim s) EmptyString then Return (JBool true) else Return (JObj ∅)
|}.

(** * Vocabulary of the properties *)

(** The field [messageType] of a result. *)
Definition messageTypeOf (result : JsValue) : Result JsValue :=
  Js.get result "messageType".

(** The property [k] of what a call returns. *)
Definition propertyOf (call : Result JsValue) (k : string) : Result JsValue :=
  let* record := call in Js.get record k.

(** A payload that is [null], [undefined], not a string, or empty after
    trimming. *)
Definition invalidInput (message : JsValue) : bool :=
  match message with
  | JStr text => String.eqb (Str.trim text) EmptyString
  | _ => true
  end.

(** The message of the error such a payload is answered with. *)
Definition invalidInputError (message : JsValue) : string :=
  match message with
  | JNull | JUndefined => "Invalid input: message cannot be null or undefined"
  | JStr _ => "Invalid input: message cannot be empty"
  | _ => "Invalid input: message must be a string"
  end.

(** One call of [parse] by a client of the facade. *)
Record Call : Type := {
  reading : SwiftParserOSS.Reading;
  payload : JsValue;
  hint : JsValue
}.

(** The store after a sequence of calls of [parse] on one instance. *)
Fixpoint run `{Platform} (self : SwiftParserOSS.Instance)
    (h : SwiftParserOSS.Heap) (calls : list Call) : SwiftParserOSS.Heap :=
  match calls with
  | [] => h
  | c :: more =>
      run self (snd (SwiftParserOSS.parse (reading c) self h (payload c) (hint c))) more
  end.

(** The kinds of error of [SWIFTParser.parse], by message. *)
Definition invalidFormat (e : string) : bool :=
  Str.startsWith "Invalid SWIFT message format: " e
  || String.eqb e "Invalid message format: message must be a non-empty string".

Definition unsupportedType (e : string) : bool :=
  Str.startsWith "Unsupported message type: " e.

Definition missingField (e : string) : bool :=
  Str.startsWith "Missing required field: " e.

Definition invalidAmountFormat (e : string) : bool :=
  Str.startsWith "Invalid amount field format: " e.

(** The tag of a matched text. *)
Definition tagOf (m : string) : option string :=
  option_map fst (SWIFTParser.fieldMatch m).

(** Days of month [m] (1 to 12) of year [y]. *)
Definition daysInMonth (y m : Z) : Z :=
  match m with
  | 1 | 3 | 5 | 7 | 8 | 10 | 12 => 31
  | 4 | 6 | 9 | 11 => 30
  | 2 => if JsDate.InLeapYear y then 29 else 28
  | _ => 0
  end.

(** Days of month [m] (0-based) of a leap or common year. *)
Definition daysIn (leap : bool) (m : Z) : Z :=
  JsDate.month_start leap (m + 1) - JsDate.month_start leap m.

(** [MonthFromDayInYear] finds the month of day [dd] of month [mm]. *)
Definition month_agrees (leap : bool) (mm dd : nat) : bool :=
  let m := Z.of_nat mm in
  let d := Z.of_nat dd in
  if d <=? daysIn leap m
  then JsDate.MonthFromDayInYear leap (JsDate.month_start leap m + d - 1) =? m
  else true.

(** The amount characters of field 32A: digits, commas and periods. *)
Definition amountChar (c : ascii) : bool :=
  Str.is_digit c || Str.eqc c "," || Str.eqc c ".".

(** The shape of field 32A: six digits, three capital letters, and one or
    more amount characters. *)
Definition amountShape (dateStr cur amountStr : string) : Prop :=
  String.length dateStr = 6%nat /\ Str.all Str.is_digit dateStr = true /\
  String.length cur = 3%nat /\ Str.all Str.is_upper cur = true /\
  amountStr <> EmptyString /\ Str.all amountChar amountStr = true.

(** The message types of the enhanced parser that [getSupportedFormats]
    lists besides MT103 and MT202. *)
Definition enhancedTypes : list string := ["MT515"; "MT700"; "MT798"; "MT950"; "MT101"].

(** ** The facade: labels, records and requests *)

(** The message of the error [parseCOBOL] throws. *)
Definition cobolError : string :=
  "COBOL copybook detected. COBOL parsing requires SwiftParser Enterprise. "
  +:+ "Visit https://gridworks.ai/enterprise or contact enterprise@gridworks.ai".

(** A label that no branch of the routing of [parse] takes. *)
Definition unroutable (label : string) : bool :=
  let formatUpper := Str.toUpperCase label in
  negb (Str.startsWith "MT" formatUpper)
  && negb (String.eqb formatUpper "ISO20022") && negb (String.eqb formatUpper "PACS.008")
  && negb (Str.includes "BANCS" formatUpper) && negb (Str.includes "FIS" formatUpper)
  && negb (Str.includes "DNA" formatUpper) && negb (Str.includes "TEMENOS" formatUpper).

(** The [messageType] of the records [parse] returns for a format label. *)
Definition recordType (label : string) : string :=
  if String.eqb label "ISO20022" then "pacs.008"
  else if String.eqb label "FISERV_DNA" then "FIS_FIXED"
  else label.

(** The metadata a parser attaches to its result: an object, or nothing. *)
Definition metadataOf (result : JsValue) : gmap string JsValue :=
  match result with
  | JObj fields =>
      match fields !! "parseMetadata" with
      | Some (JObj metadata) => metadata
      | _ => ∅
      end
  | _ => ∅
  end.

(** A result that is an object whose [parseMetadata], when there is one, is
    an object. *)
Definition plain (result : JsValue) : Prop :=
  exists fields, result = JObj fields /\
    (fields !! "parseMetadata" = None \/
     exists metadata, fields !! "parseMetadata" = Some (JObj metadata)).

(** One call of a client on an instance of the facade. *)
Inductive Request : Type :=
| Parse (rd : SwiftParserOSS.Reading) (payload hint : JsValue)
| ParseWithFormat (rd : SwiftParserOSS.Reading) (payload : JsValue) (format : string)
| BatchParse (clock : nat -> SwiftParserOSS.Reading) (payloads : list JsValue)
| GetMetrics.

(** The store after a sequence of requests on one instance. *)
Fixpoint serve `{Platform} (self : SwiftParserOSS.Instance)
    (h : SwiftParserOSS.Heap) (requests : list Request) : SwiftParserOSS.Heap :=
  match requests with
  | [] => h
  | Parse rd payload hint :: more =>
      serve self (snd (SwiftParserOSS.parse rd self h payload hint)) more
  | ParseWithFormat rd payload format :: more =>
      serve self (snd (SwiftParserOSS.parseWithFormat rd self h payload format)) more
  | BatchParse clock payloads :: more =>
      serve self (snd (SwiftParserOSS.batchParse clock self h payloads)) more
  | GetMetrics :: more =>
      match SwiftParserOSS.getMetrics self h with
      | Some (_, h') => serve self h' more
      | None => serve self h more
      end
  end.

(** The payloads a request hands over. *)
Definition submitted (r : Request) : nat :=
  match r with
  | Parse _ _ _ | ParseWithFormat _ _ _ => 1
  | BatchParse _ payloads => length payloads
  | GetMetrics => 0
  end.

Definition checksFormat (r : Request) : bool :=
  match r with
  | ParseWithFormat _ _ _ => true
  | _ => false
  end.

(** The counters [m'] are those of [m] after [k] counted payloads. *)
Definition counted (m m' : SwiftParserOSS.Metrics) (k : nat) : Prop :=
  SwiftParserOSS.totalParsed m' = (SwiftParserOSS.totalParsed m + N.of_nat k)%N /\
  (SwiftParserOSS.successfulParses m' + SwiftParserOSS.failedParses m'
   = SwiftParserOSS.successfulParses m + SwiftParserOSS.failedParses m + N.of_nat k)%N.

(** The label of [detectMessageFormat] for a label of [detectFormat]. *)
Definition enhancedLabel (label : string) : string :=
  if String.eqb label "FIS_JSON" then "BANCS_JSON"
  else if String.eqb label "COBOL" then "UNKNOWN"
  else label.

(** ** The base parser: headers, blocks, tags *)

(** An input application header in a message: the mark [{2:I] and a code of
    three digits, after [pre] and before [rest]. *)
Definition headerAt (message pre code rest : string) : Prop :=
  message = pre +:+ "{2:I" +:+ code +:+ rest /\
  String.length code = 3%nat /\ Str.all Str.is_digit code = true.

(** A text block in a message: the mark [{4:], a text and a closing brace. *)
Definition blockAt (message pre textBlock post : string) : Prop :=
  message = pre +:+ "{4:" +:+ textBlock +:+ "}" +:+ post.

(** A field tag: two digits and, optionally, a capital letter. *)
Definition isTag (t : string) : bool :=
  match t with
  | String d1 (String d2 EmptyString) => Str.is_digit d1 && Str.is_digit d2
  | String d1 (String d2 (String x EmptyString)) =>
      Str.is_digit d1 && Str.is_digit d2 && Str.is_upper x
  | _ => false
  end.

(** No tag between colons stands anywhere in the text. *)
Definition tagFree (s : string) : Prop :=
  forall pre t post, isTag t = true -> s <> pre +:+ ":" +:+ t +:+ ":" +:+ post.

(** The last of the matched texts [ms] that carries the tag [t], and the
    text [rest] after its tag. *)
Definition lastMatch (ms : list string) (t rest : string) : Prop :=
  exists ms1 m ms2,
    ms = (ms1 ++ m :: ms2)%list /\
    SWIFTParser.fieldMatch m = Some (t, rest) /\
    Forall (fun m' => tagOf m' <> Some t) ms2.

(** A letter of either case; a letter or a digit. *)
Definition is_letter (c : ascii) : bool := Str.is_upper c || Str.is_lower c.

Definition is_alnum (c : ascii) : bool := Str.is_digit c || is_letter c.

(** A text of code units below 128, on which [toUpperCase] changes the
    letters a-z and nothing else. *)
Definition is_ascii (s : string) : bool :=
  Str.all (fun c => (nat_of_ascii c <? 128)%nat) s.

(** * Example payloads *)

Definition nl : string := String "010" EmptyString.

Definition quote : string := String "034" EmptyString.

Definition stamp0 : Stamp :=
  {| uuid := "00000000-0000-4000-8000-000000000000"; now := "2024-07-01T10:00:00.000Z" |}.

Definition rd0 : SwiftParserOSS.Reading :=
  {| SwiftParserOSS.stamp := stamp0;
     SwiftParserOSS.elapsed := 1234567;
     SwiftParserOSS.finished := "2024-07-01T10:00:00.001Z" |}.

(** A new instance in an empty store. *)
Definition self0 : SwiftParserOSS.Instance := fst (SwiftParserOSS.new ∅).

Definition h0 : SwiftParserOSS.Heap := snd (SwiftParserOSS.new ∅).

(** The MT103 message of the usage examples of the repository. *)
Definition mt103_example : string :=
  "{1:F01AAAAGRA0AXXX1234123456}{2:I103BBBBGRB0XXXXN}{4:" +:+ nl
  +:+ ":20:123456789" +:+ nl
  +:+ ":23B:CRED" +:+ nl
  +:+ ":32A:230701USD1000,00" +:+ nl
  +:+ ":50K:/12345678" +:+ nl
  +:+ "    SENDER BANK NAME" +:+ nl
  +:+ "    SENDER ADDRESS" +:+ nl
  +:+ ":52A:AAAAGRA0" +:+ nl
  +:+ ":57A:BBBBGRB0" +:+ nl
  +:+ ":59:/98765432" +:+ nl
  +:+ "    BENEFICIARY NAME" +:+ nl
  +:+ "    BENEFICIARY ADDRESS" +:+ nl
  +:+ ":70:INVOICE PAYMENT REF 12345" +:+ nl
  +:+ ":71A:OUR" +:+ nl
  +:+ "-}".

(** A payload with the envelope of an MT103 and all its required tags,
    whose field 32A is not an amount. *)
Definition mt103_bad_amount : string :=
  "{1:F01AAAAGRA0AXXX1234123456}{2:I103BBBBGRB0XXXXN}{4::20:REF1:32A:INVALID"
  +:+ ":50K:/12345678:59:/98765432-}".

(** The head and the tail of the fixture [ISO20022_PACS008_SAMPLE]. *)
Definition iso20022_example : string :=
  "<?xml version=" +:+ quote +:+ "1.0" +:+ quote
  +:+ " encoding=" +:+ quote +:+ "UTF-8" +:+ quote +:+ "?>" +:+ nl
  +:+ "<Document xmlns=" +:+ quote
  +:+ "urn:iso:std:iso:20022:tech:xsd:pacs.008.001.10" +:+ quote +:+ ">" +:+ nl
  +:+ "  <FIToFICstmrCdtTrf>" +:+ nl
  +:+ "    <GrpHdr>" +:+ nl
  +:+ "      <MsgId>ISO123456789</MsgId>" +:+ nl
  +:+ "    </GrpHdr>" +:+ nl
  +:+ "  </FIToFICstmrCdtTrf>" +:+ nl
  +:+ "</Document>".

Definition mt103_fields : gmap string SWIFTParser.Field :=
  match SWIFTParser.parseFields mt103_example "MT103" with
  | Return fields => fields
  | Throw _ => ∅
  end.

Definition mt103_field32A : SWIFTParser.Field :=
  {| SWIFTParser.tag := "32A";
     SWIFTParser.name := "value_date_currency_amount";
     SWIFTParser.content := "230701USD1000,00" |}.

Definition mt103_record : JsValue :=
  match fst (@SwiftParserOSS.parse node rd0 self0 h0 (JStr mt103_example) JUndefined) with
  | Return record => record
  | Throw _ => JNull
  end.

(** What the base parser makes of that MT103 message. *)
Definition mt103_parsed : JsValue :=
  match SWIFTParser.parse stamp0 (JStr mt103_example) with
  | Return record => record
  | Throw _ => JNull
  end.

(** A JSON object with a [TXN] identifier and the two fields of FIS. *)
Definition fis_json_example : string :=
  "{" +:+ quote +:+ "transactionId" +:+ quote +:+ ":" +:+ quote +:+ "TXN1" +:+ quote
  +:+ "," +:+ quote +:+ "accountNumber" +:+ quote +:+ ":" +:+ quote +:+ "ACC1" +:+ quote
  +:+ "," +:+ quote +:+ "transactionType" +:+ quote +:+ ":" +:+ quote +:+ "PAY" +:+ quote
  +:+ "," +:+ quote +:+ "branchCode" +:+ quote +:+ ":" +:+ quote +:+ "BR01" +:+ quote
  +:+ "}".

(** A JSON object with a [DNA] identifier and nothing else. *)
Definition dna_json_example : string :=
  "{" +:+ quote +:+ "transactionId" +:+ quote +:+ ":" +:+ quote +:+ "DNA123456789"
  +:+ quote +:+ "}".

(** A JSON object with an account number and no identifier. *)
Definition account_json_example : string :=
  "{" +:+ quote +:+ "accountNumber" +:+ quote +:+ ":" +:+ quote +:+ "ACC1" +:+ quote
  +:+ "}".

(** A JSON object with a Temenos header. *)
Definition temenos_json_example : string :=
  "{" +:+ quote +:+ "header" +:+ quote +:+ ":{" +:+ quote +:+ "messageId" +:+ quote
  +:+ ":" +:+ quote +:+ "TMN123456789" +:+ quote +:+ "}}".

(** The fields of a pipe-delimited FIS record. *)
Definition delimited_example : list string :=
  ["TXN123456789"; "ACC987654321"; "2500.00"; "USD"; "20240701"; "001";
   "Monthly payment"; "John Doe"; "BR01"].

(** * Properties *)

(** ** Results and objects *)

Lemma bind_Return {A B} (r : Result A) (k : A -> Result B) (b : B) :
  bind r k = Return b -> exists a, r = Return a /\ k a = Return b.
Proof. destruct r as [a|m]; simpl; [eauto | discriminate]. Qed.

Lemma try_catch_rethrow {A} (body : Result A) (wrap : string -> string) (a : A) :
  try_catch body (fun error => Throw (wrap error)) = Return a -> body = Return a.
Proof. destruct body; simpl; [tauto | discriminate]. Qed.

Lemma try_catch_swallow {A} (body : Result (option A)) :
  exists o, try_catch body (fun _ => Return None) = Return o.
Proof. destruct body; simpl; eauto. Qed.

Lemma get_obj_head k v rest : Js.get (Js.obj ((k, v) :: rest)) k = Return v.
Proof. unfold Js.get, Js.obj; simpl. by rewrite lookup_insert_eq. Qed.

Lemma get_set_ne o k k' v : k <> k' -> Js.get (Js.set o k' v) k = Js.get o k.
Proof.
  intros Hne. destruct o; simpl; try reflexivity.
  by rewrite lookup_insert_ne.
Qed.

(** ** Input validation at the facade *)

(** C4. [SwiftParserOSS.parse] throws an invalid-input error on every payload
    that is null, undefined, not a string, or empty after trimming; the
    error is fixed by the payload alone, whatever the platform, the format
    hint and the store are: neither detection nor a parser is consulted. *)
Theorem parse_rejects_invalid_input (message : JsValue) :
  invalidInput message = true ->
  Str.startsWith "Invalid input: " (invalidInputError message) = true /\
  forall (P : Platform) rd self h format,
    SwiftParserOSS.parseBody rd message format = Throw (invalidInputError message) /\
    fst (SwiftParserOSS.parse rd self h message format)
      = Throw (invalidInputError message).
Proof.
  intros Hbad. split.
  - destruct message; reflexivity.
  - intros P rd self h format.
    assert (Hbody : SwiftParserOSS.parseBody rd message format
                    = Throw (invalidInputError message)).
    { destruct message; simpl in *; try reflexivity. by rewrite Hbad. }
    split; [exact Hbody|].
    unfold SwiftParserOSS.parse. by rewrite Hbody.
Qed.

Lemma parse_rejects_invalid_input_witness :
  invalidInput (JStr "   ") = true /\
  Str.startsWith "Invalid input: " (invalidInputError (JStr "   ")) = true /\
  forall (P : Platform) rd self h format,
    SwiftParserOSS.parseBody rd (JStr "   ") format
      = Throw (invalidInputError (JStr "   ")) /\
    fst (SwiftParserOSS.parse rd self h (JStr "   ") format)
      = Throw (invalidInputError (JStr "   ")).
Proof.
  split; [reflexivity | apply (parse_rejects_invalid_input (JStr "   ")); reflexivity].
Defined.

(** ** Detection *)

(** C7. [detectFormat] is total: on every input it returns a label and does
    not throw (whatever [JSON.parse] does inside its [try] block), and the
    label is [UNKNOWN] for null, undefined, a value that is not a string,
    and the empty string. *)
Theorem detectFormat_total (P : Platform) :
  (forall message, exists label, SwiftParserOSS.detectFormat message = Return label) /\
  SwiftParserOSS.detectFormat JNull = Return "UNKNOWN" /\
  SwiftParserOSS.detectFormat JUndefined = Return "UNKNOWN" /\
  SwiftParserOSS.detectFormat (JStr EmptyString) = Return "UNKNOWN" /\
  (forall message, Js.typeof message <> "string" ->
     SwiftParserOSS.detectFormat message = Return "UNKNOWN").
Proof.
  repeat split; try reflexivity.
  - intros message. unfold SwiftParserOSS.detectFormat.
    destruct message as [| | | |text| |]; eauto.
    destruct (negb (Js.truthy (JStr text))); [eauto|]. cbv zeta.
    match goal with |- context [if ?b then SWIFTParser.headerMatch _ else None] =>
      destruct (if b then SWIFTParser.headerMatch text else None) end;
      [eauto|].
    destruct (try_catch_swallow (SwiftParserOSS.detectJSON text)) as [o Ho].
    rewrite Ho. cbn [bind].
    destruct o;
      repeat match goal with
             | |- context [if ?b then _ else _] => destruct b
             end; eauto.
  - intros message Hty. destruct message; simpl in *; try reflexivity.
    by destruct Hty.
Qed.

(** ** Metrics *)

Section Facade.

Context {P : Platform}.

Import SwiftParserOSS.

(** The COBOL branch of [parse] never returns: [parseCOBOL] throws on every
    text that [detectCOBOL] accepts. *)
Lemma route_parsed stamp message formatUpper c :
  route stamp message formatUpper = Return c -> exists result, c = Parsed result.
Proof.
  unfold route. intros H.
  repeat match type of H with
         | context [if ?b then _ else _] => destruct b eqn:?
         end;
    try match type of H with
        | bind ?x _ = _ => destruct x eqn:?; cbn [bind] in H; inversion H; by eauto
        end;
    try discriminate.
  unfold Cobol.parseCOBOL in H.
  match goal with Hc : Cobol.detectCOBOL _ = true |- _ => rewrite Hc in H end.
  discriminate.
Qed.

Lemma parseBody_parsed rd message format c :
  parseBody rd message format = Return c -> exists result, c = Parsed result.
Proof.
  unfold parseBody. intros H.
  destruct message; try discriminate.
  destruct (String.eqb (Str.trim s) EmptyString); [discriminate|].
  apply bind_Return in H as (label & _ & H). cbv zeta in H.
  apply bind_Return in H as (c' & Hroute & H).
  apply route_parsed in Hroute as [result ->].
  apply bind_Return in H as (result' & _ & H). inversion H. eauto.
Qed.

(** The metrics object after one call. *)
Lemma parse_metrics rd self h message format m :
  h !! metrics self = Some m ->
  snd (parse rd self h message format) !! metrics self
  = Some (if returns (fst (parse rd self h message format))
          then incSuccessful (incTotal m) else incFailed (incTotal m)).
Proof.
  intros Hm. unfold parse.
  destruct (parseBody rd message format) as [c|e] eqn:Hbody.
  - destruct (parseBody_parsed _ _ _ _ Hbody) as [result ->]. cbn [fst snd returns].
    by rewrite !lookup_alter_eq, Hm.
  - cbn [fst snd returns]. by rewrite !lookup_alter_eq, Hm.
Qed.

Lemma run_metrics self calls : forall h m,
  h !! metrics self = Some m ->
  totalParsed m = (successfulParses m + failedParses m)%N ->
  exists m', run self h calls !! metrics self = Some m' /\
    totalParsed m' = (totalParsed m + N.of_nat (length calls))%N /\
    totalParsed m' = (successfulParses m' + failedParses m')%N.
Proof.
  induction calls as [|c more IH]; intros h m Hm Hinv; cbn [run length].
  - exists m. repeat split; [done | lia | done].
  - pose proof (parse_metrics (reading c) self h (payload c) (hint c) m Hm) as Hstep.
    destruct (IH _ _ Hstep) as (m' & Hrun & Htotal & Hsum).
    { destruct (returns _); cbn; lia. }
    exists m'. repeat split; [done | | done].
    rewrite Htotal. destruct (returns _); cbn; lia.
Qed.

Lemma getMetrics_fresh self h l h' :
  getMetrics self h = Some (l, h') ->
  l <> metrics self /\ h' !! l = h !! metrics self
  /\ h' !! metrics self = h !! metrics self.
Proof.
  unfold getMetrics. destruct (h !! metrics self) as [m|] eqn:Hm; [|discriminate].
  intros [= <- <-].
  assert (Hne : fresh (dom h) <> metrics self).
  { intros Heq. apply (is_fresh (dom h)). rewrite Heq.
    apply elem_of_dom. eauto. }
  repeat split.
  - exact Hne.
  - by rewrite lookup_insert_eq.
  - by rewrite lookup_insert_ne.
Qed.

(** On an instance that has its metrics object, [getMetrics] returns: a
    location the store did not hold before. *)
Lemma getMetrics_live self h m :
  h !! metrics self = Some m ->
  exists l h', getMetrics self h = Some (l, h') /\ h !! l = None.
Proof.
  intros Hm. unfold getMetrics. rewrite Hm. eexists _, _. split; [reflexivity|].
  apply not_elem_of_dom, is_fresh.
Qed.

End Facade.

(** C5. The counters are zero at construction; one call of [parse] adds one
    to [totalParsed] and one to exactly one of [successfulParses] (the call
    returns) and [failedParses] (the call throws); so after any sequence of
    calls on a new instance [totalParsed] is the number of calls and equals
    [successfulParses + failedParses]; and [getMetrics] returns, on every
    instance that has its metrics object (so after any sequence of calls on
    a new instance), a new object with the same counters, whose later
    mutation leaves [this.metrics] as it was. *)
Theorem metrics_accounting (P : Platform) :
  (forall h,
     snd (SwiftParserOSS.new h) !! SwiftParserOSS.metrics (fst (SwiftParserOSS.new h))
     = Some {| SwiftParserOSS.totalParsed := 0;
               SwiftParserOSS.successfulParses := 0;
               SwiftParserOSS.failedParses := 0 |}) /\
  (forall rd self h message format m,
     h !! SwiftParserOSS.metrics self = Some m ->
     exists m',
       snd (SwiftParserOSS.parse rd self h message format) !! SwiftParserOSS.metrics self
         = Some m' /\
       SwiftParserOSS.totalParsed m' = (SwiftParserOSS.totalParsed m + 1)%N /\
       if returns (fst (SwiftParserOSS.parse rd self h message format))
       then SwiftParserOSS.successfulParses m' = (SwiftParserOSS.successfulParses m + 1)%N
            /\ SwiftParserOSS.failedParses m' = SwiftParserOSS.failedParses m
       else SwiftParserOSS.successfulParses m' = SwiftParserOSS.successfulParses m
            /\ SwiftParserOSS.failedParses m' = (SwiftParserOSS.failedParses m + 1)%N) /\
  (forall h calls,
     exists m,
       run (fst (SwiftParserOSS.new h)) (snd (SwiftParserOSS.new h)) calls
         !! SwiftParserOSS.metrics (fst (SwiftParserOSS.new h)) = Some m /\
       SwiftParserOSS.totalParsed m = N.of_nat (length calls) /\
       SwiftParserOSS.totalParsed m
       = (SwiftParserOSS.successfulParses m + SwiftParserOSS.failedParses m)%N) /\
  (forall self h snapshot h',
     SwiftParserOSS.getMetrics self h = Some (snapshot, h') ->
     h' !! snapshot = h !! SwiftParserOSS.metrics self /\
     forall mutated,
       <[snapshot := mutated]> h' !! SwiftParserOSS.metrics self
       = h !! SwiftParserOSS.metrics self) /\
  (forall self h m,
     h !! SwiftParserOSS.metrics self = Some m ->
     exists snapshot h',
       SwiftParserOSS.getMetrics self h = Some (snapshot, h') /\
       snapshot <> SwiftParserOSS.metrics self /\
       h !! snapshot = None /\
       h' !! snapshot = Some m /\
       forall mutated,
         <[snapshot := mutated]> h' !! SwiftParserOSS.metrics self = Some m) /\
  (forall h calls,
     exists snapshot h' m,
       SwiftParserOSS.getMetrics (fst (SwiftParserOSS.new h))
         (run (fst (SwiftParserOSS.new h)) (snd (SwiftParserOSS.new h)) calls)
       = Some (snapshot, h') /\
       h' !! snapshot = Some m /\
       SwiftParserOSS.totalParsed m = N.of_nat (length calls) /\
       SwiftParserOSS.totalParsed m
       = (SwiftParserOSS.successfulParses m + SwiftParserOSS.failedParses m)%N /\
       forall mutated,
         <[snapshot := mutated]> h' !! SwiftParserOSS.metrics (fst (SwiftParserOSS.new h))
         = Some m).
Proof.
  repeat apply conj.
  - intros h. cbn. by rewrite lookup_insert_eq.
  - intros rd self h message format m Hm.
    eexists. split; [by apply parse_metrics|].
    destruct (returns _); cbn; auto.
  - intros h calls.
    destruct (run_metrics (fst (SwiftParserOSS.new h)) calls (snd (SwiftParserOSS.new h))
                {| SwiftParserOSS.totalParsed := 0;
                   SwiftParserOSS.successfulParses := 0;
                   SwiftParserOSS.failedParses := 0 |})
      as (m & Hrun & Htotal & Hsum).
    + cbn. by rewrite lookup_insert_eq.
    + reflexivity.
    + exists m. cbn in Htotal. rewrite N.add_0_l in Htotal. auto.
  - intros self h snapshot h' Hget.
    destruct (getMetrics_fresh _ _ _ _ Hget) as (Hne & Hcopy & Hsame).
    split; [exact Hcopy|]. intros mutated.
    by rewrite lookup_insert_ne.
  - intros self h m Hm.
    destruct (getMetrics_live _ _ _ Hm) as (snapshot & h' & Hget & Hnew).
    destruct (getMetrics_fresh _ _ _ _ Hget) as (Hne & Hcopy & Hsame).
    exists snapshot, h'. repeat split; [assumption..| |].
    + by rewrite Hcopy.
    + intros mutated. by rewrite lookup_insert_ne, Hsame.
  - intros h calls.
    destruct (run_metrics (fst (SwiftParserOSS.new h)) calls (snd (SwiftParserOSS.new h))
                {| SwiftParserOSS.totalParsed := 0;
                   SwiftParserOSS.successfulParses := 0;
                   SwiftParserOSS.failedParses := 0 |})
      as (m & Hrun & Htotal & Hsum).
    + cbn. by rewrite lookup_insert_eq.
    + reflexivity.
    + destruct (getMetrics_live _ _ _ Hrun) as (snapshot & h' & Hget & Hnew).
      destruct (getMetrics_fresh _ _ _ _ Hget) as (Hne & Hcopy & Hsame).
      exists snapshot, h', m. cbn in Htotal. rewrite N.add_0_l in Htotal.
      repeat split; [assumption | by rewrite Hcopy | assumption..|].
      intros mutated. by rewrite lookup_insert_ne, Hsame.
Qed.

(** ** Batches *)

Section Batch.

Context {P : Platform}.

Import SwiftParserOSS.

Lemma batchParse_from_length clock self messages : forall i h,
  length (fst (batchParse_from clock i self h messages)) = length messages.
Proof.
  induction messages as [|message rest IH]; intros i h; cbn [batchParse_from].
  - reflexivity.
  - destruct (parse (clock i) self h message JUndefined) as [r h'].
    specialize (IH (S i) h').
    destruct (batchParse_from clock (S i) self h' rest) as [results h''].
    cbn in *. by rewrite IH.
Qed.

Lemma batchParse_from_lookup clock self messages : forall k h i message,
  messages !! i = Some message ->
  fst (batchParse_from clock k self h messages) !! i
  = Some (slot message
            (fst (parse (clock (k + i)%nat) self
                    (snd (batchParse_from clock k self h (take i messages)))
                    message JUndefined))).
Proof.
  induction messages as [|m0 rest IH]; intros k h i message Hi; [done|].
  cbn [batchParse_from].
  destruct (parse (clock k) self h m0 JUndefined) as [r h'] eqn:Hparse.
  destruct i as [|i].
  - injection Hi as ->.
    destruct (batchParse_from clock (S k) self h' rest) as [results h''].
    cbn. by rewrite Nat.add_0_r, Hparse.
  - cbn in Hi. specialize (IH (S k) h' i message Hi).
    destruct (batchParse_from clock (S k) self h' rest) as [results h''].
    cbn [fst lookup] in *. cbn [take batchParse_from]. rewrite Hparse.
    destruct (batchParse_from clock (S k) self h' (take i rest)) as [results' h3].
    cbn [fst snd] in *. rewrite Nat.add_succ_r. exact IH.
Qed.

End Batch.

(** C6. [batchParse] returns as many slots as it is given payloads, in the
    order of the payloads: slot [i] holds what [parse(payloads[i])] returns
    (called without a format, in the store the earlier elements left), or,
    when that call throws, the object with the error message and the
    payload; a throwing element stops nothing after it. *)
Theorem batchParse_slots (P : Platform) clock self h (messages : list JsValue) :
  length (fst (SwiftParserOSS.batchParse clock self h messages)) = length messages /\
  (forall i message,
     messages !! i = Some message ->
     exists r,
       r = fst (SwiftParserOSS.parse (clock i) self
                  (snd (SwiftParserOSS.batchParse clock self h (take i messages)))
                  message JUndefined) /\
       fst (SwiftParserOSS.batchParse clock self h messages) !! i
       = Some (match r with
               | Return result => result
               | Throw error =>
                   Js.obj [("error", JStr error); ("originalMessage", message)]
               end)).
Proof.
  split.
  - apply batchParse_from_length.
  - intros i message Hi. eexists. split; [reflexivity|].
    unfold SwiftParserOSS.batchParse.
    rewrite (batchParse_from_lookup clock self messages 0 h i message Hi).
    reflexivity.
Qed.

(** ** Fixed-width FIS records *)

Lemma get_obj_skip k k' v rest :
  k <> k' -> Js.get (Js.obj ((k', v) :: rest)) k = Js.get (Js.obj rest) k.
Proof. intros Hne. unfold Js.get, Js.obj. cbn. by rewrite lookup_insert_ne. Qed.

(** Reads a field of an object literal. *)
Ltac get_field :=
  repeat (rewrite get_obj_skip by discriminate); rewrite get_obj_head.

Ltac by_cases_on_ascii c :=
  destruct c as [[] [] [] [] [] [] [] []]; vm_compute; intros; repeat split; congruence.

Lemma digit_not_space c : Str.is_digit c = true -> Str.is_space c = false.
Proof. by_cases_on_ascii c. Qed.

Lemma digit_not_sign c :
  Str.is_digit c = true ->
  Str.eqc c "-" = false /\ Str.eqc c "+" = false /\ Str.eqc "I" c = false.
Proof. by_cases_on_ascii c. Qed.

Lemma length_drop n : forall s, String.length (Str.drop n s) = (String.length s - n)%nat.
Proof. induction n as [|n IH]; intros [|c s]; cbn; auto with arith. Qed.

Lemma length_take n : forall s, String.length (Str.take n s) = Nat.min n (String.length s).
Proof. induction n as [|n IH]; intros [|c s]; cbn; auto. Qed.

Lemma length_substring a b s :
  (b <= String.length s)%nat -> String.length (Str.substring a b s) = (b - a)%nat.
Proof. intros Hb. unfold Str.substring. rewrite length_take, length_drop. lia. Qed.

Lemma append_empty s : s +:+ EmptyString = s.
Proof.
  induction s as [|c s IH]; [reflexivity|].
  change (String c s +:+ EmptyString) with (String c (s +:+ EmptyString)).
  by rewrite IH.
Qed.

Lemma trimStart_digits d : Str.all Str.is_digit d = true -> Str.trimStart d = d.
Proof.
  destruct d as [|c d]; cbn; [reflexivity|].
  intros [Hc _]%andb_prop. by rewrite (digit_not_space c Hc).
Qed.

Lemma trimEnd_digits d : Str.all Str.is_digit d = true -> Str.trimEnd d = d.
Proof.
  induction d as [|c d IH]; cbn; [reflexivity|].
  intros [Hc Hd]%andb_prop. rewrite (IH Hd).
  destruct d; [by rewrite (digit_not_space c Hc) | reflexivity].
Qed.

Lemma trim_digits d : Str.all Str.is_digit d = true -> Str.trim d = d.
Proof.
  intros Hd. unfold Str.trim. rewrite (trimStart_digits d Hd). by apply trimEnd_digits.
Qed.

Lemma span_digits_all d :
  Str.all Str.is_digit d = true -> Js.span_digits d = (d, EmptyString).
Proof.
  induction d as [|c d IH]; cbn; [reflexivity|].
  intros [Hc Hd]%andb_prop. by rewrite Hc, (IH Hd).
Qed.

(** [parseFloat] on a string of digits is the number they denote. *)
Lemma parseFloat_digits d :
  d <> EmptyString -> Str.all Str.is_digit d = true ->
  Js.parseFloat d = Decimal false (Js.digits_value d) 0.
Proof.
  intros Hne Hd. unfold Js.parseFloat. rewrite (trimStart_digits d Hd).
  destruct d as [|c d]; [done|].
  pose proof Hd as [Hc _]%andb_prop.
  destruct (digit_not_sign c Hc) as (-> & -> & HI).
  unfold Js.parseUnsigned.
  replace (Str.startsWith "Infinity" (String c d)) with false
    by (cbn [Str.startsWith]; by rewrite HI).
  rewrite (span_digits_all _ Hd). cbn [Js.exponent_part String.length].
  rewrite append_empty. reflexivity.
Qed.

(** ** Doubles: integers and their hundredth parts *)

Section Doubles.

Lemma digits2_iter n k :
  digits2_pos (Pos.iter xO n k) = (digits2_pos n + k)%positive.
Proof.
  induction k as [|k IH] using Pos.peano_ind.
  - cbn. lia.
  - rewrite Pos.iter_succ. cbn [digits2_pos]. rewrite IH. lia.
Qed.

Lemma iter_xO_value n k : Z.pos (Pos.iter xO n k) = Z.pos n * 2 ^ Z.pos k.
Proof.
  induction k as [|k IH] using Pos.peano_ind.
  - cbn. lia.
  - rewrite Pos.iter_succ, Pos2Z.inj_xO, IH, Pos2Z.inj_succ, Z.pow_succ_r by lia. lia.
Qed.

Lemma digits2_lower n : 2 ^ (Z.pos (digits2_pos n) - 1) <= Z.pos n.
Proof.
  induction n as [n IH|n IH|]; cbn [digits2_pos]; [| |cbn; lia].
  all: rewrite Pos2Z.inj_succ;
    replace (Z.succ (Z.pos (digits2_pos n)) - 1) with (Z.succ (Z.pos (digits2_pos n) - 1))
      by lia;
    rewrite Z.pow_succ_r by lia; lia.
Qed.

Lemma digits2_small n : Z.pos n < 2 ^ 53 -> Z.pos (digits2_pos n) <= 53.
Proof.
  intros Hn. pose proof (digits2_lower n) as Hlow.
  destruct (Z_le_gt_dec (Z.pos (digits2_pos n)) 53) as [|Hgt]; [assumption|].
  assert (2 ^ 53 <= 2 ^ (Z.pos (digits2_pos n) - 1)) by (apply Z.pow_le_mono_r; lia).
  lia.
Qed.

(** A mantissa of 53 bits with an exponent in range is a double as it
    stands. *)
Lemma round_exact s m e :
  digits2_pos m = 53%positive -> -1074 <= e <= 971 ->
  binary_round_aux Js.prec Js.emax s (Z.pos m) e loc_Exact = S754_finite s m e.
Proof.
  intros Hm He. unfold binary_round_aux, shr_fexp. cbn [Zdigits2]. rewrite Hm.
  replace (fexp Js.prec Js.emax (53 + e) - e) with 0
    by (unfold fexp, emin, Js.prec, Js.emax; lia).
  cbn [shr shr_record_of_loc shr_m loc_of_shr_record round_nearest_even Zdigits2].
  rewrite Hm.
  replace (fexp Js.prec Js.emax (53 + e) - e) with 0
    by (unfold fexp, emin, Js.prec, Js.emax; lia).
  cbn [shr shr_record_of_loc shr_m].
  replace (e <=? Js.emax - Js.prec) with true; [reflexivity|].
  symmetry. apply Z.leb_le. unfold Js.emax, Js.prec. lia.
Qed.

(** An integer below [2 ^ 53] is a double: its digits moved up to 53 bits. *)
Lemma round_integer n :
  Z.pos n < 2 ^ 53 ->
  exists m,
    binary_round Js.prec Js.emax false n 0
    = S754_finite false m (Z.pos (digits2_pos n) - 53) /\
    digits2_pos m = 53%positive /\
    Z.pos m = Z.pos n * 2 ^ (53 - Z.pos (digits2_pos n)).
Proof.
  intros Hn. pose proof (digits2_small n Hn) as Hd.
  unfold binary_round, shl_align.
  replace (fexp Js.prec Js.emax (Z.pos (digits2_pos n) + 0)) with (Z.pos (digits2_pos n) - 53)
    by (unfold fexp, emin, Js.prec, Js.emax; lia).
  destruct (Z.pos (digits2_pos n) - 53 - 0) as [|k|k] eqn:Hk; [|lia|].
  - exists n. assert (Hd53 : digits2_pos n = 53%positive) by lia.
    split; [|split; [assumption|rewrite Hd53; cbn; lia]].
    replace (Z.pos (digits2_pos n) - 53) with 0 by lia.
    apply round_exact; [assumption|lia].
  - exists (Pos.iter xO n k).
    assert (Hdigits : digits2_pos (Pos.iter xO n k) = 53%positive)
      by (rewrite digits2_iter; lia).
    split; [|split; [assumption|]].
    + apply round_exact; [assumption|lia].
    + rewrite iter_xO_value. replace (53 - Z.pos (digits2_pos n)) with (Z.pos k) by lia. reflexivity.
Qed.

(** The quotient, the exponent and the place of the remainder that
    [SFdiv] hands to the rounding, when the dividend has to be shifted. *)
Lemma SFdiv_core_shifted m1 e1 m2 e2 e' s :
  e' = Z.min (fexp Js.prec Js.emax (Zdigits2 m1 + e1 - (Zdigits2 m2 + e2))) (e1 - e2) ->
  s = e1 - e2 - e' -> 0 < s ->
  SFdiv_core_binary Js.prec Js.emax m1 e1 m2 e2
  = (m1 * 2 ^ s / m2, e', new_location m2 ((m1 * 2 ^ s) mod m2)).
Proof.
  intros -> Hs Hpos. unfold SFdiv_core_binary. cbv zeta. rewrite <- Hs.
  destruct s as [|p|p]; [lia| |lia].
  rewrite Z.shiftl_mul_pow2 by lia.
  unfold Z.div, Z.modulo. by destruct (Z.div_eucl _ _).
Qed.

Lemma new_location_scaled r :
  0 <= r ->
  new_location (100 * 2 ^ 46) (r * 2 ^ 46) = new_location 100 r.
Proof.
  intros Hr. unfold new_location.
  replace (Z.even (100 * 2 ^ 46)) with true by reflexivity.
  replace (Z.even 100) with true by reflexivity.
  unfold new_location_even.
  destruct (Z.eqb_spec r 0) as [->|Hne]; [reflexivity|].
  destruct (Z.eqb_spec (r * 2 ^ 46) 0) as [H0|_]; [lia|].
  f_equal.
  destruct (Z.compare_spec (2 * (r * 2 ^ 46)) (100 * 2 ^ 46)),
           (Z.compare_spec (2 * r) 100); try reflexivity; lia.
Qed.

(** Cents to units: dividing the double of an integer below [2 ^ 53] by the
    double 100 gives the double nearest to the hundredth part. *)
Lemma div_hundred n :
  Z.pos n < 2 ^ 53 ->
  SFdiv Js.prec Js.emax (Js.toDouble (Decimal false (N.pos n) 0)) (Js.toDouble (Decimal false 100 0))
  = Js.toDouble (Decimal false (N.pos n) (-2)).
Proof.
  intros Hn. pose proof (digits2_small n Hn) as Hd.
  destruct (round_integer n Hn) as (m & Hround & Hdigits & Hm).
  change (Js.toDouble (Decimal false (N.pos n) 0))
    with (binary_round Js.prec Js.emax false (n * 1) 0).
  rewrite Pos.mul_1_r, Hround.
  change (Js.toDouble (Decimal false 100 0))
    with (S754_finite false 7036874417766400 (-46)).
  change (Js.toDouble (Decimal false (N.pos n) (-2)))
    with (SFdiv Js.prec Js.emax (S754_finite false n 0) (S754_finite false 100 0)).
  cbn [SFdiv xorb].
  rewrite (SFdiv_core_shifted (Z.pos m) _ _ _ (Z.pos (digits2_pos n) - 60) 53).
  2:{ cbn [Zdigits2]. rewrite Hdigits. change (digits2_pos 7036874417766400) with 53%positive.
      unfold fexp, emin, Js.prec, Js.emax. lia. }
  2:{ lia. }
  2:{ lia. }
  rewrite (SFdiv_core_shifted (Z.pos n) 0 100 0 (Z.pos (digits2_pos n) - 60)
             (60 - Z.pos (digits2_pos n))).
  2:{ cbn [Zdigits2]. change (digits2_pos 100) with 7%positive.
      unfold fexp, emin, Js.prec, Js.emax. lia. }
  2:{ lia. }
  2:{ lia. }
  assert (Hnum : Z.pos m * 2 ^ 53
                 = Z.pos n * 2 ^ (60 - Z.pos (digits2_pos n)) * 2 ^ 46).
  { rewrite Hm, <- !Z.mul_assoc, <- !Z.pow_add_r by lia. do 2 f_equal. lia. }
  rewrite Hnum. change (Z.pos 7036874417766400) with (100 * 2 ^ 46).
  rewrite Z.div_mul_cancel_r, Z.mul_mod_distr_r by lia.
  rewrite new_location_scaled by (apply Z.mod_pos_bound; lia).
  reflexivity.
Qed.


Lemma digit_value_bound c : Str.is_digit c = true -> (Js.digit_value c <= 9)%N.
Proof.
  unfold Str.is_digit, Js.digit_value. intros [_ H]%andb_prop.
  apply Nat.leb_le in H. lia.
Qed.

(** A string of [k] digits denotes a number below [10 ^ k]. *)
Lemma digits_value_from_bound d : forall acc,
  Str.all Str.is_digit d = true ->
  (Js.digits_value_from acc d < (acc + 1) * 10 ^ N.of_nat (String.length d))%N.
Proof.
  induction d as [|c d IH]; intros acc Hd; cbn [Js.digits_value_from String.length].
  - cbn. lia.
  - cbn [Str.all] in Hd. apply andb_prop in Hd as [Hc Hd].
    pose proof (digit_value_bound c Hc) as Hv.
    pose proof (IH (10 * acc + Js.digit_value c)%N Hd) as Hrest.
    rewrite Nat2N.inj_succ, N.pow_succ_r'.
    eapply N.lt_le_trans; [exact Hrest|].
    rewrite (N.mul_comm 10), N.mul_assoc.
    apply N.mul_le_mono_r. lia.
Qed.

(** The amount of nine digits: the double of the integer, divided by the
    double 100, is the double nearest to the hundredth part. *)
Lemma div100_cents d :
  String.length d = 9%nat -> Str.all Str.is_digit d = true ->
  Js.div100 (Decimal false (Js.digits_value d) 0)
  = Js.ofDouble (Js.toDouble (Decimal false (Js.digits_value d) (-2))).
Proof.
  intros Hlen Hd. pose proof (digits_value_from_bound d 0%N Hd) as Hbound.
  rewrite Hlen in Hbound. fold (Js.digits_value d) in Hbound.
  unfold Js.div100. destruct (Js.digits_value d) as [|n]; [reflexivity|].
  rewrite div_hundred; [reflexivity|]. lia.
Qed.

End Doubles.

(** The characters a slice takes: the text of length [b - a] that stands
    after [a] characters. *)
Lemma substring_field pre : forall field post,
  Str.substring (String.length pre) (String.length pre + String.length field)
    (pre +:+ field +:+ post) = field.
Proof.
  induction pre as [|c pre IH]; intros field post.
  - change (EmptyString +:+ field +:+ post) with (field +:+ post).
    unfold Str.substring. cbn [String.length Nat.add]. rewrite Nat.sub_0_r.
    replace (Str.drop 0 (field +:+ post)) with (field +:+ post)
      by (by destruct (field +:+ post)).
    induction field as [|d field IHf]; [by destruct post|].
    change (String d field +:+ post) with (String d (field +:+ post)).
    cbn [String.length Str.take]. by rewrite IHf.
  - change (String c pre +:+ field +:+ post) with (String c (pre +:+ field +:+ post)).
    exact (IH field post).
Qed.

(** C8. [FISParser.parseFixedWidth] throws a too-short error on every
    payload of fewer than 100 characters; on every payload of at least 100
    it returns a record whose [amount] is the number read from the
    characters at offsets 32 to 41 (end excluded), divided by 100 as
    JavaScript divides, on doubles: when those nine characters are digits
    denoting [n] cents, the amount is the double nearest to [n / 100]. The
    slice is the nine characters that stand after the first 32. *)
Theorem parseFixedWidth_amount stamp (payload : string) :
  ((String.length payload < 100)%nat ->
     FISParser.parseFixedWidth stamp payload
     = Throw "FIS fixed width parsing failed: Invalid FIS fixed width: message too short") /\
  ((100 <= String.length payload)%nat ->
     exists record,
       FISParser.parseFixedWidth stamp payload = Return record /\
       messageTypeOf record = Return (JStr "FIS_FIXED") /\
       Js.get record "amount"
       = Return (JNum (Js.div100
                         (Js.parseFloat (Str.trim (Str.substring 32 41 payload))))) /\
       (Str.all Str.is_digit (Str.substring 32 41 payload) = true ->
        Js.get record "amount"
        = Return (JNum (Js.ofDouble
                          (Js.toDouble
                             (Decimal false
                                (Js.digits_value (Str.substring 32 41 payload)) (-2))))) /\
        Js.to_Q (Decimal false (Js.digits_value (Str.substring 32 41 payload)) (-2))
        = Some (Z.of_N (Js.digits_value (Str.substring 32 41 payload)) # 100))) /\
  (forall before field after,
     String.length before = 32%nat -> String.length field = 9%nat ->
     payload = before +:+ field +:+ after ->
     Str.substring 32 41 payload = field).
Proof.
  unfold FISParser.parseFixedWidth. split; [|split].
  - intros Hlen. apply Nat.ltb_lt in Hlen. by rewrite Hlen.
  - intros Hlen. destruct (String.length payload <? 100)%nat eqn:Hlt.
    { apply Nat.ltb_lt in Hlt. lia. }
    cbn [try_catch]. eexists. split; [reflexivity|].
    split; [unfold messageTypeOf; by get_field|].
    split; [by get_field|].
    intros Hdigits. split; [|reflexivity].
    assert (Hnine : String.length (Str.substring 32 41 payload) = 9%nat)
      by (rewrite length_substring; lia).
    get_field. rewrite (trim_digits _ Hdigits), parseFloat_digits; [| |done].
    + by rewrite (div100_cents _ Hnine Hdigits).
    + intros Hempty. rewrite Hempty in Hnine. discriminate.
  - intros before field after Hbefore Hfield ->.
    pose proof (substring_field before field after) as Hslice.
    by rewrite Hbefore, Hfield in Hslice.
Qed.

(** A record laid out on the offsets of [parseFixedWidth], carrying 250000
    cents: the amount is the double 2500. *)
Example parseFixedWidth_sample stamp :
  exists record,
    FISParser.parseFixedWidth stamp
      ("01TXN123456789   ACC987654321   000250000USD20240701001Month"
       +:+ "ly payment to vendor ABC Corp           John Doe            "
       +:+ "                              BR01") = Return record /\
    Js.get record "amount" = Return (JNum (Decimal false 2500 0)) /\
    Js.get record "transactionId" = Return (JStr "TXN123456789") /\
    Js.get record "currency" = Return (JStr "USD") /\
    Js.get record "branchCode" = Return (JStr "BR01").
Proof.
  eexists. split; [reflexivity|]. repeat split; get_field; vm_compute; reflexivity.
Qed.

(** ** Temenos T24 key=value lines *)

Lemma includes_char a c s :
  Str.includes (String a EmptyString) (String c s)
  = Str.eqc a c || Str.includes (String a EmptyString) s.
Proof. cbn [Str.includes Str.startsWith]. by rewrite andb_true_r. Qed.

Lemma eqc_sym a b : Str.eqc a b = Str.eqc b a.
Proof. apply Ascii.eqb_sym. Qed.

Lemma split_nonempty sep s : Str.split sep s <> [].
Proof.
  destruct s as [|c s]; cbn; [done|].
  destruct (Str.eqc c sep); [done|]. by destruct (Str.split sep s).
Qed.

(** A text without the separator is one part. *)
Lemma split_no_sep sep s :
  Str.includes (String sep EmptyString) s = false -> Str.split sep s = [s].
Proof.
  induction s as [|c s IH]; [reflexivity|].
  rewrite includes_char. intros [Hc Hs]%orb_false_elim.
  cbn [Str.split]. rewrite eqc_sym, Hc. by rewrite (IH Hs).
Qed.

(** [before] and [after] cut a text at the first separator. *)
Lemma before_after sep s key :
  Str.before sep s = Some key ->
  Str.includes (String sep EmptyString) key = false /\
  exists rest, Str.after (String sep EmptyString) s = Some rest /\
    s = key +:+ String sep rest.
Proof.
  revert key. induction s as [|c s IH]; intros key; cbn [Str.before]; [done|].
  destruct (Str.eqc c sep) eqn:Hc.
  - intros [= <-]. split; [reflexivity|].
    cbn [Str.after Str.startsWith]. rewrite eqc_sym, Hc. cbn.
    apply Ascii.eqb_eq in Hc as ->. eauto.
  - destruct (Str.before sep s) as [k|]; [|done]. cbn. intros [= <-].
    destruct (IH k eq_refl) as (Hk & rest & Hafter & ->).
    split.
    + rewrite includes_char, eqc_sym, Hc. exact Hk.
    + exists rest. split; [|reflexivity].
      cbn [Str.after Str.startsWith]. rewrite eqc_sym, Hc. cbn [andb].
      exact Hafter.
Qed.

Lemma includes_before sep s :
  Str.includes (String sep EmptyString) s = true ->
  exists key, Str.before sep s = Some key.
Proof.
  induction s as [|c s IH]; [done|].
  rewrite includes_char. cbn [Str.before]. rewrite (eqc_sym sep c).
  destruct (Str.eqc c sep); [eauto|]. cbn [orb].
  intros [k ->]%IH. cbn. eauto.
Qed.

Lemma includes_app_sep sep key rest :
  Str.includes (String sep EmptyString) (key +:+ String sep rest) = true.
Proof.
  induction key as [|c key IH].
  - change (EmptyString +:+ String sep rest) with (String sep rest).
    rewrite includes_char. unfold Str.eqc. by rewrite Ascii.eqb_refl.
  - change (String c key +:+ String sep rest) with (String c (key +:+ String sep rest)).
    rewrite includes_char, IH. apply orb_true_r.
Qed.

(** The first part of a split is the text before the first separator. *)
Lemma split_first sep key rest :
  Str.includes (String sep EmptyString) key = false ->
  Str.split sep (key +:+ String sep rest) = key :: Str.split sep rest.
Proof.
  induction key as [|c key IH].
  - intros _. change (EmptyString +:+ String sep rest) with (String sep rest).
    cbn [Str.split]. unfold Str.eqc. by rewrite Ascii.eqb_refl.
  - rewrite includes_char. intros [Hc Hkey]%orb_false_elim.
    change (String c key +:+ String sep rest) with (String c (key +:+ String sep rest)).
    cbn [Str.split]. rewrite eqc_sym, Hc. by rewrite (IH Hkey).
Qed.

(** What one line with an equals sign does to the mapping. *)
Lemma addLine_entry fields line key :
  Str.before "=" line = Some key ->
  exists rest,
    Str.after "=" line = Some rest /\
    TemenosParser.addLine fields line
    = TemenosParser.assign fields (Str.trim key)
        (Str.trim (hd EmptyString (Str.split "=" rest))).
Proof.
  intros Hkey. destruct (before_after _ _ _ Hkey) as (Hnone & rest & Hafter & ->).
  exists rest. split; [exact Hafter|].
  unfold TemenosParser.addLine. rewrite includes_app_sep, (split_first _ _ _ Hnone).
  pose proof (split_nonempty "=" rest). by destruct (Str.split "=" rest).
Qed.

(** C9, as the claim states it, fails on the code: the value of the line
    [NARRATIVE=A=B] is [A], not [A=B]; and a payload whose mapping has the
    key [TXN.REF], with an empty value, is rejected all the same. *)
Lemma parseT24_counterexample :
  TemenosParser.t24Fields "NARRATIVE=A=B" !! "NARRATIVE" = Some "A" /\
  TemenosParser.t24Fields "TXN.REF=" !! "TXN.REF" = Some EmptyString /\
  forall stamp,
    TemenosParser.parseT24 stamp "TXN.REF="
    = Throw "Temenos T24 parsing failed: Invalid Temenos T24: missing TXN.REF".
Proof. repeat split; vm_compute; reflexivity. Qed.

(** C9, amended. [parseT24] splits the payload into lines and folds them
    into a flat mapping: a line without an equals sign changes nothing; a
    line with one assigns to the trimmed text before the first equals sign
    a value, which is the trimmed remainder when the line has no second
    equals sign (a string assigned to the key [__proto__] is dropped). It
    throws exactly when the mapping has no entry for [TXN.REF] or an empty
    one, and otherwise returns a record with that entry as its
    [transactionReference]. *)
Theorem parseT24_mapping stamp (t24Message : string) :
  TemenosParser.t24Fields t24Message
  = foldl TemenosParser.addLine ∅ (Str.split "010" t24Message) /\
  (forall fields line,
     Str.includes "=" line = false -> TemenosParser.addLine fields line = fields) /\
  (forall fields line key,
     Str.before "=" line = Some key ->
     exists rest value,
       Str.after "=" line = Some rest /\
       TemenosParser.addLine fields line
       = TemenosParser.assign fields (Str.trim key) value /\
       (Str.includes "=" rest = false -> value = Str.trim rest)) /\
  (forall (fields : gmap string string) key value,
     key <> "__proto__" ->
     TemenosParser.assign fields key value = <[key := value]> fields) /\
  (returns (TemenosParser.parseT24 stamp t24Message) = false <->
   TemenosParser.t24Fields t24Message !! "TXN.REF" = None \/
   TemenosParser.t24Fields t24Message !! "TXN.REF" = Some EmptyString) /\
  (forall v,
     TemenosParser.t24Fields t24Message !! "TXN.REF" = Some v -> v <> EmptyString ->
     exists record,
       TemenosParser.parseT24 stamp t24Message = Return record /\
       messageTypeOf record = Return (JStr "TEMENOS_T24") /\
       Js.get record "transactionReference" = Return (JStr v)).
Proof.
  split; [reflexivity|].
  split. { intros fields line Hno. unfold TemenosParser.addLine. by rewrite Hno. }
  split.
  { intros fields line key Hkey.
    destruct (addLine_entry fields line key Hkey) as (rest & Hafter & Hadd).
    exists rest, (Str.trim (hd EmptyString (Str.split "=" rest))).
    repeat split; [done | done |].
    intros Hrest. by rewrite (split_no_sep "=" rest Hrest). }
  split.
  { intros fields key value Hkey. unfold TemenosParser.assign.
    destruct (String.eqb_spec key "__proto__"); [done | reflexivity]. }
  unfold TemenosParser.parseT24, TemenosParser.field. cbv zeta.
  destruct (TemenosParser.t24Fields t24Message !! "TXN.REF") as [v|] eqn:Href.
  - destruct v as [|c v].
    + split; [split; [auto | reflexivity]|]. intros v [= <-]. done.
    + split.
      * split; [discriminate | intros [|]; discriminate].
      * intros v' [= <-] _. cbn [Js.truthy String.eqb negb try_catch].
        eexists. split; [reflexivity|].
        split; [unfold messageTypeOf|]; by get_field.
  - split; [split; [auto | reflexivity]|]. discriminate.
Qed.

(** ** The base SWIFT parser *)

Section Swift.

Import SWIFTParser.

Lemma startsWith_app p s : Str.startsWith p (p +:+ s) = true.
Proof.
  induction p as [|c p IH]; [by destruct s|].
  change (String c p +:+ s) with (String c (p +:+ s)).
  cbn [Str.startsWith]. unfold Str.eqc. by rewrite Ascii.eqb_refl, IH.
Qed.

Lemma supported_types mt :
  includes mt supportedMessageTypes = true <-> mt = "MT103" \/ mt = "MT202".
Proof.
  unfold includes, supportedMessageTypes. cbn [existsb].
  destruct (String.eqb_spec mt "MT103"), (String.eqb_spec mt "MT202");
    cbn; split; intros; try tauto; try discriminate; by intuition.
Qed.

Lemma supported_table mt :
  includes mt supportedMessageTypes = true ->
  exists defs, SWIFT_FIELDS mt = Some defs /\
    forall t, In t (getRequiredFields mt) -> is_Some (defs !! t).
Proof.
  intros [-> | ->]%supported_types; eexists; (split; [reflexivity|]);
    intros t Ht; cbn in Ht;
    repeat (destruct Ht as [<- | Ht]; [vm_compute; eauto|]); done.
Qed.

(** With a field table at hand the loop over the matched texts never
    throws; it keeps the tags of the table, a later text overwriting an
    earlier one of the same tag. *)
Lemma forEach_total defs ms : forall fields,
  exists fields', forEach (Some defs) fields ms = Return fields'.
Proof.
  induction ms as [|m ms IH]; intros fields; cbn [forEach]; [eauto|].
  unfold addField.
  destruct (fieldMatch m) as [[t rest]|]; [destruct (defs !! t)|]; cbn [bind]; apply IH.
Qed.

Lemma forEach_dom defs ms : forall fields fields' t,
  forEach (Some defs) fields ms = Return fields' ->
  (is_Some (fields' !! t) <->
   is_Some (fields !! t) \/
   (is_Some (defs !! t) /\ exists m, In m ms /\ tagOf m = Some t)).
Proof.
  induction ms as [|m ms IH]; intros fields fields' t; cbn [forEach].
  - intros [= <-]. split; [auto|]. intros [?|(_ & m & [] & _)]; done.
  - unfold addField.
    destruct (fieldMatch m) as [[t0 rest]|] eqn:Hm.
    + assert (Htag : tagOf m = Some t0) by (unfold tagOf; by rewrite Hm).
      destruct (defs !! t0) as [n|] eqn:Hdef; cbn [bind]; intros Hrun;
        rewrite (IH _ _ _ Hrun); cbn [In].
      * rewrite lookup_insert_is_Some.
        destruct (decide (t0 = t)) as [<-|Hne]; [|naive_solver].
        split; [|naive_solver]. intros _. right. split; [eauto|]. exists m. auto.
      * assert (t0 = t -> ~ is_Some (defs !! t)) by (intros <- [? ?]; congruence).
        naive_solver.
    + assert (Htag : tagOf m = None) by (unfold tagOf; by rewrite Hm).
      cbn [bind]. intros Hrun. rewrite (IH _ _ _ Hrun). cbn [In]. naive_solver.
Qed.

(** [validateRequiredFields] throws for the first required tag that is
    absent, and returns when there is none. *)
Lemma checkRequired_spec fields mt required :
  (Forall (fun t => is_Some (fields !! t)) required /\
   checkRequired fields mt required = Return tt) \/
  (exists t, In t required /\ fields !! t = None /\
     checkRequired fields mt required
     = Throw ("Missing required field: " +:+ t +:+ " for " +:+ mt)).
Proof.
  induction required as [|t required IH]; cbn [checkRequired]; [left; auto|].
  destruct (fields !! t) as [f|] eqn:Ht.
  - destruct IH as [[Hall Hok] | (t' & Hin & Hnone & Hthrow)].
    + left. split; [constructor; eauto | done].
    + right. exists t'. cbn [In]. auto.
  - right. exists t. cbn [In]. auto.
Qed.

End Swift.

Section SwiftMessage.

Import SWIFTParser.

Lemma try_catch_rethrow_id {A} (body : Result A) :
  try_catch body (fun error => Throw error) = body.
Proof. by destruct body. Qed.

(** Reads a property of an object literal after some assignments. *)
Ltac get_prop :=
  unfold messageTypeOf, Js.obj; cbn [Js.set Js.get list_to_map foldr fst snd];
  repeat (rewrite lookup_insert_ne by discriminate);
  rewrite lookup_insert_eq; reflexivity.

(** The message object built from validated fields. *)
Lemma createStandardizedMessage_amount stamp fields mt f :
  includes mt supportedMessageTypes = true ->
  fields !! "32A" = Some f ->
  match parseAmountField (content f) with
  | Throw e => createStandardizedMessage stamp fields mt = Throw e
  | Return data =>
      exists record,
        createStandardizedMessage stamp fields mt = Return record /\
        messageTypeOf record = Return (JStr mt) /\
        Js.get record "transactionReference" = Return (contentOf fields "20") /\
        Js.get record "amount" = Return (JNum (amount data)) /\
        Js.get record "currency" = Return (JStr (currency data)) /\
        Js.get record "valueDate" = Return (JStr (valueDate data))
  end.
Proof.
  intros Hmt Hf. unfold createStandardizedMessage. rewrite Hf.
  destruct (parseAmountField (content f)) as [data|e]; cbn [bind]; [|reflexivity].
  apply supported_types in Hmt as [-> | ->]; cbn [String.eqb Ascii.eqb Bool.eqb];
    eexists; (split; [reflexivity|]); repeat split; get_prop.
Qed.

(** [parse] on a text, step by step. *)
Lemma parse_steps stamp (message : string) :
  message <> EmptyString ->
  parse stamp (JStr message)
  = (let* messageType := extractMessageType message in
     if negb (includes messageType supportedMessageTypes)
     then Throw ("Unsupported message type: " +:+ messageType)
     else
       let* fields := parseFields message messageType in
       let* _ := validateRequiredFields fields messageType in
       createStandardizedMessage stamp fields messageType).
Proof.
  intros Hne. unfold parse. rewrite try_catch_rethrow_id.
  destruct (String.eqb_spec message EmptyString); [done | reflexivity].
Qed.

End SwiftMessage.

Section SwiftParse.

Import SWIFTParser.

Lemma headerMatch_nonempty message code :
  headerMatch message = Some code -> message <> EmptyString.
Proof. by intros H ->. Qed.

Lemma parse_no_header stamp message :
  headerMatch message = None ->
  exists e, parse stamp (JStr message) = Throw e /\ invalidFormat e = true.
Proof.
  intros Hnone. destruct (String.eqb_spec message EmptyString) as [-> | Hne].
  - eexists. split; reflexivity.
  - rewrite (parse_steps _ _ Hne). unfold extractMessageType. rewrite Hnone.
    eexists. split; reflexivity.
Qed.

(** What [parse] does once the header names a supported type. *)
Lemma parse_supported stamp message code :
  headerMatch message = Some code ->
  includes ("MT" +:+ code) supportedMessageTypes = true ->
  parse stamp (JStr message)
  = (let* fields := parseFields message ("MT" +:+ code) in
     let* _ := validateRequiredFields fields ("MT" +:+ code) in
     createStandardizedMessage stamp fields ("MT" +:+ code)).
Proof.
  intros Hcode Hmt. rewrite (parse_steps _ _ (headerMatch_nonempty _ _ Hcode)).
  unfold extractMessageType. rewrite Hcode. cbn [bind]. by rewrite Hmt.
Qed.

Lemma parseFields_supported message mt textBlock :
  includes mt supportedMessageTypes = true ->
  textBlockMatch message = Some textBlock ->
  fieldMatches textBlock <> [] ->
  exists fields,
    parseFields message mt = Return fields /\
    forall t, In t (getRequiredFields mt) ->
      (is_Some (fields !! t) <->
       exists m, In m (fieldMatches textBlock) /\ tagOf m = Some t).
Proof.
  intros Hmt Hblock Hms.
  destruct (supported_table mt Hmt) as (defs & Hdefs & Hreq).
  unfold parseFields. rewrite Hdefs, Hblock.
  destruct (forEach_total defs (fieldMatches textBlock) ∅) as [fields Hrun].
  exists fields. split.
  - by destruct (fieldMatches textBlock).
  - intros t Ht. rewrite (forEach_dom _ _ _ _ t Hrun), lookup_empty.
    specialize (Hreq t Ht). split.
    + intros [[? [=]] | [_ ?]]; done.
    + auto.
Qed.

Lemma SWIFT_parse_unsupported stamp message code :
  headerMatch message = Some code ->
  includes ("MT" +:+ code) supportedMessageTypes = false ->
  parse stamp (JStr message) = Throw ("Unsupported message type: MT" +:+ code).
Proof.
  intros Hcode Hmt. rewrite (parse_steps _ _ (headerMatch_nonempty _ _ Hcode)).
  unfold extractMessageType. rewrite Hcode. cbn [bind].
  rewrite Hmt. reflexivity.
Qed.

End SwiftParse.

(** C3, as the claim states it, fails on the code: a payload may have the
    envelope, a supported type and every required tag, and still not be
    parsed. *)
Lemma SWIFT_parse_counterexample :
  SWIFTParser.headerMatch mt103_bad_amount = Some "103" /\
  SWIFTParser.textBlockMatch mt103_bad_amount
  = Some ":20:REF1:32A:INVALID:50K:/12345678:59:/98765432-" /\
  (let* fields := SWIFTParser.parseFields mt103_bad_amount "MT103" in
   SWIFTParser.validateRequiredFields fields "MT103") = Return tt /\
  forall stamp,
    SWIFTParser.parse stamp (JStr mt103_bad_amount)
    = Throw "Invalid amount field format: INVALID".
Proof. repeat split; vm_compute; reflexivity. Qed.

(** C3, amended. [SWIFTParser.parse] decides in this order. Without an
    application header [{2:I] and three digits it throws an invalid-format
    error. With a header whose type is neither MT103 nor MT202 it throws an
    unsupported-type error (whether or not a text block follows). With a
    supported type: no text block gives an invalid-format error; a text
    block without any tag gives the error [No valid fields found in
    message]; a required tag (MT103: 20, 32A, 50K, 59; MT202: 20, 32A, 52A,
    58A) that no matched text carries gives a missing-field error naming
    such a tag; and with every required tag present the result is decided
    by field 32A: an invalid-amount-format error when its content is not an
    amount, a parsed record of the header's type otherwise. *)
Theorem SWIFT_parse_outcome stamp (message : string) :
  SWIFTParser.getRequiredFields "MT103" = ["20"; "32A"; "50K"; "59"] /\
  SWIFTParser.getRequiredFields "MT202" = ["20"; "32A"; "52A"; "58A"] /\
  (SWIFTParser.headerMatch message = None ->
     exists e, SWIFTParser.parse stamp (JStr message) = Throw e /\ invalidFormat e = true) /\
  (forall code,
     SWIFTParser.headerMatch message = Some code ->
     SWIFTParser.includes ("MT" +:+ code) SWIFTParser.supportedMessageTypes = false ->
     code <> "103" /\ code <> "202" /\
     SWIFTParser.parse stamp (JStr message)
     = Throw ("Unsupported message type: MT" +:+ code) /\
     unsupportedType ("Unsupported message type: MT" +:+ code) = true) /\
  (forall code,
     SWIFTParser.headerMatch message = Some code ->
     SWIFTParser.includes ("MT" +:+ code) SWIFTParser.supportedMessageTypes = true ->
     (SWIFTParser.textBlockMatch message = None ->
        SWIFTParser.parse stamp (JStr message)
        = Throw "Invalid SWIFT message format: missing text block") /\
     (forall textBlock,
        SWIFTParser.textBlockMatch message = Some textBlock ->
        SWIFTParser.fieldMatches textBlock = [] ->
        SWIFTParser.parse stamp (JStr message)
        = Throw "No valid fields found in message") /\
     (forall textBlock,
        SWIFTParser.textBlockMatch message = Some textBlock ->
        SWIFTParser.fieldMatches textBlock <> [] ->
        exists fields,
          SWIFTParser.parseFields message ("MT" +:+ code) = Return fields /\
          (forall t, In t (SWIFTParser.getRequiredFields ("MT" +:+ code)) ->
             (is_Some (fields !! t) <->
              exists m, In m (SWIFTParser.fieldMatches textBlock) /\ tagOf m = Some t)) /\
          ((exists t,
              In t (SWIFTParser.getRequiredFields ("MT" +:+ code)) /\
              fields !! t = None /\
              SWIFTParser.parse stamp (JStr message)
              = Throw ("Missing required field: " +:+ t +:+ " for MT" +:+ code) /\
              missingField ("Missing required field: " +:+ t +:+ " for MT" +:+ code) = true)
           \/
           (Forall (fun t => is_Some (fields !! t))
                   (SWIFTParser.getRequiredFields ("MT" +:+ code)) /\
            exists f,
              fields !! "32A" = Some f /\
              match SWIFTParser.amountMatch (SWIFTParser.content f) with
              | None =>
                  SWIFTParser.parse stamp (JStr message)
                  = Throw ("Invalid amount field format: " +:+ SWIFTParser.content f) /\
                  invalidAmountFormat
                    ("Invalid amount field format: " +:+ SWIFTParser.content f) = true
              | Some _ =>
                  exists record,
                    SWIFTParser.parse stamp (JStr message) = Return record /\
                    messageTypeOf record = Return (JStr ("MT" +:+ code))
              end)))).
Proof.
  split; [reflexivity|]. split; [reflexivity|].
  split; [apply parse_no_header|].
  split.
  - intros code Hcode Hmt.
    split; [intros ->; vm_compute in Hmt; discriminate|].
    split; [intros ->; vm_compute in Hmt; discriminate|].
    split; [|apply (startsWith_app "Unsupported message type: ")].
    rewrite (parse_steps _ _ (headerMatch_nonempty _ _ Hcode)).
    unfold SWIFTParser.extractMessageType. rewrite Hcode. cbn [bind].
    rewrite Hmt. reflexivity.
  - intros code Hcode Hmt. rewrite (parse_supported _ _ _ Hcode Hmt).
    repeat split.
    + intros Hnone. unfold SWIFTParser.parseFields. by rewrite Hnone.
    + intros textBlock Hblock Hempty. unfold SWIFTParser.parseFields.
      by rewrite Hblock, Hempty.
    + intros textBlock Hblock Hms.
      destruct (parseFields_supported _ _ _ Hmt Hblock Hms) as (fields & Hfields & Hdom).
      exists fields. split; [exact Hfields|]. split; [exact Hdom|].
      rewrite Hfields. cbn [bind]. unfold SWIFTParser.validateRequiredFields.
      destruct (checkRequired_spec fields ("MT" +:+ code)
                  (SWIFTParser.getRequiredFields ("MT" +:+ code)))
        as [[Hall Hok] | (t & Hin & Hnone & Hthrow)].
      * right. split; [exact Hall|]. rewrite Hok. cbn [bind].
        assert (Hamount : is_Some (fields !! "32A")).
        { apply (proj1 (List.Forall_forall _ _) Hall).
          destruct (proj1 (supported_types _) Hmt) as [Heq | Heq];
            rewrite Heq; cbn; auto. }
        destruct Hamount as [f Hf]. exists f. split; [exact Hf|].
        pose proof (createStandardizedMessage_amount stamp fields _ f Hmt Hf) as Hmsg.
        unfold SWIFTParser.parseAmountField in Hmsg.
        destruct (SWIFTParser.amountMatch (SWIFTParser.content f)) as [[[d c] a]|].
        -- destruct Hmsg as (record & Hrec & Htype & _). eauto.
        -- split; [exact Hmsg | apply (startsWith_app "Invalid amount field format: ")].
      * left. exists t. rewrite Hthrow. cbn [bind].
        repeat split; first [done | apply (startsWith_app "Missing required field: ")].
Qed.

(** ** Field 32A: value date, currency, amount *)

Section Dates.

Import JsDate.

Lemma DayFromYear_mono y1 y2 : y1 <= y2 -> DayFromYear y1 <= DayFromYear y2.
Proof. intros H. unfold DayFromYear. Z.div_mod_to_equations; lia. Qed.

Lemma DayFromYear_step y : DayFromYear (y + 1) = DayFromYear y + DaysInYear y.
Proof.
  unfold DayFromYear, DaysInYear, InLeapYear.
  destruct (y mod 4 =? 0) eqn:H4; destruct (y mod 100 =? 0) eqn:H100;
    destruct (y mod 400 =? 0) eqn:H400; cbn [andb orb negb];
    rewrite ?Z.eqb_eq, ?Z.eqb_neq in *; Z.div_mod_to_equations; lia.
Qed.

(** The search stops at the year whose days contain [t]. *)
Lemma year_search_correct fuel : forall y0 y t,
  y0 <= y -> y - y0 <= Z.of_nat fuel ->
  DayFromYear y <= t < DayFromYear (y + 1) ->
  year_search fuel y0 t = y.
Proof.
  induction fuel as [|fuel IH]; intros y0 y t Hle Hfuel Ht; cbn [year_search].
  - lia.
  - destruct (DayFromYear (y0 + 1) <=? t) eqn:Hnext.
    + apply Z.leb_le in Hnext.
      assert (y0 < y) by (destruct (Z.eq_dec y0 y) as [->|]; lia).
      apply IH; lia.
    + apply Z.leb_gt in Hnext.
      destruct (Z.eq_dec y0 y) as [|Hne]; [done|].
      pose proof (DayFromYear_mono (y0 + 1) y ltac:(lia)). lia.
Qed.

Lemma YearFromDay_correct y t :
  2000 <= y <= 2099 -> DayFromYear y <= t < DayFromYear (y + 1) -> YearFromDay t = y.
Proof.
  intros Hy Ht. unfold YearFromDay. apply year_search_correct; [| |exact Ht].
  - unfold DayFromYear in Ht. Z.div_mod_to_equations; lia.
  - unfold DayFromYear in Ht. Z.div_mod_to_equations; lia.
Qed.

Lemma forallb_seq (f : nat -> bool) (a n k : nat) :
  forallb f (seq a n) = true -> (a <= k < a + n)%nat -> f k = true.
Proof.
  intros Hall Hk. apply (proj1 (forallb_forall f (seq a n)) Hall).
  apply in_seq. exact Hk.
Qed.

Lemma month_agrees_all leap :
  forallb (fun mm =>
    forallb (fun dd => month_agrees leap mm dd) (seq 1 31)) (seq 0 12) = true.
Proof. destruct leap; vm_compute; reflexivity. Qed.

Ltac month_cases m first_month :=
  let Hcases := fresh "Hcases" in
  assert (Hcases : m = first_month \/ m = first_month + 1 \/ m = first_month + 2
                   \/ m = first_month + 3 \/ m = first_month + 4
                   \/ m = first_month + 5 \/ m = first_month + 6
                   \/ m = first_month + 7 \/ m = first_month + 8
                   \/ m = first_month + 9 \/ m = first_month + 10
                   \/ m = first_month + 11) by lia;
  repeat destruct Hcases as [-> | Hcases]; try subst m.

Lemma month_start_bounds leap m :
  0 <= m <= 11 ->
  0 <= month_start leap m /\
  month_start leap (m + 1) <= (if leap then 366 else 365) /\
  daysIn leap m <= 31.
Proof.
  intros Hm. month_cases m 0; destruct leap; vm_compute; repeat split; discriminate.
Qed.

Lemma MonthFromDayInYear_correct leap m d :
  0 <= m <= 11 -> 1 <= d <= daysIn leap m ->
  MonthFromDayInYear leap (month_start leap m + d - 1) = m.
Proof.
  intros Hm Hd. destruct (month_start_bounds leap m Hm) as (_ & _ & H31).
  pose proof (forallb_seq _ _ _ (Z.to_nat m) (month_agrees_all leap) ltac:(lia))
    as Hmonth.
  cbv beta in Hmonth.
  pose proof (forallb_seq _ _ _ (Z.to_nat d) Hmonth ltac:(lia)) as Hday.
  cbv beta in Hday. unfold month_agrees in Hday.
  rewrite !Z2Nat.id in Hday by lia.
  destruct (d <=? daysIn leap m) eqn:Hle; [|apply Z.leb_gt in Hle; lia].
  by apply Z.eqb_eq in Hday.
Qed.

Lemma MakeDay_month y m d :
  0 <= m <= 11 -> MakeDay y m d = DayFromYear y + month_start (InLeapYear y) m + d - 1.
Proof.
  intros Hm. unfold MakeDay.
  rewrite (Z.div_small m 12), (Z.mod_small m 12) by lia.
  by rewrite Z.add_0_r.
Qed.

Lemma daysInMonth_daysIn y m :
  1 <= m <= 12 -> daysInMonth y m = daysIn (InLeapYear y) (m - 1).
Proof.
  intros Hm. month_cases m 1; unfold daysInMonth; destruct (InLeapYear y); reflexivity.
Qed.

(** The date [Date.UTC] gives for a calendar day of the years 2000 to 2099
    prints as that day. *)
Lemma isoDate_calendar (y m d : Z) :
  0 <= y <= 99 -> 1 <= m <= 12 -> 1 <= d <= daysInMonth (2000 + y) m ->
  isoDate (2000 + y) (m - 1) d
  = pad4 (2000 + y) +:+ "-" +:+ pad2 m +:+ "-" +:+ pad2 d.
Proof.
  intros Hy Hm Hd. rewrite (daysInMonth_daysIn _ _ Hm) in Hd.
  set (leap := InLeapYear (2000 + y)) in *.
  assert (Hm' : 0 <= m - 1 <= 11) by lia.
  destruct (month_start_bounds leap (m - 1) Hm') as (Hlow & Hhigh & _).
  replace (m - 1 + 1) with m in Hhigh by lia.
  unfold isoDate. rewrite (MakeDay_month _ _ _ Hm'). fold leap.
  assert (Hyear : YearFromDay (DayFromYear (2000 + y) + month_start leap (m - 1) + d - 1)
                  = 2000 + y).
  { apply YearFromDay_correct; [lia|]. rewrite DayFromYear_step.
    unfold DaysInYear. fold leap. unfold daysIn in Hd.
    replace (m - 1 + 1) with m in Hd by lia. destruct leap; lia. }
  cbv zeta. rewrite Hyear. fold leap.
  replace (DayFromYear (2000 + y) + month_start leap (m - 1) + d - 1
           - DayFromYear (2000 + y)) with (month_start leap (m - 1) + d - 1) by lia.
  rewrite (MonthFromDayInYear_correct leap (m - 1) d Hm' Hd).
  replace (m - 1 + 1) with m by lia.
  replace (month_start leap (m - 1) + d - 1 - month_start leap (m - 1) + 1) with d by lia.
  reflexivity.
Qed.

End Dates.

Lemma digit_cases c :
  Str.is_digit c = true ->
  In c ["0"; "1"; "2"; "3"; "4"; "5"; "6"; "7"; "8"; "9"]%char.
Proof.
  destruct c as [[] [] [] [] [] [] [] []]; intros H;
    first [discriminate H | cbn [In]; tauto].
Qed.

Lemma two_digits a b :
  Str.is_digit a = true -> Str.is_digit b = true ->
  0 <= Js.parseInt (String a (String b EmptyString)) <= 99 /\
  JsDate.pad2 (Js.parseInt (String a (String b EmptyString)))
  = String a (String b EmptyString).
Proof.
  intros Ha%digit_cases Hb%digit_cases. cbn [In] in Ha, Hb.
  repeat destruct Ha as [<- | Ha]; try done;
    repeat destruct Hb as [<- | Hb]; try done;
    vm_compute; intuition congruence.
Qed.

Lemma pad4_century n :
  0 <= n <= 99 -> JsDate.pad4 (2000 + n) = "20" +:+ JsDate.pad2 n.
Proof.
  intros Hn. unfold JsDate.pad4.
  replace ((2000 + n) / 100) with 20 by (apply Z.div_unique with (r := n); lia).
  replace ((2000 + n) mod 100) with n by (apply Z.mod_unique with (q := 20); lia).
  reflexivity.
Qed.

Lemma take_drop n : forall s, Str.take n s +:+ Str.drop n s = s.
Proof.
  induction n as [|n IH]; intros [|c s]; try reflexivity.
  cbn [Str.take Str.drop].
  change (String c (Str.take n s) +:+ Str.drop n s)
    with (String c (Str.take n s +:+ Str.drop n s)).
  by rewrite IH.
Qed.

Lemma drop_drop n m : forall s, Str.drop n (Str.drop m s) = Str.drop (m + n) s.
Proof.
  induction m as [|m IH]; intros s; [reflexivity|].
  destruct s as [|c s]; cbn [Str.drop Nat.add]; [by destruct n | apply IH].
Qed.

Lemma take_app p : forall s, Str.take (String.length p) (p +:+ s) = p.
Proof.
  induction p as [|c p IH]; intros s; [by destruct s|].
  change (String c p +:+ s) with (String c (p +:+ s)).
  cbn [String.length Str.take]. by rewrite IH.
Qed.

Lemma drop_app p : forall s, Str.drop (String.length p) (p +:+ s) = s.
Proof.
  induction p as [|c p IH]; intros s; [reflexivity|].
  change (String c p +:+ s) with (String c (p +:+ s)).
  cbn [String.length Str.drop]. apply IH.
Qed.

(** [amountMatch] finds the three groups exactly when the content has the
    shape. *)
Lemma amountMatch_spec content dateStr cur amountStr :
  SWIFTParser.amountMatch content = Some (dateStr, cur, amountStr) <->
  content = dateStr +:+ cur +:+ amountStr /\ amountShape dateStr cur amountStr.
Proof.
  unfold SWIFTParser.amountMatch, amountShape. split.
  - remember (Str.take 6 content) as d eqn:Ed.
    remember (Str.take 3 (Str.drop 6 content)) as c eqn:Ec.
    remember (Str.drop 9 content) as a eqn:Ea.
    destruct (_ && _) eqn:Hcond; [|discriminate].
    intros Heq. injection Heq as <- <- <-.
    repeat (apply andb_prop in Hcond as [Hcond ?]).
    split.
    + rewrite Ed, Ec, Ea. change 9%nat with (6 + 3)%nat.
      rewrite <- (drop_drop 3 6 content), take_drop, take_drop. reflexivity.
    + repeat split; try done.
      * by apply Nat.eqb_eq.
      * by apply Nat.eqb_eq.
      * intros Heq. rewrite Heq in *. discriminate.
  - intros (-> & Hd6 & Hd & Hc3 & Hc & Ha & Hchars).
    assert (Hdate : Str.take 6 (dateStr +:+ cur +:+ amountStr) = dateStr)
      by (rewrite <- Hd6; apply take_app).
    assert (Hrest : Str.drop 6 (dateStr +:+ cur +:+ amountStr) = cur +:+ amountStr)
      by (rewrite <- Hd6; apply drop_app).
    assert (Hcur : Str.take 3 (cur +:+ amountStr) = cur)
      by (rewrite <- Hc3; apply take_app).
    assert (Hamount : Str.drop 9 (dateStr +:+ cur +:+ amountStr) = amountStr).
    { change 9%nat with (6 + 3)%nat. rewrite <- drop_drop, Hrest, <- Hc3.
      apply drop_app. }
    rewrite Hdate, Hrest, Hcur, Hamount, Hd6, Hd, Hc3, Hc. cbn [Nat.eqb andb].
    unfold amountChar in Hchars. rewrite Hchars.
    destruct (String.eqb_spec amountStr EmptyString); [done | reflexivity].
Qed.

Lemma parseAmountField_shape content dateStr cur amountStr :
  content = dateStr +:+ cur +:+ amountStr -> amountShape dateStr cur amountStr ->
  SWIFTParser.parseAmountField content
  = Return {| SWIFTParser.valueDate :=
                JsDate.isoDate (2000 + Js.parseInt (Str.substring 0 2 dateStr))
                  (Js.parseInt (Str.substring 2 4 dateStr) - 1)
                  (Js.parseInt (Str.substring 4 6 dateStr));
              SWIFTParser.currency := cur;
              SWIFTParser.amount := Js.parseFloat (SWIFTParser.removeCommas amountStr) |}.
Proof.
  intros Hcontent Hshape. unfold SWIFTParser.parseAmountField.
  by rewrite (proj2 (amountMatch_spec content dateStr cur amountStr) (conj Hcontent Hshape)).
Qed.

Lemma parseAmountField_mismatch content :
  ~ (exists dateStr cur amountStr,
       content = dateStr +:+ cur +:+ amountStr /\ amountShape dateStr cur amountStr) ->
  SWIFTParser.parseAmountField content
  = Throw ("Invalid amount field format: " +:+ content).
Proof.
  intros Hno. unfold SWIFTParser.parseAmountField.
  destruct (SWIFTParser.amountMatch content) as [[[d c] a]|] eqn:Hmatch; [|reflexivity].
  destruct Hno. exists d, c, a. by apply amountMatch_spec.
Qed.

(** A value date that is a calendar day is printed as it is written, behind
    the century. *)
Lemma valueDate_calendar dateStr :
  String.length dateStr = 6%nat -> Str.all Str.is_digit dateStr = true ->
  let y := Js.parseInt (Str.substring 0 2 dateStr) in
  let m := Js.parseInt (Str.substring 2 4 dateStr) in
  let d := Js.parseInt (Str.substring 4 6 dateStr) in
  1 <= m <= 12 -> 1 <= d <= daysInMonth (2000 + y) m ->
  JsDate.isoDate (2000 + y) (m - 1) d
  = "20" +:+ Str.substring 0 2 dateStr +:+ "-" +:+ Str.substring 2 4 dateStr
    +:+ "-" +:+ Str.substring 4 6 dateStr.
Proof.
  intros Hlen Hdigits.
  destruct dateStr as [|c1 [|c2 [|c3 [|c4 [|c5 [|c6 [|]]]]]]]; try discriminate Hlen.
  cbn [Str.all] in Hdigits.
  repeat (apply andb_prop in Hdigits as [? Hdigits]).
  change (Str.substring 0 2 (String c1 (String c2 (String c3 (String c4 (String c5 (String c6 EmptyString)))))))
    with (String c1 (String c2 EmptyString)).
  change (Str.substring 2 4 (String c1 (String c2 (String c3 (String c4 (String c5 (String c6 EmptyString)))))))
    with (String c3 (String c4 EmptyString)).
  change (Str.substring 4 6 (String c1 (String c2 (String c3 (String c4 (String c5 (String c6 EmptyString)))))))
    with (String c5 (String c6 EmptyString)).
  destruct (two_digits c1 c2) as [Hy Hyy]; [done..|].
  destruct (two_digits c3 c4) as [_ Hmm]; [done..|].
  destruct (two_digits c5 c6) as [_ Hdd]; [done..|].
  intros y m d Hm Hd. subst y m d.
  rewrite (isoDate_calendar _ _ _ Hy Hm Hd), (pad4_century _ Hy), Hyy, Hmm, Hdd.
  reflexivity.
Qed.

(** C2, as the claim states it, fails on the code: the commas of the amount
    are dropped, not read as a decimal mark, so [230701USD1000,00] gives the
    amount 100000 and not 1000.00 (the unit tests of the parser expect
    100000 as well). *)
Lemma parseAmountField_counterexample :
  SWIFTParser.parseAmountField "230701USD1000,00"
  = Return {| SWIFTParser.valueDate := "2023-07-01";
              SWIFTParser.currency := "USD";
              SWIFTParser.amount := Decimal false 100000 0 |} /\
  Js.to_Q (Decimal false 100000 0) = Some (inject_Z 100000) /\
  ~ (inject_Z 100000 == inject_Z 1000)%Q /\
  forall stamp,
    propertyOf (SWIFTParser.parse stamp (JStr mt103_example)) "amount"
    = Return (JNum (Decimal false 100000 0)).
Proof.
  split; [vm_compute; reflexivity|].
  split; [reflexivity|].
  split; [intros H; vm_compute in H; discriminate H|].
  intros stamp. vm_compute. reflexivity.
Qed.

(** C2, amended. Let a payload of a supported type pass the checks on its
    fields, so that field 32A is present. When its content is six digits,
    three capital letters and a run of digits, commas and periods,
    [SWIFTParser.parse] returns a record whose [currency] is the three
    letters, whose [amount] is [parseFloat] of the run with its commas
    removed (the number its digits denote when nothing but digits remains:
    100000 for [1000,00]), and whose [valueDate] is the day [Date.UTC] gives
    for year [2000 + YY], month [MM] and day [DD]: [20YY-MM-DD] whenever
    that is a day of the calendar. When the content has no such shape,
    [parse] throws an invalid-amount-format error. *)
Theorem parse_amount_field stamp (message : string) code fields f :
  SWIFTParser.headerMatch message = Some code ->
  SWIFTParser.includes ("MT" +:+ code) SWIFTParser.supportedMessageTypes = true ->
  SWIFTParser.parseFields message ("MT" +:+ code) = Return fields ->
  SWIFTParser.validateRequiredFields fields ("MT" +:+ code) = Return tt ->
  fields !! "32A" = Some f ->
  (forall dateStr cur amountStr,
     SWIFTParser.content f = dateStr +:+ cur +:+ amountStr ->
     amountShape dateStr cur amountStr ->
     let y := Js.parseInt (Str.substring 0 2 dateStr) in
     let m := Js.parseInt (Str.substring 2 4 dateStr) in
     let d := Js.parseInt (Str.substring 4 6 dateStr) in
     exists record,
       SWIFTParser.parse stamp (JStr message) = Return record /\
       Js.get record "currency" = Return (JStr cur) /\
       Js.get record "amount"
       = Return (JNum (Js.parseFloat (SWIFTParser.removeCommas amountStr))) /\
       (Str.all Str.is_digit (SWIFTParser.removeCommas amountStr) = true ->
        SWIFTParser.removeCommas amountStr <> EmptyString ->
        Js.get record "amount"
        = Return (JNum (Decimal false
                          (Js.digits_value (SWIFTParser.removeCommas amountStr)) 0))) /\
       Js.get record "valueDate" = Return (JStr (JsDate.isoDate (2000 + y) (m - 1) d)) /\
       (1 <= m <= 12 -> 1 <= d <= daysInMonth (2000 + y) m ->
        Js.get record "valueDate"
        = Return (JStr ("20" +:+ Str.substring 0 2 dateStr
                        +:+ "-" +:+ Str.substring 2 4 dateStr
                        +:+ "-" +:+ Str.substring 4 6 dateStr)))) /\
  (~ (exists dateStr cur amountStr,
        SWIFTParser.content f = dateStr +:+ cur +:+ amountStr /\
        amountShape dateStr cur amountStr) ->
   SWIFTParser.parse stamp (JStr message)
   = Throw ("Invalid amount field format: " +:+ SWIFTParser.content f) /\
   invalidAmountFormat ("Invalid amount field format: " +:+ SWIFTParser.content f) = true).
Proof.
  intros Hcode Hmt Hfields Hvalid Hf.
  rewrite (parse_supported _ _ _ Hcode Hmt), Hfields. cbn [bind].
  rewrite Hvalid. cbn [bind].
  pose proof (createStandardizedMessage_amount stamp fields _ f Hmt Hf) as Hmsg.
  split.
  - intros dateStr cur amountStr Hcontent Hshape. cbv zeta.
    rewrite (parseAmountField_shape _ _ _ _ Hcontent Hshape) in Hmsg.
    destruct Hmsg as (record & Hrec & _ & _ & Hamount & Hcur & Hdate).
    cbn [SWIFTParser.amount SWIFTParser.currency SWIFTParser.valueDate] in *.
    exists record. repeat split; try done.
    + intros Hdigits Hne. by rewrite Hamount, parseFloat_digits.
    + intros Hm Hd. rewrite Hdate.
      destruct Hshape as (Hlen & Hdig & _).
      by rewrite (valueDate_calendar dateStr Hlen Hdig Hm Hd).
  - intros Hno. rewrite (parseAmountField_mismatch _ Hno) in Hmsg.
    split; [exact Hmsg | apply (startsWith_app "Invalid amount field format: ")].
Qed.

Lemma parse_amount_field_witness :
  SWIFTParser.headerMatch mt103_example = Some "103" /\
  SWIFTParser.includes "MT103" SWIFTParser.supportedMessageTypes = true /\
  SWIFTParser.parseFields mt103_example "MT103" = Return mt103_fields /\
  SWIFTParser.validateRequiredFields mt103_fields "MT103" = Return tt /\
  mt103_fields !! "32A" = Some mt103_field32A /\
  amountShape "230701" "USD" "1000,00" /\
  exists record,
    SWIFTParser.parse stamp0 (JStr mt103_example) = Return record /\
    Js.get record "currency" = Return (JStr "USD") /\
    Js.get record "amount" = Return (JNum (Decimal false 100000 0)) /\
    Js.get record "valueDate" = Return (JStr "2023-07-01").
Proof.
  assert (H1 : SWIFTParser.headerMatch mt103_example = Some "103")
    by (vm_compute; reflexivity).
  assert (H2 : SWIFTParser.includes "MT103" SWIFTParser.supportedMessageTypes = true)
    by reflexivity.
  assert (H3 : SWIFTParser.parseFields mt103_example "MT103" = Return mt103_fields)
    by (vm_compute; reflexivity).
  assert (H4 : SWIFTParser.validateRequiredFields mt103_fields "MT103" = Return tt)
    by (vm_compute; reflexivity).
  assert (H5 : mt103_fields !! "32A" = Some mt103_field32A)
    by (vm_compute; reflexivity).
  assert (H6 : amountShape "230701" "USD" "1000,00")
    by (repeat split; try reflexivity; discriminate).
  repeat (split; [assumption|]).
  destruct (parse_amount_field stamp0 mt103_example "103" mt103_fields mt103_field32A
              H1 H2 H3 H4 H5) as [Hshape _].
  destruct (Hshape "230701" "USD" "1000,00" eq_refl H6)
    as (record & Hrec & Hcur & _ & Hamount & _ & Hdate).
  exists record. split; [exact Hrec|]. split; [exact Hcur|]. split.
  - apply Hamount; [reflexivity | discriminate].
  - apply Hdate; vm_compute; split; discriminate.
Defined.

(** ** Routing and the type of the result *)

Section Routing.

Context {P : Platform}.

(** Takes the successful run [H] of a parser apart. *)
Ltac parser_result H :=
  apply try_catch_rethrow in H;
  repeat first
    [ apply bind_Return in H as (? & ? & H)
    | match type of H with
      | (if ?b then _ else _) = _ => destruct b eqn:?; try discriminate H
      end ];
  injection H as <-.

Lemma SWIFT_messageType stamp text record :
  SWIFTParser.parse stamp (JStr text) = Return record ->
  exists code,
    SWIFTParser.headerMatch text = Some code /\
    (code = "103" \/ code = "202") /\
    messageTypeOf record = Return (JStr ("MT" +:+ code)).
Proof.
  intros Hparse.
  destruct (SWIFTParser.headerMatch text) as [code|] eqn:Hcode.
  - exists code. split; [reflexivity|].
    destruct (SWIFTParser.includes ("MT" +:+ code) SWIFTParser.supportedMessageTypes)
      eqn:Hmt.
    + split.
      { destruct (proj1 (supported_types _) Hmt) as [Heq | Heq];
          cbn in Heq; injection Heq as Heq; auto. }
      rewrite (parse_supported _ _ _ Hcode Hmt) in Hparse.
      apply bind_Return in Hparse as (fields & Hfields & Hparse).
      apply bind_Return in Hparse as ([] & Hvalid & Hparse).
      assert (Hamount : is_Some (fields !! "32A")).
      { unfold SWIFTParser.validateRequiredFields in Hvalid.
        destruct (checkRequired_spec fields ("MT" +:+ code)
                    (SWIFTParser.getRequiredFields ("MT" +:+ code)))
          as [[Hall _] | (t & _ & _ & Hthrow)]; [|congruence].
        apply (proj1 (List.Forall_forall _ _) Hall).
        destruct (proj1 (supported_types _) Hmt) as [Heq | Heq];
          rewrite Heq; cbn; auto. }
      destruct Hamount as [f Hf].
      pose proof (createStandardizedMessage_amount stamp fields _ f Hmt Hf) as Hmsg.
      destruct (SWIFTParser.parseAmountField (SWIFTParser.content f)).
      * destruct Hmsg as (record' & Hrec & Htype & _).
        rewrite Hrec in Hparse. by injection Hparse as <-.
      * rewrite Hmsg in Hparse. discriminate.
    + rewrite (SWIFT_parse_unsupported stamp text code Hcode Hmt) in Hparse.
      discriminate.
  - destruct (parse_no_header stamp text Hcode) as (e & He & _). congruence.
Qed.

Lemma ISO20022_messageType stamp text record :
  ISO20022Parser.parsePacs008 stamp text = Return record ->
  messageTypeOf record = Return (JStr "pacs.008").
Proof.
  unfold ISO20022Parser.parsePacs008. intros H. parser_result H.
  unfold messageTypeOf. by get_field.
Qed.

Lemma BANCS_parseXML_throws stamp text : returns (BANCSParser.parseXML stamp text) = false.
Proof. unfold BANCSParser.parseXML. by destruct (negb _). Qed.

Lemma BANCS_JSON_messageType stamp text record :
  BANCSParser.parseJSON stamp text = Return record ->
  messageTypeOf record = Return (JStr "BANCS_JSON").
Proof.
  unfold BANCSParser.parseJSON. intros H. parser_result H.
  unfold messageTypeOf. by get_field.
Qed.

Lemma BANCS_flat_messageType stamp text record :
  BANCSParser.parseFlat stamp text = Return record ->
  messageTypeOf record = Return (JStr "BANCS_FLAT").
Proof.
  unfold BANCSParser.parseFlat. intros H. parser_result H.
  unfold messageTypeOf. by get_field.
Qed.

Lemma FIS_JSON_messageType stamp text record :
  FISParser.parseJSON stamp text = Return record ->
  messageTypeOf record = Return (JStr "FIS_JSON").
Proof.
  unfold FISParser.parseJSON. intros H. parser_result H.
  unfold messageTypeOf. by get_field.
Qed.

Lemma FIS_fixed_messageType stamp text record :
  FISParser.parseFixedWidth stamp text = Return record ->
  messageTypeOf record = Return (JStr "FIS_FIXED").
Proof.
  unfold FISParser.parseFixedWidth. intros H. parser_result H.
  unfold messageTypeOf. by get_field.
Qed.

Lemma Fiserv_messageType stamp text record :
  FiservParser.parseDNA stamp text = Return record ->
  messageTypeOf record = Return (JStr "FISERV_DNA").
Proof.
  unfold FiservParser.parseDNA. intros H. parser_result H.
  unfold messageTypeOf. by get_field.
Qed.

Lemma Temenos_JSON_messageType stamp text record :
  TemenosParser.parseJSON stamp text = Return record ->
  messageTypeOf record = Return (JStr "TEMENOS_JSON").
Proof.
  unfold TemenosParser.parseJSON. intros H. parser_result H.
  unfold messageTypeOf. by get_field.
Qed.

Lemma Temenos_XML_messageType stamp text record :
  TemenosParser.parseXML stamp text = Return record ->
  messageTypeOf record = Return (JStr "TEMENOS_XML").
Proof.
  unfold TemenosParser.parseXML. intros H. parser_result H.
  unfold messageTypeOf. by get_field.
Qed.

Lemma Temenos_T24_messageType stamp text record :
  TemenosParser.parseT24 stamp text = Return record ->
  messageTypeOf record = Return (JStr "TEMENOS_T24").
Proof.
  unfold TemenosParser.parseT24. intros H. parser_result H.
  unfold messageTypeOf. by get_field.
Qed.

End Routing.

Section Agreement.

Context {P : Platform}.

Import SwiftParserOSS.

Lemma addTiming_messageType rd result result' :
  addTiming rd result = Return result' ->
  messageTypeOf result' = messageTypeOf result.
Proof.
  unfold addTiming. intros H.
  apply bind_Return in H as (existing & _ & H). injection H as <-.
  unfold messageTypeOf. by apply get_set_ne.
Qed.

(** Takes a successful run [H] of monadic code apart, case by case. *)
Ltac run_cases H :=
  repeat first
    [ apply bind_Return in H as (? & ? & H)
    | match type of H with
      | (if ?b then _ else _) = _ => destruct b eqn:?; try discriminate H
      end ].

(** The labels the [try] block around [JSON.parse] can return. *)
Lemma detectJSON_labels text label :
  detectJSON text = Return (Some label) ->
  In label ["FISERV_DNA"; "FIS_JSON"; "BANCS_JSON"; "TEMENOS_JSON"].
Proof.
  unfold detectJSON. intros H.
  apply bind_Return in H as (parsed & _ & H).
  apply bind_Return in H as (transactionId & _ & H).
  apply bind_Return in H as (found & Hfound & H).
  destruct found as [label'|].
  - injection H as <-. run_cases Hfound; injection Hfound as <-; cbn; auto.
  - cbv zeta in H. run_cases H; injection H as <-; cbn; auto.
Qed.

(** The labels of [detectFormat], each with what the text must be like. *)
Lemma detectFormat_labels text label :
  detectFormat (JStr text) = Return label ->
  (exists code, SWIFTParser.headerMatch text = Some code /\ label = "MT" +:+ code) \/
  In label ["ISO20022"; "BANCS_XML"; "FISERV_DNA"; "FIS_JSON"; "BANCS_JSON";
            "TEMENOS_JSON"; "TEMENOS_XML"] \/
  (label = "COBOL" /\ Cobol.detectCOBOL text = true) \/
  (label = "UNKNOWN" /\ (text = EmptyString \/ Cobol.detectCOBOL text = false)).
Proof.
  unfold detectFormat. intros H.
  destruct (negb (Js.truthy (JStr text))) eqn:Hempty.
  { injection H as <-. do 3 right. split; [reflexivity|]. left.
    destruct text; [reflexivity | discriminate]. }
  cbv zeta in H.
  match type of H with
  | context [if ?b then SWIFTParser.headerMatch _ else None] =>
      destruct b; [destruct (SWIFTParser.headerMatch text) as [code|] eqn:Hcode|]
  end.
  1: { injection H as <-. left. eauto. }
  all: run_cases H; try (injection H as <-; cbn; by auto 10).
  all: match goal with
       | Hjson : try_catch (detectJSON ?t) _ = Return ?o |- _ =>
           destruct o as [l|];
           [ destruct (detectJSON t) as [[l'|]|] eqn:Hd; try discriminate Hjson;
             injection Hjson as ->; apply detectJSON_labels in Hd;
             injection H as <-; cbn in Hd |- *; by intuition auto 10
           | run_cases H; injection H as <-; cbn; by auto 10 ]
       end.
Qed.

End Agreement.

Section Dispatch.

Context {P : Platform}.

Import SwiftParserOSS.

(** Decides the closed tests of [route] in [H]. *)
Ltac eval_route H :=
  unfold route in H;
  repeat match type of H with
         | (if ?b then _ else _) = _ =>
             let v := eval vm_compute in b in
             match v with
             | true => idtac
             | false => idtac
             end;
             change b with v in H; cbv iota in H
         end.

Lemma route_MT stamp text formatUpper :
  Str.startsWith "MT" formatUpper = true ->
  route stamp text formatUpper
  = (let* result := SWIFTParser.parse stamp (JStr text) in Return (Parsed result)).
Proof. intros HMT. unfold route. by rewrite HMT. Qed.

(** Where [route] sends the labels of detection, and the type of what comes
    back. *)
Lemma route_label stamp text label result :
  route stamp text (Str.toUpperCase label) = Return (Parsed result) ->
  In label ["ISO20022"; "BANCS_XML"; "FIS_JSON"; "BANCS_JSON"; "TEMENOS_JSON";
            "TEMENOS_XML"; "COBOL"; "UNKNOWN"] ->
  messageTypeOf result
  = Return (JStr (if String.eqb label "ISO20022" then "pacs.008" else label)).
Proof.
  intros H Hlabel. cbn [In] in Hlabel.
  repeat destruct Hlabel as [<- | Hlabel]; try done; eval_route H.
  - apply bind_Return in H as (r & Hr & [= <-]). by apply ISO20022_messageType in Hr.
  - apply bind_Return in H as (r & Hr & _).
    pose proof (BANCS_parseXML_throws stamp text) as Hthrows.
    rewrite Hr in Hthrows. discriminate.
  - apply bind_Return in H as (r & Hr & [= <-]). by apply FIS_JSON_messageType in Hr.
  - apply bind_Return in H as (r & Hr & [= <-]). by apply BANCS_JSON_messageType in Hr.
  - apply bind_Return in H as (r & Hr & [= <-]). by apply Temenos_JSON_messageType in Hr.
  - apply bind_Return in H as (r & Hr & [= <-]). by apply Temenos_XML_messageType in Hr.
  - destruct (Cobol.detectCOBOL text); [|discriminate].
    apply bind_Return in H as (r & _ & [=]).
  - destruct (Cobol.detectCOBOL text); [|discriminate].
    apply bind_Return in H as (r & _ & [=]).
Qed.

(** The label [FISERV_DNA] contains [FIS] and is tested for it first: [route]
    sends it to the fixed-width parser of FIS and never to [FiservParser],
    so a record that comes back has type [FIS_FIXED] (the unit tests of
    the facade expect [FISERV_DNA]). *)
Lemma route_FISERV_DNA stamp text :
  route stamp text (Str.toUpperCase "FISERV_DNA")
  = (let* result := FISParser.parseFixedWidth stamp text in Return (Parsed result)).
Proof. reflexivity. Qed.

Lemma route_FISERV_DNA_messageType stamp text result :
  route stamp text (Str.toUpperCase "FISERV_DNA") = Return (Parsed result) ->
  messageTypeOf result = Return (JStr "FIS_FIXED").
Proof.
  rewrite route_FISERV_DNA. intros H.
  apply bind_Return in H as (r & Hr & [= <-]). by apply FIS_fixed_messageType in Hr.
Qed.

(** A returning call of [parse]: the payload is a text, a label was found
    for it, and the result is what the routed parser returned, with the
    timing metadata added. *)
Lemma parse_returns rd self h message format record :
  fst (parse rd self h message format) = Return record ->
  exists text label result,
    message = JStr text /\
    effectiveFormat message format = Return label /\
    route (stamp rd) text (Str.toUpperCase label) = Return (Parsed result) /\
    addTiming rd result = Return record.
Proof.
  unfold parse. intros H.
  destruct (parseBody rd message format) as [c|e] eqn:Hbody; [|discriminate].
  destruct (parseBody_parsed _ _ _ _ Hbody) as [result' ->].
  cbn in H. injection H as ->.
  unfold parseBody in Hbody.
  destruct message as [| | | |text| |]; try discriminate.
  destruct (String.eqb (Str.trim text) EmptyString); [discriminate|].
  apply bind_Return in Hbody as (label & Hlabel & Hbody). cbv zeta in Hbody.
  apply bind_Return in Hbody as (c & Hroute & Hbody).
  destruct (route_parsed _ _ _ _ Hroute) as [result ->].
  apply bind_Return in Hbody as (r & Hr & [= <-]).
  exists text, label, result. auto.
Qed.

End Dispatch.

(** *** Detection against the type of the result *)

(** C1, as the claim states it, fails on the code: an ISO 20022 payload is
    detected as [ISO20022] and parsed, without a hint, into a record of
    type [pacs.008] (as the unit tests of the facade expect). On this path
    the platform is not consulted. *)
Lemma messageType_counterexample :
  @SwiftParserOSS.detectFormat node (JStr iso20022_example) = Return "ISO20022" /\
  propertyOf
    (fst (@SwiftParserOSS.parse node rd0 self0 h0 (JStr iso20022_example) JUndefined))
    "messageType"
  = Return (JStr "pacs.008").
Proof. split; vm_compute; reflexivity. Qed.

(** C1, amended. When [parse] is called without a format hint and returns,
    the [messageType] of the record is the label [detectFormat] gives the
    same payload, except that a payload detected as [ISO20022] yields a
    record of type [pacs.008]; the label [FISERV_DNA] is left out. *)
Theorem messageType_agrees (P : Platform) rd self h message format record label :
  Js.truthy format = false ->
  fst (SwiftParserOSS.parse rd self h message format) = Return record ->
  SwiftParserOSS.detectFormat message = Return label ->
  label <> "FISERV_DNA" ->
  messageTypeOf record
  = Return (JStr (if String.eqb label "ISO20022" then "pacs.008" else label)).
Proof.
  intros Hformat Hparse Hdetect Hlabel.
  destruct (parse_returns _ _ _ _ _ _ Hparse)
    as (text & label' & result & -> & Heff & Hroute & Htiming).
  unfold SwiftParserOSS.effectiveFormat in Heff. rewrite Hformat, Hdetect in Heff.
  injection Heff as <-.
  rewrite (addTiming_messageType _ _ _ Htiming).
  destruct (detectFormat_labels _ _ Hdetect)
    as [(code & Hcode & ->) | [Hin | [[-> Hcobol] | [-> Hunknown]]]].
  - rewrite route_MT in Hroute by reflexivity.
    apply bind_Return in Hroute as (r & Hr & [= <-]).
    destruct (SWIFT_messageType _ _ _ Hr) as (code' & Hcode' & _ & Htype).
    rewrite Hcode in Hcode'. injection Hcode' as <-. exact Htype.
  - apply (route_label _ _ _ _ Hroute). cbn [In] in Hin |- *.
    repeat destruct Hin as [<- | Hin]; try done; auto 10.
  - apply (route_label _ _ _ _ Hroute). cbn; auto 10.
  - apply (route_label _ _ _ _ Hroute). cbn; auto 10.
Qed.

Lemma messageType_agrees_witness :
  Js.truthy JUndefined = false /\
  fst (@SwiftParserOSS.parse node rd0 self0 h0 (JStr mt103_example) JUndefined)
  = Return mt103_record /\
  @SwiftParserOSS.detectFormat node (JStr mt103_example) = Return "MT103" /\
  "MT103" <> "FISERV_DNA" /\
  messageTypeOf mt103_record = Return (JStr "MT103").
Proof.
  assert (H1 : Js.truthy JUndefined = false) by reflexivity.
  assert (H2 : fst (@SwiftParserOSS.parse node rd0 self0 h0 (JStr mt103_example) JUndefined)
               = Return mt103_record) by (vm_compute; reflexivity).
  assert (H3 : @SwiftParserOSS.detectFormat node (JStr mt103_example) = Return "MT103")
    by (vm_compute; reflexivity).
  assert (H4 : "MT103" <> "FISERV_DNA") by discriminate.
  repeat (split; [assumption|]).
  exact (messageType_agrees node rd0 self0 h0 (JStr mt103_example) JUndefined
           mt103_record "MT103" H1 H2 H3 H4).
Defined.

(** *** Labels that begin with MT *)

(** C10, as the claim states it, fails on the code: with the hint [MT515]
    the MT103 message of the usage examples is parsed, as an MT103. *)
Lemma MT_hint_counterexample :
  In "MT515" enhancedTypes /\
  propertyOf
    (fst (@SwiftParserOSS.parse node rd0 self0 h0 (JStr mt103_example) (JStr "MT515")))
    "messageType"
  = Return (JStr "MT103").
Proof. split; [cbn; auto | vm_compute; reflexivity]. Qed.

Section MTLabels.

Context {P : Platform}.

Import SwiftParserOSS.

Lemma parse_MT rd self h text format label :
  String.eqb (Str.trim text) EmptyString = false ->
  effectiveFormat (JStr text) format = Return label ->
  Str.startsWith "MT" (Str.toUpperCase label) = true ->
  fst (parse rd self h (JStr text) format)
  = bind (SWIFTParser.parse (stamp rd) (JStr text)) (addTiming rd).
Proof.
  intros Htext Hlabel HMT. unfold parse, parseBody.
  rewrite Htext, Hlabel. cbn [bind]. cbv zeta. rewrite (route_MT _ _ _ HMT).
  destruct (SWIFTParser.parse (stamp rd) (JStr text)) as [r|e]; cbn [bind fst]; [|reflexivity].
  destruct (addTiming rd r); reflexivity.
Qed.

Lemma base_parser_result rd text record :
  bind (SWIFTParser.parse (stamp rd) (JStr text)) (addTiming rd) = Return record ->
  exists code,
    SWIFTParser.headerMatch text = Some code /\
    (code = "103" \/ code = "202") /\
    messageTypeOf record = Return (JStr ("MT" +:+ code)).
Proof.
  intros H. apply bind_Return in H as (r & Hr & Htiming).
  destruct (SWIFT_messageType _ _ _ Hr) as (code & Hcode & Hsupported & Htype).
  exists code. rewrite (addTiming_messageType _ _ _ Htiming). auto.
Qed.

End MTLabels.

(** C10, amended. For every effective format label whose upper-case form
    begins with [MT] (a hint, or the label of detection), [parse] returns
    what the base SWIFT parser makes of the payload, the label itself being
    ignored. So with a hint among MT515, MT700, MT798, MT950 and MT101 (all
    listed by [getSupportedFormats]) [parse] returns a record only for a
    payload whose own header says 103 or 202, and the record is then of
    type MT103 or MT202, never of the hinted type; on every other payload
    it throws. *)
Theorem MT_labels_use_base_parser (P : Platform) rd self h (text : string) :
  String.eqb (Str.trim text) EmptyString = false ->
  (forall format label,
     SwiftParserOSS.effectiveFormat (JStr text) format = Return label ->
     Str.startsWith "MT" (Str.toUpperCase label) = true ->
     fst (SwiftParserOSS.parse rd self h (JStr text) format)
     = bind (SWIFTParser.parse (SwiftParserOSS.stamp rd) (JStr text))
            (SwiftParserOSS.addTiming rd)) /\
  (forall hint,
     In hint enhancedTypes ->
     In hint SwiftParserOSS.getSupportedFormats /\
     fst (SwiftParserOSS.parse rd self h (JStr text) (JStr hint))
     = bind (SWIFTParser.parse (SwiftParserOSS.stamp rd) (JStr text))
            (SwiftParserOSS.addTiming rd) /\
     (forall record,
        fst (SwiftParserOSS.parse rd self h (JStr text) (JStr hint)) = Return record ->
        messageTypeOf record <> Return (JStr hint))) /\
  (forall record,
     bind (SWIFTParser.parse (SwiftParserOSS.stamp rd) (JStr text))
          (SwiftParserOSS.addTiming rd) = Return record ->
     exists code,
       SWIFTParser.headerMatch text = Some code /\
       (code = "103" \/ code = "202") /\
       messageTypeOf record = Return (JStr ("MT" +:+ code))) /\
  (SWIFTParser.headerMatch text <> Some "103" ->
   SWIFTParser.headerMatch text <> Some "202" ->
   returns (bind (SWIFTParser.parse (SwiftParserOSS.stamp rd) (JStr text))
                 (SwiftParserOSS.addTiming rd)) = false).
Proof.
  intros Htext.
  assert (Hhint : forall hint, In hint enhancedTypes ->
            fst (SwiftParserOSS.parse rd self h (JStr text) (JStr hint))
            = bind (SWIFTParser.parse (SwiftParserOSS.stamp rd) (JStr text))
                   (SwiftParserOSS.addTiming rd)).
  { intros hint Hin. apply (parse_MT rd self h text (JStr hint) hint Htext);
      cbn [In enhancedTypes] in Hin;
      repeat destruct Hin as [<- | Hin]; try done; reflexivity. }
  split; [intros format label; by apply parse_MT|].
  split.
  - intros hint Hin. split; [|split; [by apply Hhint|]].
    + cbn [In enhancedTypes] in Hin. unfold SwiftParserOSS.getSupportedFormats.
      repeat destruct Hin as [<- | Hin]; try done; cbn; auto 20.
    + intros record Hrec. rewrite (Hhint hint Hin) in Hrec.
      destruct (base_parser_result _ _ _ Hrec) as (code & _ & Hcode & ->).
      cbn [In enhancedTypes] in Hin.
      destruct Hcode as [-> | ->];
        repeat destruct Hin as [<- | Hin]; try done; discriminate.
  - split; [apply base_parser_result|].
    intros H103 H202.
    destruct (bind _ _) as [record|e] eqn:Hrec; [|reflexivity].
    destruct (base_parser_result _ _ _ Hrec) as (code & Hcode & [-> | ->] & _); done.
Qed.

Lemma MT_labels_use_base_parser_witness :
  String.eqb (Str.trim mt103_example) EmptyString = false /\
  In "MT515" enhancedTypes /\
  fst (@SwiftParserOSS.parse node rd0 self0 h0 (JStr mt103_example) (JStr "MT515"))
  = bind (SWIFTParser.parse stamp0 (JStr mt103_example)) (SwiftParserOSS.addTiming rd0).
Proof.
  assert (H1 : String.eqb (Str.trim mt103_example) EmptyString = false)
    by (vm_compute; reflexivity).
  assert (H2 : In "MT515" enhancedTypes) by (cbn; auto).
  repeat (split; [assumption|]).
  destruct (MT_labels_use_base_parser node rd0 self0 h0 mt103_example H1)
    as (_ & Hhint & _).
  exact (proj1 (proj2 (Hhint "MT515" H2))).
Defined.

(** * The rest of the interface *)

(** ** Strings: prefixes, joins and slices *)

Section Texts.

Lemma startsWith_prefix p q : forall s,
  Str.startsWith (p +:+ q) s = true -> Str.startsWith p s = true.
Proof.
  induction p as [|a p IH]; intros s H; [reflexivity|].
  destruct s as [|b s]; [discriminate|]. cbn in H |- *.
  apply andb_prop in H as [-> H]. cbn. by apply IH.
Qed.

Lemma includes_prefix p q s :
  Str.includes (p +:+ q) s = true -> Str.includes p s = true.
Proof.
  induction s as [|c s IH]; cbn [Str.includes]; intros H.
  - rewrite orb_false_r in H |- *. by apply startsWith_prefix in H.
  - apply orb_prop in H as [H|H].
    + apply startsWith_prefix in H. by rewrite H.
    + rewrite (IH H). apply orb_true_r.
Qed.

Lemma startsWith_spec p : forall s,
  Str.startsWith p s = true <-> exists r, s = p +:+ r.
Proof.
  induction p as [|a p IH]; intros s.
  - split; [exists s; reflexivity | reflexivity].
  - destruct s as [|b s]; cbn.
    + split; [discriminate | intros [r [=]]].
    + rewrite andb_true_iff, IH. unfold Str.eqc. rewrite Ascii.eqb_eq. split.
      * intros [-> [r ->]]. by exists r.
      * intros [r [= -> ->]]. eauto.
Qed.

Lemma app_assoc_string a b c : (a +:+ b) +:+ c = a +:+ (b +:+ c).
Proof.
  induction a as [|x a IH]; [reflexivity|].
  change (String x ((a +:+ b) +:+ c) = String x (a +:+ b +:+ c)). by rewrite IH.
Qed.

Lemma length_app_string a b :
  String.length (a +:+ b) = (String.length a + String.length b)%nat.
Proof.
  induction a as [|x a IH]; [reflexivity|].
  change (S (String.length (a +:+ b)) = S (String.length a + String.length b)).
  by rewrite IH.
Qed.

Lemma startsWith_drop p s :
  Str.startsWith p s = true -> s = p +:+ Str.drop (String.length p) s.
Proof. intros H. apply startsWith_spec in H as [r ->]. by rewrite drop_app. Qed.

Lemma drop_past f : forall s n,
  (String.length f <= n)%nat ->
  Str.drop n (f +:+ s) = Str.drop (n - String.length f) s.
Proof.
  induction f as [|c f IH]; intros s n Hn.
  - by rewrite Nat.sub_0_r.
  - destruct n as [|n]; [cbn in Hn; lia|].
    change (Str.drop (S n) (String c f +:+ s)) with (Str.drop n (f +:+ s)).
    rewrite IH by (cbn in Hn; lia). reflexivity.
Qed.

Lemma take_field n f s : String.length f = n -> Str.take n (f +:+ s) = f.
Proof. intros <-. apply take_app. Qed.

Lemma drop_zero s : Str.drop 0 s = s.
Proof. by destruct s. Qed.

Lemma drop_within a : forall k b,
  (k <= String.length a)%nat -> Str.drop k (a +:+ b) = Str.drop k a +:+ b.
Proof.
  induction a as [|c a IH]; intros k b Hk.
  - cbn in Hk. assert (k = 0%nat) as -> by lia. by rewrite drop_zero.
  - destruct k as [|k]; [reflexivity|].
    change (Str.drop (S k) (String c a +:+ b)) with (Str.drop k (a +:+ b)).
    apply IH. cbn in Hk. lia.
Qed.

Lemma includes_In x l : SWIFTParser.includes x l = true <-> In x l.
Proof.
  unfold SWIFTParser.includes. rewrite existsb_exists. split.
  - intros (y & Hy & Heq). apply String.eqb_eq in Heq. by subst.
  - intros Hx. exists x. split; [assumption|apply String.eqb_refl].
Qed.

End Texts.

(** ** The facade: what [parse] accepts, rejects and returns *)

Section FacadeOutcomes.

Context {P : Platform}.

Import SwiftParserOSS.

Ltac run_cases H :=
  repeat first
    [ apply bind_Return in H as (? & ? & H)
    | match type of H with
      | (if ?b then _ else _) = _ => destruct b eqn:?; try discriminate H
      end ].

Lemma addTiming_object rd fields :
  exists fields', addTiming rd (JObj fields) = Return (JObj fields').
Proof. unfold addTiming. cbn. eauto. Qed.

Lemma parse_text rd self h text format :
  String.eqb (Str.trim text) EmptyString = false ->
  fst (parse rd self h (JStr text) format)
  = (let* label := effectiveFormat (JStr text) format in
     let* completion := route (stamp rd) text (Str.toUpperCase label) in
     match completion with
     | Parsed result => addTiming rd result
     | Returned value => Return value
     end).
Proof.
  intros Htrim. unfold parse, parseBody. rewrite Htrim.
  destruct (effectiveFormat (JStr text) format) as [label|e]; cbn [bind]; [|reflexivity].
  destruct (route (stamp rd) text (Str.toUpperCase label)) as [[result|value]|e];
    cbn [bind]; try reflexivity.
  destruct (addTiming rd result); reflexivity.
Qed.

Lemma route_unroutable stamp text label :
  unroutable label = true ->
  route stamp text (Str.toUpperCase label)
  = Throw (if Cobol.detectCOBOL text then cobolError else "Unsupported message format").
Proof.
  unfold unroutable. cbv zeta. intros H.
  repeat (apply andb_prop in H as [H ?]).
  repeat match goal with Hn : negb _ = true |- _ => apply negb_true_iff in Hn end.
  assert (Hfiserv : Str.includes "FISERV" (Str.toUpperCase label) = false).
  { destruct (Str.includes "FISERV" (Str.toUpperCase label)) eqn:E; [|reflexivity].
    apply (includes_prefix "FIS" "ERV") in E. congruence. }
  unfold route. rewrite H, Hfiserv.
  repeat match goal with Hn : _ = false |- _ => rewrite Hn end.
  cbn [orb]. unfold Cobol.parseCOBOL.
  destruct (Cobol.detectCOBOL text); reflexivity.
Qed.

Lemma detectFormat_JSON text label :
  detectFormat (JStr text) = Return label ->
  In label ["FISERV_DNA"; "FIS_JSON"; "BANCS_JSON"; "TEMENOS_JSON"] ->
  detectJSON text = Return (Some label).
Proof.
  intros H Hin. unfold detectFormat in H.
  assert (Hmt : forall code, ~ In ("MT" +:+ code)
                  ["FISERV_DNA"; "FIS_JSON"; "BANCS_JSON"; "TEMENOS_JSON"]).
  { intros code Hc. cbn in Hc. intuition discriminate. }
  destruct (negb (Js.truthy (JStr text))).
  { injection H as <-. cbn in Hin. intuition discriminate. }
  match type of H with
  | match ?x with Some _ => _ | None => _ end = _ => destruct x as [code|]
  end.
  { injection H as <-. by apply Hmt in Hin. }
  match type of H with (if ?b then _ else _) = _ => destruct b end.
  { injection H as <-. cbn in Hin. intuition discriminate. }
  match type of H with (if ?b then _ else _) = _ => destruct b end.
  { injection H as <-. cbn in Hin. intuition discriminate. }
  destruct (detectJSON text) as [[l|]|e]; cbn in H.
  - by injection H as <-.
  - destruct (Str.includes _ text); [|destruct (Cobol.detectCOBOL text)];
      injection H as <-; cbn in Hin; intuition discriminate.
  - destruct (Str.includes _ text); [|destruct (Cobol.detectCOBOL text)];
      injection H as <-; cbn in Hin; intuition discriminate.
Qed.

(** What the [try] block around [JSON.parse] has seen when it answers with
    one of the two labels of [TXN] identifiers. *)
Lemma detectJSON_TXN text label :
  detectJSON text = Return (Some label) ->
  label = "FIS_JSON" \/ label = "BANCS_JSON" ->
  exists parsed transactionId,
    JSON_parse text = Return parsed /\
    Js.get parsed "transactionId" = Return transactionId /\
    Js.truthy transactionId = true.
Proof.
  intros H Hlabel. unfold detectJSON in H.
  apply bind_Return in H as (parsed & Hparsed & H).
  apply bind_Return in H as (tid & Htid & H).
  exists parsed, tid. repeat split; try assumption.
  destruct (Js.truthy tid); [reflexivity|]. cbn [bind] in H.
  destruct (Js.truthy (prop parsed "header")); [|discriminate].
  destruct (Js.truthy (prop (prop parsed "header") "messageId")); [|discriminate].
  run_cases H. injection H as <-. destruct Hlabel; discriminate.
Qed.

Lemma detectJSON_TMN text :
  detectJSON text = Return (Some "TEMENOS_JSON") ->
  exists parsed header,
    JSON_parse text = Return parsed /\
    Js.get parsed "header" = Return header /\
    Js.truthy header = true /\
    Js.truthy (prop header "messageId") = true.
Proof.
  intros H. unfold detectJSON in H.
  apply bind_Return in H as (parsed & Hparsed & H).
  apply bind_Return in H as (tid & Htid & H).
  apply bind_Return in H as (found & Hfound & H).
  assert (found = None) as ->.
  { destruct found as [l|]; [|reflexivity]. injection H as ->.
    run_cases Hfound; discriminate. }
  exists parsed, (prop parsed "header").
  assert (Hget : Js.get parsed "header" = Return (prop parsed "header")).
  { unfold prop. destruct parsed; try discriminate; reflexivity. }
  destruct (Js.truthy (prop parsed "header")); [|discriminate].
  destruct (Js.truthy (prop (prop parsed "header") "messageId")); [|discriminate].
  auto.
Qed.

Lemma addTiming_get rd result result' k :
  addTiming rd result = Return result' -> k <> "parseMetadata" ->
  Js.get result' k = Js.get result k.
Proof.
  unfold addTiming. intros H Hk.
  apply bind_Return in H as (existing & _ & H). injection H as <-.
  by apply get_set_ne.
Qed.

Lemma route_FIS_JSON stamp text :
  route stamp text (Str.toUpperCase "FIS_JSON")
  = (let* result := FISParser.parseJSON stamp text in Return (Parsed result)).
Proof. reflexivity. Qed.

Lemma route_BANCS_JSON stamp text :
  route stamp text (Str.toUpperCase "BANCS_JSON")
  = (let* result := BANCSParser.parseJSON stamp text in Return (Parsed result)).
Proof. reflexivity. Qed.

Lemma route_TEMENOS_JSON stamp text :
  route stamp text (Str.toUpperCase "TEMENOS_JSON")
  = (let* result := TemenosParser.parseJSON stamp text in Return (Parsed result)).
Proof. reflexivity. Qed.

Lemma route_BANCS_XML stamp text :
  route stamp text (Str.toUpperCase "BANCS_XML")
  = (let* result := BANCSParser.parseXML stamp text in Return (Parsed result)).
Proof. reflexivity. Qed.

Lemma route_FIS_DELIMITED stamp text :
  route stamp text (Str.toUpperCase "FIS_DELIMITED")
  = (let* result := FISParser.parseFixedWidth stamp text in Return (Parsed result)).
Proof. reflexivity. Qed.

Lemma timed_object rd fields :
  exists record,
    SwiftParserOSS.addTiming rd (Js.obj fields) = Return record /\
    forall k, k <> "parseMetadata" -> Js.get record k = Js.get (Js.obj fields) k.
Proof.
  destruct (addTiming_object rd (list_to_map fields)) as [fields' Hfields'].
  exists (JObj fields'). split; [exact Hfields'|].
  intros k Hk. by apply (addTiming_get _ _ _ _ Hfields').
Qed.

Lemma parse_returns_text rd self h message format record :
  fst (parse rd self h message format) = Return record ->
  exists text, message = JStr text /\ String.eqb (Str.trim text) EmptyString = false.
Proof.
  unfold parse. intros H.
  destruct (parseBody rd message format) as [c|e] eqn:Hbody; [|discriminate].
  unfold parseBody in Hbody.
  destruct message as [| | | |text| |]; try discriminate.
  exists text. split; [reflexivity|].
  by destruct (String.eqb (Str.trim text) EmptyString).
Qed.

Lemma route_rejected stamp text label :
  In label ["BANCS_XML"; "COBOL"; "UNKNOWN"] ->
  returns (route stamp text (Str.toUpperCase label)) = false.
Proof.
  cbn [In]. intros [<- | [<- | [<- | []]]].
  - rewrite route_BANCS_XML.
    pose proof (BANCS_parseXML_throws stamp text) as H.
    by destruct (BANCSParser.parseXML stamp text).
  - by rewrite route_unroutable.
  - by rewrite route_unroutable.
Qed.

End FacadeOutcomes.

(** The record [parse] makes of the object a JSON parser returned. *)
Ltac timed_record rd :=
  cbn [negb orb try_catch bind];
  match goal with
  | |- context [SwiftParserOSS.addTiming rd (Js.obj ?fields)] =>
      let record := fresh "record" in
      let Hrecord := fresh "Hrecord" in
      let Hget := fresh "Hget" in
      destruct (timed_object rd fields) as (record & Hrecord & Hget);
      rewrite Hrecord; exists record; split; [reflexivity|]; split; [reflexivity|];
      unfold messageTypeOf; rewrite !Hget by discriminate;
      split; [by rewrite get_obj_head|];
      cbn [String.eqb Ascii.eqb Bool.eqb];
      rewrite get_obj_skip by discriminate; by rewrite get_obj_head
  end.

(** X1. A payload that [detectFormat] labels [FIS_JSON], [BANCS_JSON] or
    [TEMENOS_JSON] is always parsed by [parse] without a hint: what
    [JSON.parse] made of it passes the test of the parser it is routed to,
    the record carries the detected label as its [messageType], and its
    [transactionId] (its [header], for Temenos) is that of the JSON
    object. *)
Theorem detected_JSON_is_parsed (P : Platform) rd self h (text label : string) :
  String.eqb (Str.trim text) EmptyString = false ->
  SwiftParserOSS.detectFormat (JStr text) = Return label ->
  In label ["FIS_JSON"; "BANCS_JSON"; "TEMENOS_JSON"] ->
  exists parsed record,
    JSON_parse text = Return parsed /\
    fst (SwiftParserOSS.parse rd self h (JStr text) JUndefined) = Return record /\
    messageTypeOf record = Return (JStr label) /\
    Js.get record (if String.eqb label "TEMENOS_JSON" then "header" else "transactionId")
    = Js.get parsed (if String.eqb label "TEMENOS_JSON" then "header" else "transactionId").
Proof.
  intros Htrim Hdetect Hin.
  assert (Hjson : SwiftParserOSS.detectJSON text = Return (Some label)).
  { apply detectFormat_JSON; [assumption|]. cbn in Hin |- *. tauto. }
  rewrite (parse_text _ _ _ _ _ Htrim).
  unfold SwiftParserOSS.effectiveFormat. cbn [Js.truthy]. rewrite Hdetect. cbn [bind].
  cbn [In] in Hin. destruct Hin as [<- | [<- | [<- | []]]].
  - destruct (detectJSON_TXN _ _ Hjson) as (parsed & tid & Hparsed & Htid & Htruthy); [auto|].
    exists parsed.
    rewrite route_FIS_JSON. unfold FISParser.parseJSON.
    rewrite Hparsed. cbn [bind]. rewrite Htid. cbn [bind]. rewrite Htruthy.
    timed_record rd.
  - destruct (detectJSON_TXN _ _ Hjson) as (parsed & tid & Hparsed & Htid & Htruthy); [auto|].
    exists parsed.
    rewrite route_BANCS_JSON. unfold BANCSParser.parseJSON.
    rewrite Hparsed. cbn [bind]. rewrite Htid. cbn [bind]. rewrite Htruthy.
    timed_record rd.
  - destruct (detectJSON_TMN _ Hjson) as (parsed & header & Hparsed & Hheader & Ht & Hid).
    exists parsed.
    rewrite route_TEMENOS_JSON. unfold TemenosParser.parseJSON.
    rewrite Hparsed. cbn [bind]. rewrite Hheader. cbn [bind]. rewrite Ht.
    assert (Hmid : Js.get header "messageId" = Return (prop header "messageId")).
    { unfold prop. destruct header; try discriminate; reflexivity. }
    rewrite Hmid. cbn [bind]. rewrite Hid.
    timed_record rd.
Qed.

Lemma detected_JSON_is_parsed_witness :
  String.eqb (Str.trim fis_json_example) EmptyString = false /\
  @SwiftParserOSS.detectFormat node (JStr fis_json_example) = Return "FIS_JSON" /\
  exists parsed record,
    Json.parse fis_json_example = Return parsed /\
    fst (@SwiftParserOSS.parse node rd0 self0 h0 (JStr fis_json_example) JUndefined)
    = Return record /\
    messageTypeOf record = Return (JStr "FIS_JSON") /\
    Js.get record "transactionId" = Js.get parsed "transactionId".
Proof.
  assert (H1 : String.eqb (Str.trim fis_json_example) EmptyString = false)
    by (vm_compute; reflexivity).
  assert (H2 : @SwiftParserOSS.detectFormat node (JStr fis_json_example) = Return "FIS_JSON")
    by (vm_compute; reflexivity).
  split; [assumption|]. split; [assumption|].
  apply (detected_JSON_is_parsed node rd0 self0 h0 fis_json_example "FIS_JSON" H1 H2).
  cbn. auto.
Defined.

(** X2. [parse] without a hint returns a record only on payloads that
    [validate] accepts: the payload is a text that is not blank, and its
    detected label is none of [BANCS_XML], [COBOL] and [UNKNOWN]. *)
Theorem parse_accepts_only_validated (P : Platform) rd self h message format record :
  Js.truthy format = false ->
  fst (SwiftParserOSS.parse rd self h message format) = Return record ->
  SwiftParserOSS.validate message = true /\
  exists label,
    SwiftParserOSS.detectFormat message = Return label /\
    ~ In label ["BANCS_XML"; "COBOL"; "UNKNOWN"].
Proof.
  intros Hformat Hparse.
  destruct (parse_returns_text _ _ _ _ _ _ Hparse) as (text & -> & Htrim).
  destruct (parse_returns _ _ _ _ _ _ Hparse)
    as (text' & label & result & [= <-] & Heff & Hroute & _).
  unfold SwiftParserOSS.effectiveFormat in Heff. rewrite Hformat in Heff.
  assert (Hlabel : ~ In label ["BANCS_XML"; "COBOL"; "UNKNOWN"]).
  { intros Hin. pose proof (route_rejected (SwiftParserOSS.stamp rd) text label Hin) as H.
    by rewrite Hroute in H. }
  split; [|eauto].
  unfold SwiftParserOSS.validate. rewrite Heff, Htrim.
  assert (Js.truthy (JStr text) = true) as ->.
  { destruct text; [discriminate Htrim|reflexivity]. }
  cbn. destruct (String.eqb label "UNKNOWN") eqn:E; [|reflexivity].
  apply String.eqb_eq in E. subst. exfalso. apply Hlabel. cbn; auto.
Qed.

Lemma parse_accepts_only_validated_witness :
  Js.truthy JUndefined = false /\
  fst (@SwiftParserOSS.parse node rd0 self0 h0 (JStr mt103_example) JUndefined)
  = Return mt103_record /\
  @SwiftParserOSS.validate node (JStr mt103_example) = true.
Proof.
  assert (H1 : Js.truthy JUndefined = false) by reflexivity.
  assert (H2 : fst (@SwiftParserOSS.parse node rd0 self0 h0 (JStr mt103_example) JUndefined)
               = Return mt103_record) by (vm_compute; reflexivity).
  split; [assumption|]. split; [assumption|].
  exact (proj1 (parse_accepts_only_validated node rd0 self0 h0 (JStr mt103_example)
                  JUndefined mt103_record H1 H2)).
Defined.

(** X3. A format label of ASCII characters that no branch of the routing
    takes (its upper-case form does not begin with MT, is neither ISO20022
    nor PACS.008 and contains none of BANCS, FIS, DNA and TEMENOS) makes
    [parse] throw on every payload: the error of the COBOL stub when
    [detectCOBOL] accepts the payload, [Unsupported message format]
    otherwise. The label pacs.009 of the ISO 20022 parser is of this kind.
    (Outside ASCII the upper-case form can gain letters: a sharp s becomes
    SS.) *)
Theorem parse_unroutable_label (P : Platform) rd self h (text : string) format label :
  String.eqb (Str.trim text) EmptyString = false ->
  SwiftParserOSS.effectiveFormat (JStr text) format = Return label ->
  is_ascii label = true ->
  unroutable label = true ->
  fst (SwiftParserOSS.parse rd self h (JStr text) format)
  = Throw (if Cobol.detectCOBOL text then cobolError else "Unsupported message format").
Proof.
  intros Htrim Heff _ Hlabel.
  rewrite (parse_text _ _ _ _ _ Htrim), Heff. cbn [bind].
  by rewrite route_unroutable.
Qed.

Lemma parse_unroutable_label_witness :
  String.eqb (Str.trim iso20022_example) EmptyString = false /\
  @SwiftParserOSS.effectiveFormat node (JStr iso20022_example) (JStr "pacs.009")
  = Return "pacs.009" /\
  is_ascii "pacs.009" = true /\
  unroutable "pacs.009" = true /\
  fst (@SwiftParserOSS.parse node rd0 self0 h0 (JStr iso20022_example) (JStr "pacs.009"))
  = Throw (if Cobol.detectCOBOL iso20022_example
           then cobolError else "Unsupported message format").
Proof.
  assert (H1 : String.eqb (Str.trim iso20022_example) EmptyString = false)
    by (vm_compute; reflexivity).
  assert (H2 : @SwiftParserOSS.effectiveFormat node (JStr iso20022_example) (JStr "pacs.009")
               = Return "pacs.009") by reflexivity.
  assert (H3 : is_ascii "pacs.009" = true) by reflexivity.
  assert (H4 : unroutable "pacs.009" = true) by reflexivity.
  repeat (split; [assumption|]).
  exact (parse_unroutable_label node rd0 self0 h0 iso20022_example (JStr "pacs.009")
           "pacs.009" H1 H2 H3 H4).
Defined.

(** X4. Three of the formats that [getSupportedFormats] lists never reach
    a parser of their own. With the effective label [BANCS_XML], [parse]
    throws on every payload (the XML parser of BaNCS calls a method the
    class does not define). With [FIS_DELIMITED] or [FISERV_DNA] the payload
    goes to the fixed-width parser of FIS: under 100 code units it is
    rejected as too short, and a record that comes back has the type
    [FIS_FIXED]. *)
Theorem advertised_formats_misrouted (P : Platform) rd self h (text : string) format label :
  String.eqb (Str.trim text) EmptyString = false ->
  SwiftParserOSS.effectiveFormat (JStr text) format = Return label ->
  (label = "BANCS_XML" ->
     In label SwiftParserOSS.getSupportedFormats /\
     fst (SwiftParserOSS.parse rd self h (JStr text) format)
     = Throw ("BANCS XML parsing failed: "
              +:+ (if Str.includes "<Transaction>" text
                   then "this.extractXMLField is not a function"
                   else "Invalid BANCS XML: missing Transaction element"))) /\
  (label = "FIS_DELIMITED" \/ label = "FISERV_DNA" ->
     In label SwiftParserOSS.getSupportedFormats /\
     fst (SwiftParserOSS.parse rd self h (JStr text) format)
     = bind (FISParser.parseFixedWidth (SwiftParserOSS.stamp rd) text)
            (SwiftParserOSS.addTiming rd) /\
     ((String.length text < 100)%nat ->
      fst (SwiftParserOSS.parse rd self h (JStr text) format)
      = Throw "FIS fixed width parsing failed: Invalid FIS fixed width: message too short") /\
     (forall record,
        fst (SwiftParserOSS.parse rd self h (JStr text) format) = Return record ->
        messageTypeOf record = Return (JStr "FIS_FIXED"))).
Proof.
  intros Htrim Heff. rewrite (parse_text _ _ _ _ _ Htrim), Heff. cbn [bind].
  split.
  - intros ->. split; [cbn; tauto|].
    rewrite route_BANCS_XML. unfold BANCSParser.parseXML.
    by destruct (Str.includes "<Transaction>" text).
  - assert (Hroute : label = "FIS_DELIMITED" \/ label = "FISERV_DNA" ->
        (let* completion := SwiftParserOSS.route (SwiftParserOSS.stamp rd) text
                              (Str.toUpperCase label) in
         match completion with
         | SwiftParserOSS.Parsed result => SwiftParserOSS.addTiming rd result
         | SwiftParserOSS.Returned value => Return value
         end)
        = bind (FISParser.parseFixedWidth (SwiftParserOSS.stamp rd) text)
               (SwiftParserOSS.addTiming rd)).
    { intros [-> | ->]; [rewrite route_FIS_DELIMITED | rewrite route_FISERV_DNA];
        by destruct (FISParser.parseFixedWidth (SwiftParserOSS.stamp rd) text). }
    intros Hlabel. rewrite (Hroute Hlabel).
    split; [destruct Hlabel as [-> | ->]; cbn; tauto|].
    split; [reflexivity|]. split.
    + intros Hshort. unfold FISParser.parseFixedWidth.
      apply Nat.ltb_lt in Hshort. by rewrite Hshort.
    + intros record Hrecord.
      apply bind_Return in Hrecord as (result & Hresult & Htiming).
      rewrite (addTiming_messageType _ _ _ Htiming).
      by apply FIS_fixed_messageType in Hresult.
Qed.

Lemma advertised_formats_misrouted_witness :
  String.eqb (Str.trim dna_json_example) EmptyString = false /\
  @SwiftParserOSS.effectiveFormat node (JStr dna_json_example) JUndefined
  = Return "FISERV_DNA" /\
  fst (@SwiftParserOSS.parse node rd0 self0 h0 (JStr dna_json_example) JUndefined)
  = Throw "FIS fixed width parsing failed: Invalid FIS fixed width: message too short".
Proof.
  assert (H1 : String.eqb (Str.trim dna_json_example) EmptyString = false)
    by (vm_compute; reflexivity).
  assert (H2 : @SwiftParserOSS.effectiveFormat node (JStr dna_json_example) JUndefined
               = Return "FISERV_DNA") by (vm_compute; reflexivity).
  repeat (split; [assumption|]).
  destruct (advertised_formats_misrouted node rd0 self0 h0 dna_json_example JUndefined
              "FISERV_DNA" H1 H2) as [_ Hfis].
  destruct (Hfis (or_intror eq_refl)) as (_ & _ & Hshort & _).
  apply Hshort. vm_compute. lia.
Defined.

(** X5. A format hint is read without regard to case by [parse] and with
    regard to case by [parseWithFormat]: for a spelling [hint] of a
    supported format that differs from it in case only, [parse] does what it
    does for the format itself, and [parseWithFormat] throws [Unsupported
    format] and leaves the store as it is. *)
Theorem format_spelling (P : Platform) rd self h message (hint format : string) :
  In format SwiftParserOSS.getSupportedFormats ->
  hint <> format ->
  Str.toUpperCase hint = format ->
  SwiftParserOSS.parse rd self h message (JStr hint)
  = SwiftParserOSS.parse rd self h message (JStr format) /\
  SwiftParserOSS.parseWithFormat rd self h message hint
  = (Throw ("Unsupported format: " +:+ hint), h).
Proof.
  intros Hin Hne Hupper.
  assert (Hfixed : Str.toUpperCase format = format).
  { cbn [In SwiftParserOSS.getSupportedFormats] in Hin.
    repeat destruct Hin as [<- | Hin]; try reflexivity. destruct Hin. }
  split.
  - unfold SwiftParserOSS.parse, SwiftParserOSS.parseBody.
    destruct message as [| | | |text| |]; try reflexivity.
    destruct (String.eqb (Str.trim text) EmptyString); [reflexivity|].
    unfold SwiftParserOSS.effectiveFormat.
    assert (Js.truthy (JStr hint) = true) as ->.
    { destruct hint; [|reflexivity]. cbn in Hupper. subst format.
      cbn in Hin. intuition discriminate. }
    assert (Js.truthy (JStr format) = true) as ->.
    { destruct format; [|reflexivity]. cbn in Hin. intuition discriminate. }
    cbn [bind]. by rewrite Hupper, Hfixed.
  - unfold SwiftParserOSS.parseWithFormat.
    destruct (SWIFTParser.includes hint SwiftParserOSS.getSupportedFormats) eqn:Hhint;
      [|reflexivity].
    apply includes_In in Hhint. exfalso. apply Hne.
    assert (Hfixed' : Str.toUpperCase hint = hint).
    { cbn [In SwiftParserOSS.getSupportedFormats] in Hhint.
      repeat destruct Hhint as [<- | Hhint]; try reflexivity. destruct Hhint. }
    congruence.
Qed.

Lemma format_spelling_witness :
  In "MT103" SwiftParserOSS.getSupportedFormats /\
  "mt103" <> "MT103" /\
  Str.toUpperCase "mt103" = "MT103" /\
  @SwiftParserOSS.parse node rd0 self0 h0 (JStr mt103_example) (JStr "mt103")
  = @SwiftParserOSS.parse node rd0 self0 h0 (JStr mt103_example) (JStr "MT103") /\
  @SwiftParserOSS.parseWithFormat node rd0 self0 h0 (JStr mt103_example) "mt103"
  = (Throw "Unsupported format: mt103", h0).
Proof.
  assert (H1 : In "MT103" SwiftParserOSS.getSupportedFormats) by (cbn; auto).
  assert (H2 : "mt103" <> "MT103") by discriminate.
  assert (H3 : Str.toUpperCase "mt103" = "MT103") by reflexivity.
  repeat (split; [assumption|]).
  exact (format_spelling node rd0 self0 h0 (JStr mt103_example) "mt103" "MT103" H1 H2 H3).
Defined.

(** X6. When [parseWithFormat] returns a record, the format is one of
    [getSupportedFormats], the call did what [parse] does with the format as
    its hint, and detection either found nothing ([UNKNOWN]) or found the
    requested format; in the latter case the record has the type of that
    format ([pacs.008] for ISO20022, [FIS_FIXED] for FISERV_DNA). *)
Theorem parseWithFormat_returns (P : Platform) rd self h message format record :
  fst (SwiftParserOSS.parseWithFormat rd self h message format) = Return record ->
  In format SwiftParserOSS.getSupportedFormats /\
  SwiftParserOSS.parseWithFormat rd self h message format
  = SwiftParserOSS.parse rd self h message (JStr format) /\
  (SwiftParserOSS.detectFormat message = Return "UNKNOWN" \/
   SwiftParserOSS.detectFormat message = Return format /\
   messageTypeOf record = Return (JStr (recordType format))).
Proof.
  unfold SwiftParserOSS.parseWithFormat. intros H.
  destruct (SWIFTParser.includes format SwiftParserOSS.getSupportedFormats) eqn:Hin;
    [|discriminate].
  apply includes_In in Hin. cbn [negb] in H |- *.
  destruct (SwiftParserOSS.detectFormat message) as [detected|e] eqn:Hdetect;
    [|discriminate].
  destruct (String.eqb detected "UNKNOWN") eqn:Hunknown.
  { apply String.eqb_eq in Hunknown. subst. cbn [negb andb] in *. auto. }
  destruct (String.eqb detected format) eqn:Hsame; [|discriminate].
  apply String.eqb_eq in Hsame. subst detected. cbn [negb andb] in *.
  split; [assumption|]. split; [reflexivity|]. right. split; [reflexivity|].
  destruct (parse_returns _ _ _ _ _ _ H)
    as (text & label & result & -> & Heff & Hroute & Htiming).
  assert (label = format) as ->.
  { unfold SwiftParserOSS.effectiveFormat in Heff.
    destruct (Js.truthy (JStr format)) eqn:Ht; [by injection Heff|].
    destruct format; [|discriminate]. cbn in Hin. intuition discriminate. }
  rewrite (addTiming_messageType _ _ _ Htiming).
  destruct (detectFormat_labels _ _ Hdetect)
    as [(code & Hcode & ->) | [Hl | [[-> Hcobol] | [-> _]]]].
  - rewrite route_MT in Hroute by reflexivity.
    apply bind_Return in Hroute as (r & Hr & [= <-]).
    destruct (SWIFT_messageType _ _ _ Hr) as (code' & Hcode' & _ & Htype).
    rewrite Hcode in Hcode'. injection Hcode' as <-. exact Htype.
  - cbn [In] in Hl.
    destruct Hl as [<- | [<- | [<- | Hl]]].
    + apply (route_label _ _ _ _ Hroute). cbn; auto 10.
    + apply (route_label _ _ _ _ Hroute). cbn; auto 10.
    + by apply route_FISERV_DNA_messageType in Hroute.
    + repeat destruct Hl as [<- | Hl]; try done;
        apply (route_label _ _ _ _ Hroute); cbn; auto 10.
  - cbn in Hin. intuition discriminate.
  - discriminate.
Qed.

Lemma parseWithFormat_returns_witness :
  fst (@SwiftParserOSS.parseWithFormat node rd0 self0 h0 (JStr mt103_example) "MT103")
  = Return mt103_record /\
  In "MT103" SwiftParserOSS.getSupportedFormats /\
  (@SwiftParserOSS.detectFormat node (JStr mt103_example) = Return "UNKNOWN" \/
   @SwiftParserOSS.detectFormat node (JStr mt103_example) = Return "MT103" /\
   messageTypeOf mt103_record = Return (JStr (recordType "MT103"))).
Proof.
  assert (H1 : fst (@SwiftParserOSS.parseWithFormat node rd0 self0 h0
                      (JStr mt103_example) "MT103") = Return mt103_record)
    by (vm_compute; reflexivity).
  split; [assumption|].
  destruct (parseWithFormat_returns node rd0 self0 h0 (JStr mt103_example) "MT103"
              mt103_record H1) as (Hin & _ & Htype).
  split; assumption.
Defined.

(** ** The timing metadata *)

Section Timing.

Context {P : Platform}.

Import SwiftParserOSS.

Ltac parser_result H :=
  apply try_catch_rethrow in H;
  repeat first
    [ apply bind_Return in H as (? & ? & H)
    | match type of H with
      | (if ?b then _ else _) = _ => destruct b eqn:?; try discriminate H
      end ];
  injection H as <-.

Ltac plain_object :=
  eexists; split; [reflexivity|];
  cbn [list_to_map foldr fst snd];
  repeat (rewrite lookup_insert_ne by discriminate);
  first [ right; eexists; rewrite lookup_insert_eq; reflexivity
        | left; apply lookup_empty ].

Lemma SWIFT_plain stamp text record :
  SWIFTParser.parse stamp (JStr text) = Return record -> plain record.
Proof.
  intros H. unfold SWIFTParser.parse in H. apply try_catch_rethrow in H.
  destruct (String.eqb text EmptyString); [discriminate|].
  apply bind_Return in H as (mt & _ & H).
  destruct (negb _); [discriminate|].
  apply bind_Return in H as (fields & _ & H).
  apply bind_Return in H as (? & _ & H).
  unfold SWIFTParser.createStandardizedMessage in H.
  apply bind_Return in H as (message & Hmessage & H).
  assert (Hplain : exists fs, message = JObj fs /\ fs !! "parseMetadata" = None).
  { destruct (fields !! "32A").
    - apply bind_Return in Hmessage as (data & _ & [= <-]).
      eexists; split; [reflexivity|].
      cbn [list_to_map foldr fst snd].
      repeat (rewrite lookup_insert_ne by discriminate). apply lookup_empty.
    - injection Hmessage as <-. eexists; split; [reflexivity|].
      cbn [list_to_map foldr fst snd].
      repeat (rewrite lookup_insert_ne by discriminate). apply lookup_empty. }
  destruct Hplain as (fs & -> & Hfs).
  destruct (String.eqb mt "MT103"); [|destruct (String.eqb mt "MT202")];
    injection H as <-; eexists; (split; [reflexivity|]); left;
    cbn [Js.set]; repeat (rewrite lookup_insert_ne by discriminate); exact Hfs.
Qed.

Lemma route_plain stamp text formatUpper result :
  route stamp text formatUpper = Return (Parsed result) -> plain result.
Proof.
  unfold route. intros H.
  repeat match type of H with
         | (if ?b then _ else _) = _ => destruct b eqn:?
         end;
    try discriminate;
    apply bind_Return in H as (r & Hr & [= <-]).
  - by apply SWIFT_plain in Hr.
  - unfold ISO20022Parser.parsePacs008 in Hr. parser_result Hr. plain_object.
  - unfold BANCSParser.parseJSON in Hr. parser_result Hr. plain_object.
  - pose proof (BANCS_parseXML_throws stamp text) as Hthrows.
    rewrite Hr in Hthrows. discriminate.
  - unfold BANCSParser.parseFlat in Hr. parser_result Hr. plain_object.
  - unfold FISParser.parseJSON in Hr. parser_result Hr. plain_object.
  - unfold FISParser.parseFixedWidth in Hr. parser_result Hr. plain_object.
  - unfold FiservParser.parseDNA in Hr. parser_result Hr. plain_object.
  - unfold TemenosParser.parseJSON in Hr. parser_result Hr. plain_object.
  - unfold TemenosParser.parseXML in Hr. parser_result Hr. plain_object.
  - unfold TemenosParser.parseT24 in Hr. parser_result Hr. plain_object.
Qed.

End Timing.

(** X7. A record that [parse] returns is the record of the parser the
    payload was routed to, changed in its [parseMetadata] alone: the entries
    the parser put there are kept, [timestamp] is the clock reading at the
    end of the call, and [parseTime] is the elapsed time in whole
    milliseconds, never less than 1. *)
Theorem parse_stamps_timing (P : Platform) rd self h message format record :
  fst (SwiftParserOSS.parse rd self h message format) = Return record ->
  exists text label result,
    message = JStr text /\
    SwiftParserOSS.effectiveFormat message format = Return label /\
    SwiftParserOSS.route (SwiftParserOSS.stamp rd) text (Str.toUpperCase label)
    = Return (SwiftParserOSS.Parsed result) /\
    (forall k, k <> "parseMetadata" -> Js.get record k = Js.get result k) /\
    Js.get record "parseMetadata"
    = Return (JObj (<["timestamp" := JStr (SwiftParserOSS.finished rd)]>
                      (<["parseTime" := JNum (SwiftParserOSS.parseTime
                                                (SwiftParserOSS.elapsed rd))]>
                         (metadataOf result)))) /\
    exists n,
      SwiftParserOSS.parseTime (SwiftParserOSS.elapsed rd) = Decimal false n 0 /\
      (1 <= n)%N /\
      Z.of_N n = Z.max 1 (Z.quot (SwiftParserOSS.elapsed rd) 1000000).
Proof.
  intros Hparse.
  destruct (parse_returns _ _ _ _ _ _ Hparse)
    as (text & label & result & -> & Heff & Hroute & Htiming).
  exists text, label, result. repeat (split; [assumption || reflexivity|]).
  split; [intros k Hk; by apply (addTiming_get _ _ _ _ Htiming)|].
  split.
  - destruct (route_plain _ _ _ _ Hroute) as (fields & -> & Hmeta).
    unfold SwiftParserOSS.addTiming in Htiming. cbn [Js.get bind] in Htiming.
    injection Htiming as <-. cbn [Js.set Js.get metadataOf].
    rewrite lookup_insert_eq. cbn [default].
    destruct Hmeta as [-> | [metadata ->]]; reflexivity.
  - unfold SwiftParserOSS.parseTime. cbv zeta. eexists. split; [reflexivity|]. lia.
Qed.

Lemma parse_stamps_timing_witness :
  fst (@SwiftParserOSS.parse node rd0 self0 h0 (JStr mt103_example) JUndefined)
  = Return mt103_record /\
  exists result,
    Js.get mt103_record "parseMetadata"
    = Return (JObj (<["timestamp" := JStr (SwiftParserOSS.finished rd0)]>
                      (<["parseTime" := JNum (SwiftParserOSS.parseTime
                                                (SwiftParserOSS.elapsed rd0))]>
                         (metadataOf result)))).
Proof.
  assert (H1 : fst (@SwiftParserOSS.parse node rd0 self0 h0 (JStr mt103_example) JUndefined)
               = Return mt103_record) by (vm_compute; reflexivity).
  split; [assumption|].
  destruct (parse_stamps_timing node rd0 self0 h0 (JStr mt103_example) JUndefined
              mt103_record H1) as (text & label & result & _ & _ & _ & _ & Hmeta & _).
  exists result. exact Hmeta.
Defined.

(** ** The counters, over every entry point *)

Section Accounting.

Context {P : Platform}.

Import SwiftParserOSS.

Lemma parse_counted rd self h message format m :
  h !! metrics self = Some m ->
  exists m', snd (parse rd self h message format) !! metrics self = Some m' /\
    counted m m' 1.
Proof.
  intros Hm. rewrite (parse_metrics _ _ _ _ _ _ Hm). eexists. split; [reflexivity|].
  unfold counted. destruct (returns _); cbn; lia.
Qed.

Lemma batchParse_from_counted clock self messages : forall i h m,
  h !! metrics self = Some m ->
  exists m', snd (batchParse_from clock i self h messages) !! metrics self = Some m' /\
    counted m m' (length messages).
Proof.
  induction messages as [|message rest IH]; intros i h m Hm; cbn [batchParse_from length].
  - exists m. split; [assumption|]. unfold counted. lia.
  - destruct (parse_counted (clock i) self h message JUndefined m Hm)
      as (m1 & Hm1 & Hc1).
    destruct (parse (clock i) self h message JUndefined) as [r h1]. cbn [snd] in Hm1.
    destruct (IH (S i) h1 m1 Hm1) as (m' & Hm' & Hc).
    destruct (batchParse_from clock (S i) self h1 rest) as [results h2].
    cbn [snd] in *. exists m'. split; [assumption|].
    unfold counted in *. lia.
Qed.

Lemma parseWithFormat_counted rd self h message format m :
  h !! metrics self = Some m ->
  exists m' k, snd (parseWithFormat rd self h message format) !! metrics self = Some m' /\
    counted m m' k /\ (k <= 1)%nat.
Proof.
  intros Hm. unfold parseWithFormat.
  assert (Hsame : exists m' k, h !! metrics self = Some m' /\ counted m m' k /\ (k <= 1)%nat).
  { exists m, 0%nat. unfold counted. repeat split; [assumption|lia..]. }
  destruct (negb _); [exact Hsame|].
  destruct (detectFormat message); [|exact Hsame].
  destruct (_ && _); [exact Hsame|].
  destruct (parse_counted rd self h message (JStr format) m Hm) as (m' & Hm' & Hc).
  exists m', 1%nat. auto.
Qed.

Lemma getMetrics_keeps self h l h' m :
  getMetrics self h = Some (l, h') -> h !! metrics self = Some m ->
  h' !! metrics self = Some m.
Proof.
  intros Hget Hm. destruct (getMetrics_fresh _ _ _ _ Hget) as (_ & _ & Hkeep).
  by rewrite Hkeep.
Qed.

Lemma serve_counted self requests : forall h m,
  h !! metrics self = Some m ->
  exists m' k, serve self h requests !! metrics self = Some m' /\
    counted m m' k /\
    (k <= list_sum (map submitted requests))%nat /\
    (existsb checksFormat requests = false -> k = list_sum (map submitted requests)).
Proof.
  induction requests as [|r more IH]; intros h m Hm.
  - exists m, 0%nat. unfold counted. cbn. repeat split; [assumption|lia..].
  - assert (Hstep : forall h1 m1 k1, h1 !! metrics self = Some m1 -> counted m m1 k1 ->
        (k1 <= submitted r)%nat -> (checksFormat r = false -> k1 = submitted r) ->
        exists m' k, serve self h1 more !! metrics self = Some m' /\
          counted m m' k /\
          (k <= list_sum (map submitted (r :: more)))%nat /\
          (existsb checksFormat (r :: more) = false ->
           k = list_sum (map submitted (r :: more)))).
    { intros h1 m1 k1 Hm1 Hc1 Hle Heq.
      destruct (IH h1 m1 Hm1) as (m' & k & Hm' & Hc & Hk & Hall).
      exists m', (k1 + k)%nat. split; [assumption|].
      split; [unfold counted in *; lia|].
      change (list_sum (map submitted (r :: more)))
        with (submitted r + list_sum (map submitted more))%nat.
      cbn [existsb]. split; [lia|]. intros Hno. apply orb_false_iff in Hno as [Hr Hmore].
      rewrite (Heq Hr), (Hall Hmore). reflexivity. }
    destruct r as [rd payload hint | rd payload format | clock payloads | ]; cbn [serve].
    + destruct (parse_counted rd self h payload hint m Hm) as (m1 & Hm1 & Hc1).
      apply (Hstep _ m1 1%nat); auto.
    + destruct (parseWithFormat_counted rd self h payload format m Hm)
        as (m1 & k1 & Hm1 & Hc1 & Hk1).
      apply (Hstep _ m1 k1); auto. discriminate.
    + destruct (batchParse_from_counted clock self payloads 0 h m Hm) as (m1 & Hm1 & Hc1).
      apply (Hstep _ m1 (length payloads)); auto.
    + assert (Hc0 : counted m m 0) by (unfold counted; lia).
      destruct (getMetrics self h) as [[l h']|] eqn:Hget.
      * apply (Hstep _ m 0%nat); auto. by apply (getMetrics_keeps _ _ _ _ _ Hget).
      * apply (Hstep _ m 0%nat); auto.
Qed.

End Accounting.

(** X8. Whatever sequence of [parse], [parseWithFormat], [batchParse] and
    [getMetrics] a client runs on a new instance, [totalParsed] equals
    [successfulParses + failedParses] afterwards and is at most the number
    of payloads handed over; it is that number when no call was a
    [parseWithFormat] (whose two checks reject a payload before it is
    counted). *)
Theorem metrics_invariant (P : Platform) h (requests : list Request) :
  exists m,
    serve (fst (SwiftParserOSS.new h)) (snd (SwiftParserOSS.new h)) requests
      !! SwiftParserOSS.metrics (fst (SwiftParserOSS.new h)) = Some m /\
    SwiftParserOSS.totalParsed m
    = (SwiftParserOSS.successfulParses m + SwiftParserOSS.failedParses m)%N /\
    (SwiftParserOSS.totalParsed m <= N.of_nat (list_sum (map submitted requests)))%N /\
    (existsb checksFormat requests = false ->
     SwiftParserOSS.totalParsed m = N.of_nat (list_sum (map submitted requests))).
Proof.
  pose (m0 := {| SwiftParserOSS.totalParsed := 0;
                 SwiftParserOSS.successfulParses := 0;
                 SwiftParserOSS.failedParses := 0 |}).
  assert (Hnew : snd (SwiftParserOSS.new h)
                   !! SwiftParserOSS.metrics (fst (SwiftParserOSS.new h)) = Some m0).
  { unfold SwiftParserOSS.new. cbn. by rewrite lookup_insert_eq. }
  destruct (serve_counted _ requests _ _ Hnew) as (m & k & Hm & [Ht Hs] & Hk & Hall).
  exists m. split; [assumption|]. cbn in Ht, Hs.
  split; [lia|]. split; [lia|]. intros Hno. rewrite (Hall Hno) in Ht. lia.
Qed.

(** ** The base SWIFT parser: header, text block and fields *)

Section Header.

Import SWIFTParser.

(** The test of [headerMatch] at the head of a text. *)
Lemma header_here message :
  Str.startsWith "{2:I" message
  && (3 <=? String.length (Str.take 3 (Str.drop 4 message)))%nat
  && Str.all Str.is_digit (Str.take 3 (Str.drop 4 message)) = true <->
  exists code rest, headerAt message EmptyString code rest
    /\ code = Str.take 3 (Str.drop 4 message).
Proof.
  split.
  - intros H. apply andb_prop in H as [H Hdigits]. apply andb_prop in H as [Hmark Hlen].
    apply startsWith_spec in Hmark as [r ->].
    change (Str.drop 4 ("{2:I" +:+ r)) with r in *.
    apply Nat.leb_le in Hlen. rewrite length_take in Hlen.
    exists (Str.take 3 r), (Str.drop 3 r). split; [|reflexivity].
    split; [|split; [rewrite length_take; lia | assumption]].
    cbn [append]. by rewrite take_drop.
  - intros (code & rest & (-> & Hlen & Hdigits) & _).
    change (EmptyString +:+ "{2:I" +:+ code +:+ rest) with ("{2:I" +:+ (code +:+ rest)).
    rewrite startsWith_app.
    change (Str.drop 4 ("{2:I" +:+ (code +:+ rest))) with (code +:+ rest).
    assert (Htake : Str.take 3 (code +:+ rest) = code)
      by (rewrite <- Hlen; apply take_app).
    rewrite Htake, Hdigits, Hlen. reflexivity.
Qed.

Lemma headerMatch_found message code :
  headerMatch message = Some code ->
  exists pre rest,
    headerAt message pre code rest /\
    forall pre' code' rest',
      headerAt message pre' code' rest' -> (String.length pre <= String.length pre')%nat.
Proof.
  induction message as [|c message IH]; [discriminate|].
  cbn [headerMatch].
  destruct (_ && _ && _) eqn:Hhere.
  - intros [= <-]. apply header_here in Hhere as (code & rest & Hat & ->).
    exists EmptyString, rest. split; [assumption|]. intros; cbn; lia.
  - intros Hrest. destruct (IH Hrest) as (pre & rest & (Hmsg & Hlen & Hdigits) & Hleft).
    exists (String c pre), rest. split; [split; [by rewrite Hmsg | by split]|].
    intros pre' code' rest' (Heq & Hlen' & Hdigits').
    destruct pre' as [|c' pre'].
    + assert (Hyes : exists code0 rest0,
                headerAt (String c message) EmptyString code0 rest0
                /\ code0 = Str.take 3 (Str.drop 4 (String c message))).
      { exists code', rest'. split; [by split|].
        rewrite Heq.
        change (Str.drop 4 (EmptyString +:+ "{2:I" +:+ code' +:+ rest'))
          with (code' +:+ rest').
        by rewrite <- Hlen', take_app. }
      apply header_here in Hyes. congruence.
    + injection Heq as -> Heq. cbn [String.length]. apply le_n_S.
      apply (Hleft pre' code' rest'). by split.
Qed.

Lemma headerMatch_none message :
  headerMatch message = None ->
  forall pre code rest, ~ headerAt message pre code rest.
Proof.
  induction message as [|c message IH]; intros Hnone pre code rest (Heq & Hlen & Hdigits).
  - destruct pre; discriminate.
  - cbn [headerMatch] in Hnone.
    destruct (_ && _ && _) eqn:Hhere; [discriminate|].
    destruct pre as [|c' pre].
    + assert (Hyes : exists code rest,
                headerAt (String c message) EmptyString code rest
                /\ code = Str.take 3 (Str.drop 4 (String c message))).
      { exists code, rest. split; [by split|].
        rewrite Heq.
        change (Str.drop 4 (EmptyString +:+ "{2:I" +:+ code +:+ rest))
          with (code +:+ rest).
        by rewrite <- Hlen, take_app. }
      apply header_here in Hyes. congruence.
    + injection Heq as -> Heq. apply (IH Hnone pre code rest). by split.
Qed.

End Header.

(** X9. [extractMessageType] returns [MT] and the three digits of the
    leftmost input application header of the message, a mark [{2:I] followed
    by three digits; it throws the missing-header error exactly when the
    message has no such header (so an output header [{2:O] does not
    count). *)
Theorem extractMessageType_header (message : string) :
  match SWIFTParser.extractMessageType message with
  | Return messageType =>
      exists pre code rest,
        headerAt message pre code rest /\
        messageType = "MT" +:+ code /\
        forall pre' code' rest',
          headerAt message pre' code' rest' ->
          (String.length pre <= String.length pre')%nat
  | Throw error =>
      error = "Invalid SWIFT message format: missing application header" /\
      forall pre code rest, ~ headerAt message pre code rest
  end.
Proof.
  unfold SWIFTParser.extractMessageType.
  destruct (SWIFTParser.headerMatch message) as [code|] eqn:Hmatch.
  - destruct (headerMatch_found _ _ Hmatch) as (pre & rest & Hat & Hleft).
    exists pre, code, rest. auto.
  - split; [reflexivity|]. by apply headerMatch_none.
Qed.

Section TextBlock.

Import SWIFTParser.

Lemma after_found p : forall s rest,
  Str.after p s = Some rest ->
  exists pre, s = pre +:+ p +:+ rest /\
    forall pre' rest', s = pre' +:+ p +:+ rest' ->
      (String.length pre <= String.length pre')%nat.
Proof.
  induction s as [|c s IH]; intros rest; cbn [Str.after].
  - destruct (Str.startsWith p EmptyString) eqn:Hp; [|discriminate].
    intros [= <-]. exists EmptyString. split; [|intros; cbn; lia].
    by apply startsWith_drop.
  - destruct (Str.startsWith p (String c s)) eqn:Hp.
    + intros [= <-]. exists EmptyString. split; [|intros; cbn; lia].
      by apply startsWith_drop.
    + intros Hrest. destruct (IH rest Hrest) as (pre & Hs & Hleft).
      exists (String c pre). split; [by rewrite Hs|].
      intros pre' rest' Heq. destruct pre' as [|c' pre'].
      * assert (Str.startsWith p (String c s) = true); [|congruence].
        apply startsWith_spec. by exists rest'.
      * injection Heq as -> Heq. cbn [String.length]. apply le_n_S.
        by apply (Hleft pre' rest').
Qed.

Lemma after_none p : forall s pre rest,
  Str.after p s = None -> s <> pre +:+ p +:+ rest.
Proof.
  induction s as [|c s IH]; intros pre rest; cbn [Str.after].
  - destruct (Str.startsWith p EmptyString) eqn:Hp; [discriminate|].
    intros _ Heq. destruct pre; [|discriminate].
    assert (Str.startsWith p EmptyString = true); [|congruence].
    apply startsWith_spec. by exists rest.
  - destruct (Str.startsWith p (String c s)) eqn:Hp; [discriminate|].
    intros Hnone Heq. destruct pre as [|c' pre].
    + assert (Str.startsWith p (String c s) = true); [|congruence].
      apply startsWith_spec. by exists rest.
    + injection Heq as -> Heq. by apply (IH pre rest).
Qed.

Lemma before_none c s :
  Str.before c s = None -> Str.includes (String c EmptyString) s = false.
Proof.
  induction s as [|d s IH]; [reflexivity|]. cbn [Str.before].
  destruct (Str.eqc d c) eqn:Hd; [discriminate|].
  destruct (Str.before c s); [discriminate|]. intros _.
  rewrite includes_char, eqc_sym, Hd. by apply IH.
Qed.

End TextBlock.

(** X10. The text block that [parseFields] reads is the text between the
    leftmost mark [{4:] of the message and the first closing brace after it:
    it holds no closing brace itself (a brace in the content of a field ends
    the block there), and there is none exactly when no mark [{4:] of the
    message is followed by a closing brace. *)
Theorem textBlock_delimited (message : string) :
  match SWIFTParser.textBlockMatch message with
  | Some textBlock =>
      Str.includes "}" textBlock = false /\
      exists pre post,
        blockAt message pre textBlock post /\
        forall pre' textBlock' post',
          blockAt message pre' textBlock' post' ->
          (String.length pre <= String.length pre')%nat
  | None => forall pre textBlock post, ~ blockAt message pre textBlock post
  end.
Proof.
  unfold SWIFTParser.textBlockMatch, blockAt.
  destruct (Str.after "{4:" message) as [rest|] eqn:Hafter.
  - destruct (after_found _ _ _ Hafter) as (pre & Hmessage & Hleft).
    destruct (Str.before "}" rest) as [textBlock|] eqn:Hbefore.
    + destruct (before_after _ _ _ Hbefore) as (Hfree & post & _ & Hrest).
      split; [assumption|]. exists pre, post. split.
      * rewrite Hmessage, Hrest. reflexivity.
      * intros pre' textBlock' post' Heq. by apply (Hleft pre' _ Heq).
    + intros pre' textBlock' post' Heq.
      pose proof (before_none _ _ Hbefore) as Hnone.
      pose proof (Hleft pre' _ Heq) as Hle.
      assert (Hrest : rest = Str.drop (String.length (pre +:+ "{4:")) message).
      { rewrite Hmessage. rewrite <- app_assoc_string. by rewrite drop_app. }
      rewrite Heq in Hrest.
      replace (pre' +:+ "{4:" +:+ textBlock' +:+ "}" +:+ post')
        with ((pre' +:+ "{4:" +:+ textBlock') +:+ String "}" post') in Hrest
        by (by rewrite !app_assoc_string).
      rewrite drop_within in Hrest by (rewrite !length_app_string; cbn; lia).
      rewrite Hrest, includes_app_sep in Hnone. discriminate.
  - intros pre textBlock post Heq. by apply (after_none _ _ _ _ Hafter) in Heq.
Qed.

Section Matches.

Import SWIFTParser.

Lemma tag_at_spec s t rest :
  tag_at s = Some (t, rest) <-> isTag t = true /\ s = ":" +:+ t +:+ ":" +:+ rest.
Proof.
  split.
  - unfold tag_at.
    destruct s as [|c0 [|d1 [|d2 [|x r]]]]; try discriminate.
    destruct (Str.eqc c0 ":") eqn:Hc0; [|discriminate].
    apply Ascii.eqb_eq in Hc0. subst c0.
    destruct (Str.is_digit d1) eqn:Hd1; [|discriminate].
    destruct (Str.is_digit d2) eqn:Hd2; [|discriminate]. cbn [andb].
    destruct (Str.eqc x ":") eqn:Hx.
    + apply Ascii.eqb_eq in Hx. subst x. intros [= <- <-]. cbn [isTag].
      by rewrite Hd1, Hd2.
    + destruct r as [|y r]; [discriminate|].
      destruct (Str.is_upper x) eqn:Hu; [|discriminate].
      destruct (Str.eqc y ":") eqn:Hy; [|discriminate].
      apply Ascii.eqb_eq in Hy. subst y. intros [= <- <-]. cbn [isTag].
      by rewrite Hd1, Hd2, Hu.
  - intros [Htag ->]. unfold isTag in Htag.
    destruct t as [|d1 [|d2 [|x [|? ?]]]]; try discriminate.
    + apply andb_prop in Htag as [Hd1 Hd2].
      change (":" +:+ String d1 (String d2 EmptyString) +:+ ":" +:+ rest)
        with (String ":" (String d1 (String d2 (String ":" rest)))).
      unfold tag_at. by rewrite Hd1, Hd2.
    + apply andb_prop in Htag as [Htag Hu]. apply andb_prop in Htag as [Hd1 Hd2].
      change (":" +:+ String d1 (String d2 (String x EmptyString)) +:+ ":" +:+ rest)
        with (String ":" (String d1 (String d2 (String x (String ":" rest))))).
      unfold tag_at. rewrite Hd1, Hd2, Hu. cbn.
      assert (Str.eqc x ":" = false) as ->; [|reflexivity].
      clear -Hu. destruct x as [[] [] [] [] [] [] [] []]; try reflexivity; discriminate.
Qed.

(** A tag at the head of a text is still one after more text. *)
Lemma tag_at_app s t rest more :
  tag_at s = Some (t, rest) -> tag_at (s +:+ more) = Some (t, rest +:+ more).
Proof.
  intros H. apply tag_at_spec in H as [Htag ->]. apply tag_at_spec. split; [assumption|].
  by rewrite !app_assoc_string.
Qed.

Lemma content_until_tag_prefix s :
  exists more, s = content_until_tag s +:+ more.
Proof.
  induction s as [|c s [more IH]]; [by exists EmptyString|].
  cbn [content_until_tag]. destruct (tag_at (String c s)).
  - by exists (String c s).
  - exists more. change (String c s = String c (content_until_tag s +:+ more)).
    by rewrite <- IH.
Qed.

Lemma content_until_tag_free s : tagFree (content_until_tag s).
Proof.
  induction s as [|c s IH]; intros pre t post Htag Heq.
  - destruct pre; discriminate.
  - cbn [content_until_tag] in Heq.
    destruct (tag_at (String c s)) as [r|] eqn:Hat.
    + destruct pre; discriminate.
    + destruct pre as [|c' pre].
      * destruct (content_until_tag_prefix s) as [more Hmore].
        assert (Hhere : tag_at (String c (content_until_tag s)) = Some (t, post))
          by (apply tag_at_spec; split; [assumption|]; exact Heq).
        apply (tag_at_app _ _ _ more) in Hhere.
        change (String c (content_until_tag s) +:+ more)
          with (String c (content_until_tag s +:+ more)) in Hhere.
        rewrite <- Hmore in Hhere. congruence.
      * injection Heq as _ Heq. by apply (IH pre t post).
Qed.

Lemma fieldMatches_from_shape s : forall skip m,
  In m (fieldMatches_from skip s) ->
  exists t content,
    isTag t = true /\ m = ":" +:+ t +:+ ":" +:+ content /\
    fieldMatch m = Some (t, content) /\ tagFree content /\
    exists pre post, s = pre +:+ m +:+ post.
Proof.
  induction s as [|c s IH]; intros skip m Hin; [destruct Hin|].
  assert (Hlater : forall k, In m (fieldMatches_from k s) ->
    exists t content,
      isTag t = true /\ m = ":" +:+ t +:+ ":" +:+ content /\
      fieldMatch m = Some (t, content) /\ tagFree content /\
      exists pre post, String c s = pre +:+ m +:+ post).
  { intros k Hk.
    destruct (IH k m Hk) as (t & content & Htag & Hm & Hmatch & Hfree & pre & post & Hs).
    exists t, content. repeat (split; [assumption|]).
    exists (String c pre), post. by rewrite Hs. }
  cbn [fieldMatches_from] in Hin. destruct skip as [|k]; [|by apply (Hlater k)].
  destruct (tag_at (String c s)) as [[t rest]|] eqn:Hat; [|by apply (Hlater 0%nat)].
  destruct Hin as [<- | Hin]; [|by apply (Hlater _ Hin)].
  apply tag_at_spec in Hat as [Htag Hs].
  exists t, (content_until_tag rest). split; [assumption|]. split; [reflexivity|].
  split; [|split; [apply content_until_tag_free|]].
  - assert (Hhere : tag_at (":" +:+ t +:+ ":" +:+ content_until_tag rest)
                    = Some (t, content_until_tag rest)) by (by apply tag_at_spec).
    destruct (":" +:+ t +:+ ":" +:+ content_until_tag rest) eqn:E.
    + discriminate.
    + cbn [fieldMatch]. by rewrite Hhere.
  - destruct (content_until_tag_prefix rest) as [more Hmore].
    exists EmptyString, more. rewrite Hs.
    change (EmptyString +:+ ?x) with x.
    rewrite !app_assoc_string.
    change (":" +:+ ?x) with (String ":" x). by rewrite <- Hmore.
Qed.

End Matches.

(** X11. Every text the field pattern matches in a text block stands in the
    block and is a tag between colons (two digits and, optionally, a capital
    letter) followed by a content in which no such tag stands: a tag inside
    the text of a field always starts a new field. The second pattern splits
    the matched text back into that tag and that content. *)
Theorem fieldMatches_shape (textBlock m : string) :
  In m (SWIFTParser.fieldMatches textBlock) ->
  exists t content,
    isTag t = true /\
    m = ":" +:+ t +:+ ":" +:+ content /\
    SWIFTParser.fieldMatch m = Some (t, content) /\
    tagFree content /\
    exists pre post, textBlock = pre +:+ m +:+ post.
Proof. apply fieldMatches_from_shape. Qed.

Lemma fieldMatches_shape_witness :
  In ":20:A" (SWIFTParser.fieldMatches ":20:A:21:B") /\
  exists t content,
    isTag t = true /\
    ":20:A" = ":" +:+ t +:+ ":" +:+ content /\
    SWIFTParser.fieldMatch ":20:A" = Some (t, content) /\
    tagFree content /\
    exists pre post, ":20:A:21:B" = pre +:+ ":20:A" +:+ post.
Proof.
  assert (H1 : In ":20:A" (SWIFTParser.fieldMatches ":20:A:21:B")) by (vm_compute; auto).
  split; [assumption|].
  exact (fieldMatches_shape ":20:A:21:B" ":20:A" H1).
Defined.

Section Fields.

Import SWIFTParser.

Lemma trimEnd_idem s : Str.trimEnd (Str.trimEnd s) = Str.trimEnd s.
Proof.
  induction s as [|c s IH]; [reflexivity|].
  cbn [Str.trimEnd]. destruct (Str.trimEnd s) as [|d r] eqn:Hs.
  - destruct (Str.is_space c) eqn:Hc; [reflexivity|].
    cbn [Str.trimEnd]. by rewrite Hc.
  - cbn [Str.trimEnd]. cbn [Str.trimEnd] in IH.
    destruct (Str.trimEnd r) as [|e r'] eqn:Hr.
    + destruct (Str.is_space d); [discriminate|]. by rewrite IH.
    + by rewrite IH.
Qed.

Lemma trimEnd_head c s :
  Str.is_space c = false -> exists r, Str.trimEnd (String c s) = String c r.
Proof.
  intros Hc. cbn [Str.trimEnd]. destruct (Str.trimEnd s); [rewrite Hc|]; eauto.
Qed.

Lemma trimStart_head s :
  Str.trimStart s = EmptyString \/
  exists c r, Str.trimStart s = String c r /\ Str.is_space c = false.
Proof.
  induction s as [|c s IH]; [by left|].
  cbn [Str.trimStart]. destruct (Str.is_space c) eqn:Hc; [assumption|].
  right. eauto.
Qed.

Lemma trim_idem s : Str.trim (Str.trim s) = Str.trim s.
Proof.
  unfold Str.trim. destruct (trimStart_head s) as [-> | (c & r & -> & Hc)]; [reflexivity|].
  destruct (trimEnd_head c r Hc) as [r' Hr']. rewrite Hr'.
  cbn [Str.trimStart]. rewrite Hc, <- Hr'. apply trimEnd_idem.
Qed.

Lemma forEach_app defs ms1 : forall fields ms2,
  forEach defs fields (ms1 ++ ms2)%list
  = (let* fields' := forEach defs fields ms1 in forEach defs fields' ms2).
Proof.
  induction ms1 as [|m ms1 IH]; intros fields ms2; [reflexivity|].
  cbn [forEach app]. destruct (addField defs fields m); cbn [bind]; [apply IH|reflexivity].
Qed.

Lemma lastMatch_snoc ms m t rest :
  lastMatch (ms ++ [m])%list t rest <->
  fieldMatch m = Some (t, rest) \/ (tagOf m <> Some t /\ lastMatch ms t rest).
Proof.
  split.
  - intros (ms1 & m' & ms2 & Heq & Hm' & Hlater).
    destruct ms2 as [|x ms2 _] using rev_ind.
    + apply app_inj_tail in Heq as [_ <-]. by left.
    + right. rewrite app_comm_cons, app_assoc in Heq.
      apply app_inj_tail in Heq as [-> <-].
      apply Forall_app in Hlater as [Hlater Hx].
      split; [by inversion Hx|]. by exists ms1, m', ms2.
  - intros [Hm | [Hm (ms1 & m' & ms2 & -> & Hm' & Hlater)]].
    + exists ms, m, []. auto.
    + exists ms1, m', (ms2 ++ [m])%list. rewrite <- app_assoc. split; [reflexivity|].
      split; [assumption|]. apply Forall_app. auto.
Qed.

Lemma lastMatch_nil t rest : ~ lastMatch [] t rest.
Proof. intros (ms1 & m & ms2 & Heq & _). by destruct ms1. Qed.

Lemma forEach_entries table ms : forall fields,
  forEach (Some table) ∅ ms = Return fields ->
  forall t f,
    fields !! t = Some f <->
    exists n rest,
      table !! t = Some n /\ lastMatch ms t rest /\
      f = {| tag := t; name := n; content := Str.trim rest |}.
Proof.
  induction ms as [|m ms IH] using rev_ind; intros fields Hrun t f.
  - injection Hrun as <-. rewrite lookup_empty. split; [discriminate|].
    intros (n & rest & _ & Hlast & _). by apply lastMatch_nil in Hlast.
  - rewrite forEach_app in Hrun.
    apply bind_Return in Hrun as (fields0 & Hrun0 & Hstep).
    specialize (IH fields0 Hrun0 t f). cbn [forEach] in Hstep.
    apply bind_Return in Hstep as (fields1 & Hadd & [= <-]).
    unfold addField in Hadd.
    destruct (fieldMatch m) as [[t0 rest0]|] eqn:Hm.
    + destruct (table !! t0) as [n0|] eqn:Ht0.
      * injection Hadd as <-.
        destruct (decide (t = t0)) as [-> | Hne].
        -- rewrite lookup_insert_eq. split.
           ++ intros [= <-]. exists n0, rest0. rewrite lastMatch_snoc. auto.
           ++ intros (n & rest & Hn & Hlast & ->).
              apply lastMatch_snoc in Hlast as [Hlast | [Hno _]].
              ** rewrite Hm in Hlast. injection Hlast as <-. congruence.
              ** exfalso. apply Hno. unfold tagOf. by rewrite Hm.
        -- rewrite lookup_insert_ne by congruence. rewrite IH.
           split; intros (n & rest & Hn & Hlast & ->); exists n, rest;
             (split; [assumption|]); (split; [|reflexivity]).
           ++ apply lastMatch_snoc. right. split; [|assumption].
              unfold tagOf. rewrite Hm. cbn. congruence.
           ++ apply lastMatch_snoc in Hlast as [Hlast | [_ Hlast]]; [|assumption].
              rewrite Hm in Hlast. congruence.
      * injection Hadd as <-. rewrite IH.
        split; intros (n & rest & Hn & Hlast & ->); exists n, rest;
          (split; [assumption|]); (split; [|reflexivity]).
        -- apply lastMatch_snoc. right. split; [|assumption].
           unfold tagOf. rewrite Hm. cbn. congruence.
        -- apply lastMatch_snoc in Hlast as [Hlast | [_ Hlast]]; [|assumption].
           rewrite Hm in Hlast. congruence.
    + injection Hadd as <-. rewrite IH.
      split; intros (n & rest & Hn & Hlast & ->); exists n, rest;
        (split; [assumption|]); (split; [|reflexivity]).
      * apply lastMatch_snoc. right. split; [|assumption].
        unfold tagOf. by rewrite Hm.
      * apply lastMatch_snoc in Hlast as [Hlast | [_ Hlast]]; [|assumption].
        rewrite Hm in Hlast. congruence.
Qed.

End Fields.

(** X12. For a supported message type, the object [parseFields] returns has
    an entry for a tag exactly when the tag is in the field table of the
    type and some matched text carries it; the entry holds the tag, the name
    the table gives it and the trimmed text after the tag in the last
    matched text that carries it (a later occurrence of a tag replaces an
    earlier one; tags outside the table are dropped). *)
Theorem parseFields_entries (message messageType : string) fields :
  SWIFTParser.includes messageType SWIFTParser.supportedMessageTypes = true ->
  SWIFTParser.parseFields message messageType = Return fields ->
  exists table textBlock,
    SWIFTParser.SWIFT_FIELDS messageType = Some table /\
    SWIFTParser.textBlockMatch message = Some textBlock /\
    forall t f,
      fields !! t = Some f <->
      exists n rest,
        table !! t = Some n /\
        lastMatch (SWIFTParser.fieldMatches textBlock) t rest /\
        f = {| SWIFTParser.tag := t; SWIFTParser.name := n;
               SWIFTParser.content := Str.trim rest |}.
Proof.
  intros Hmt Hfields.
  destruct (supported_table _ Hmt) as (table & Htable & _).
  unfold SWIFTParser.parseFields in Hfields. rewrite Htable in Hfields.
  destruct (SWIFTParser.textBlockMatch message) as [textBlock|]; [|discriminate].
  exists table, textBlock. split; [assumption|]. split; [reflexivity|].
  apply forEach_entries. by destruct (SWIFTParser.fieldMatches textBlock).
Qed.

Lemma parseFields_entries_witness :
  SWIFTParser.includes "MT103" SWIFTParser.supportedMessageTypes = true /\
  SWIFTParser.parseFields mt103_example "MT103" = Return mt103_fields /\
  exists table textBlock,
    SWIFTParser.SWIFT_FIELDS "MT103" = Some table /\
    SWIFTParser.textBlockMatch mt103_example = Some textBlock /\
    forall t f,
      mt103_fields !! t = Some f <->
      exists n rest,
        table !! t = Some n /\
        lastMatch (SWIFTParser.fieldMatches textBlock) t rest /\
        f = {| SWIFTParser.tag := t; SWIFTParser.name := n;
               SWIFTParser.content := Str.trim rest |}.
Proof.
  assert (H1 : SWIFTParser.includes "MT103" SWIFTParser.supportedMessageTypes = true)
    by reflexivity.
  assert (H2 : SWIFTParser.parseFields mt103_example "MT103" = Return mt103_fields)
    by (vm_compute; reflexivity).
  split; [assumption|]. split; [assumption|].
  exact (parseFields_entries mt103_example "MT103" mt103_fields H1 H2).
Defined.

Section Record.

Import SWIFTParser.

Ltac get_prop :=
  unfold Js.obj; cbn [Js.set Js.get list_to_map foldr fst snd];
  repeat (rewrite lookup_insert_ne by discriminate);
  rewrite lookup_insert_eq; reflexivity.

Lemma createStandardizedMessage_status stamp fields mt record :
  includes mt supportedMessageTypes = true ->
  createStandardizedMessage stamp fields mt = Return record ->
  Js.get record "status" = Return (JStr "parsed") /\
  Js.get record "id" = Return (JStr (uuid stamp)) /\
  Js.get record "timestamp" = Return (JStr (now stamp)).
Proof.
  intros Hmt. unfold createStandardizedMessage.
  destruct (fields !! "32A") as [f|].
  - destruct (parseAmountField (content f)) as [data|e]; cbn [bind]; [|discriminate].
    apply supported_types in Hmt as [-> | ->]; cbn [String.eqb Ascii.eqb Bool.eqb];
      intros [= <-]; repeat split; get_prop.
  - cbn [bind].
    apply supported_types in Hmt as [-> | ->]; cbn [String.eqb Ascii.eqb Bool.eqb];
      intros [= <-]; repeat split; get_prop.
Qed.

Lemma isoDate_length y m d : String.length (JsDate.isoDate y m d) = 10%nat.
Proof.
  unfold JsDate.isoDate, JsDate.pad4, JsDate.pad2. cbv zeta.
  rewrite !length_app_string. reflexivity.
Qed.

Lemma entry_trimmed message mt fields t f :
  includes mt supportedMessageTypes = true ->
  parseFields message mt = Return fields -> fields !! t = Some f ->
  Str.trim (content f) = content f.
Proof.
  intros Hmt Hfields Hf.
  destruct (supported_table _ Hmt) as (table & Htable & _).
  unfold parseFields in Hfields. rewrite Htable in Hfields.
  destruct (textBlockMatch message) as [textBlock|]; [|discriminate].
  assert (Hrun : forEach (Some table) ∅ (fieldMatches textBlock) = Return fields)
    by (by destruct (fieldMatches textBlock)).
  apply (forEach_entries _ _ _ Hrun) in Hf as (n & rest & _ & _ & ->).
  apply trim_idem.
Qed.

End Record.

(** X13. Every record that [SWIFTParser.parse] returns has the status
    [parsed], the identifier and the timestamp it was given, a
    [transactionReference] that is a trimmed text, a [currency] of three
    capital letters, a number as [amount] and a [valueDate] of ten code
    units: the tags 20 and 32A are required for both supported types. *)
Theorem SWIFT_record_invariants stamp (text : string) record :
  SWIFTParser.parse stamp (JStr text) = Return record ->
  exists reference cur amount date,
    Js.get record "status" = Return (JStr "parsed") /\
    Js.get record "id" = Return (JStr (uuid stamp)) /\
    Js.get record "timestamp" = Return (JStr (now stamp)) /\
    Js.get record "transactionReference" = Return (JStr reference) /\
    Str.trim reference = reference /\
    Js.get record "currency" = Return (JStr cur) /\
    String.length cur = 3%nat /\ Str.all Str.is_upper cur = true /\
    Js.get record "amount" = Return (JNum amount) /\
    Js.get record "valueDate" = Return (JStr date) /\
    String.length date = 10%nat.
Proof.
  intros Hparse.
  destruct (SWIFT_messageType _ _ _ Hparse) as (code & Hcode & Hsupported & _).
  assert (Hmt : SWIFTParser.includes ("MT" +:+ code) SWIFTParser.supportedMessageTypes = true)
    by (destruct Hsupported as [-> | ->]; reflexivity).
  rewrite (parse_supported _ _ _ Hcode Hmt) in Hparse.
  apply bind_Return in Hparse as (fields & Hfields & Hparse).
  apply bind_Return in Hparse as ([] & Hvalid & Hparse).
  assert (Hrequired : is_Some (fields !! "20") /\ is_Some (fields !! "32A")).
  { unfold SWIFTParser.validateRequiredFields in Hvalid.
    destruct (checkRequired_spec fields ("MT" +:+ code)
                (SWIFTParser.getRequiredFields ("MT" +:+ code)))
      as [[Hall _] | (t & _ & _ & Hthrow)]; [|congruence].
    split; apply (proj1 (List.Forall_forall _ _) Hall);
      destruct Hsupported as [-> | ->]; vm_compute; auto. }
  destruct Hrequired as [[reference Hreference] [f Hf]].
  destruct (createStandardizedMessage_status _ _ _ _ Hmt Hparse) as (Hstatus & Hid & Htime).
  pose proof (createStandardizedMessage_amount stamp fields _ f Hmt Hf) as Hmsg.
  destruct (SWIFTParser.parseAmountField (SWIFTParser.content f)) as [data|e] eqn:Hdata;
    [|congruence].
  destruct Hmsg as (record' & Hrec & _ & Href & Hamount & Hcur & Hdate).
  rewrite Hrec in Hparse. injection Hparse as <-.
  unfold SWIFTParser.parseAmountField in Hdata.
  destruct (SWIFTParser.amountMatch (SWIFTParser.content f))
    as [[[dateStr cur] amountStr]|] eqn:Hmatch; [|discriminate].
  apply amountMatch_spec in Hmatch as (_ & _ & _ & Hlen & Hupper & _).
  injection Hdata as <-. cbn [SWIFTParser.amount SWIFTParser.currency SWIFTParser.valueDate] in *.
  exists (SWIFTParser.content reference), cur. eexists. eexists.
  repeat (split; [eassumption || reflexivity|]).
  split.
  { rewrite Href. unfold SWIFTParser.contentOf. by rewrite Hreference. }
  split; [by apply (entry_trimmed text _ fields "20" reference Hmt)|].
  repeat (split; [eassumption || reflexivity|]).
  apply isoDate_length.
Qed.

Lemma SWIFT_record_invariants_witness :
  SWIFTParser.parse stamp0 (JStr mt103_example) = Return mt103_parsed /\
  exists reference cur amount date,
    Js.get mt103_parsed "status" = Return (JStr "parsed") /\
    Js.get mt103_parsed "id" = Return (JStr (uuid stamp0)) /\
    Js.get mt103_parsed "timestamp" = Return (JStr (now stamp0)) /\
    Js.get mt103_parsed "transactionReference" = Return (JStr reference) /\
    Str.trim reference = reference /\
    Js.get mt103_parsed "currency" = Return (JStr cur) /\
    String.length cur = 3%nat /\ Str.all Str.is_upper cur = true /\
    Js.get mt103_parsed "amount" = Return (JNum amount) /\
    Js.get mt103_parsed "valueDate" = Return (JStr date) /\
    String.length date = 10%nat.
Proof.
  assert (H1 : SWIFTParser.parse stamp0 (JStr mt103_example) = Return mt103_parsed)
    by (vm_compute; reflexivity).
  split; [assumption|].
  exact (SWIFT_record_invariants stamp0 mt103_example mt103_parsed H1).
Defined.

(** ** Value dates out of the calendar *)

Section Rollover.

Import JsDate.

Lemma isoDate_MakeDay y m d y' m' d' :
  MakeDay y m d = MakeDay y' m' d' -> isoDate y m d = isoDate y' m' d'.
Proof. unfold isoDate. by intros ->. Qed.

Lemma daysIn_ge leap k : 0 <= k <= 10 -> 28 <= daysIn leap k.
Proof.
  intros Hk.
  assert (Hc : k = 0 \/ k = 1 \/ k = 2 \/ k = 3 \/ k = 4 \/ k = 5 \/ k = 6 \/ k = 7
               \/ k = 8 \/ k = 9 \/ k = 10) by lia.
  repeat destruct Hc as [-> | Hc]; try subst k; destruct leap; vm_compute; discriminate.
Qed.

(** Days past the end of a month count into the next month. *)
Lemma isoDate_overflow y m d :
  0 <= y <= 99 -> 1 <= m <= 11 ->
  daysInMonth (2000 + y) m < d
    <= daysInMonth (2000 + y) m + daysInMonth (2000 + y) (m + 1) ->
  isoDate (2000 + y) (m - 1) d
  = pad4 (2000 + y) +:+ "-" +:+ pad2 (m + 1) +:+ "-"
    +:+ pad2 (d - daysInMonth (2000 + y) m).
Proof.
  intros Hy Hm Hd.
  rewrite <- (isoDate_calendar y (m + 1) (d - daysInMonth (2000 + y) m)) by lia.
  apply isoDate_MakeDay. rewrite !MakeDay_month by lia.
  rewrite (daysInMonth_daysIn (2000 + y) m) by lia. unfold daysIn.
  replace (m - 1 + 1) with m by lia. replace (m + 1 - 1) with m by lia. lia.
Qed.

(** Day zero is the last day of the month before. *)
Lemma isoDate_day_zero y m :
  0 <= y <= 99 -> 2 <= m <= 12 ->
  isoDate (2000 + y) (m - 1) 0
  = pad4 (2000 + y) +:+ "-" +:+ pad2 (m - 1) +:+ "-"
    +:+ pad2 (daysInMonth (2000 + y) (m - 1)).
Proof.
  intros Hy Hm.
  assert (Hdays : 28 <= daysInMonth (2000 + y) (m - 1)).
  { rewrite daysInMonth_daysIn by lia. apply daysIn_ge. lia. }
  rewrite <- (isoDate_calendar y (m - 1) (daysInMonth (2000 + y) (m - 1))) by lia.
  apply isoDate_MakeDay. rewrite !MakeDay_month by lia.
  rewrite (daysInMonth_daysIn (2000 + y) (m - 1)) by lia. unfold daysIn.
  replace (m - 1 - 1 + 1) with (m - 1) by lia. lia.
Qed.

End Rollover.

(** X14. [parseAmountField] accepts any six digits as a date and carries
    days out of range over, as [Date.UTC] does: a day past the end of its
    month (months 01 to 11) gives the date that many days into the next
    month, and day 00 (months 02 to 12) gives the last day of the month
    before. So [230230] is read as 2023-03-02. *)
Theorem valueDate_rolls_over (content dateStr cur amountStr : string) :
  content = dateStr +:+ cur +:+ amountStr ->
  amountShape dateStr cur amountStr ->
  let y := Js.parseInt (Str.substring 0 2 dateStr) in
  let m := Js.parseInt (Str.substring 2 4 dateStr) in
  let d := Js.parseInt (Str.substring 4 6 dateStr) in
  exists data,
    SWIFTParser.parseAmountField content = Return data /\
    (1 <= m <= 11 ->
     daysInMonth (2000 + y) m < d
       <= daysInMonth (2000 + y) m + daysInMonth (2000 + y) (m + 1) ->
     SWIFTParser.valueDate data
     = "20" +:+ Str.substring 0 2 dateStr +:+ "-" +:+ JsDate.pad2 (m + 1) +:+ "-"
       +:+ JsDate.pad2 (d - daysInMonth (2000 + y) m)) /\
    (2 <= m <= 12 -> d = 0 ->
     SWIFTParser.valueDate data
     = "20" +:+ Str.substring 0 2 dateStr +:+ "-" +:+ JsDate.pad2 (m - 1) +:+ "-"
       +:+ JsDate.pad2 (daysInMonth (2000 + y) (m - 1))).
Proof.
  intros Hcontent Hshape y m d.
  rewrite (parseAmountField_shape _ _ _ _ Hcontent Hshape). eexists. split; [reflexivity|].
  cbn [SWIFTParser.valueDate]. fold y m d.
  destruct Hshape as (Hlen & Hdigits & _).
  destruct dateStr as [|c1 [|c2 [|c3 [|c4 [|c5 [|c6 [|]]]]]]]; try discriminate Hlen.
  cbn [Str.all] in Hdigits.
  repeat (apply andb_prop in Hdigits as [? Hdigits]).
  assert (Hy : 0 <= y <= 99 /\ JsDate.pad2 y = Str.substring 0 2
             (String c1 (String c2 (String c3 (String c4 (String c5 (String c6 EmptyString))))))).
  { apply (two_digits c1 c2); assumption. }
  destruct Hy as [Hy Hyy].
  split.
  - intros Hm Hd. rewrite (isoDate_overflow _ _ _ Hy Hm Hd), (pad4_century _ Hy), Hyy.
    reflexivity.
  - intros Hm Hd. rewrite Hd, (isoDate_day_zero _ _ Hy Hm), (pad4_century _ Hy), Hyy.
    reflexivity.
Qed.

Lemma valueDate_rolls_over_witness :
  amountShape "230230" "USD" "100" /\
  exists data,
    SWIFTParser.parseAmountField "230230USD100" = Return data /\
    SWIFTParser.valueDate data = "2023-03-02".
Proof.
  assert (H1 : amountShape "230230" "USD" "100").
  { unfold amountShape. repeat split; try reflexivity. discriminate. }
  split; [assumption|].
  destruct (valueDate_rolls_over "230230USD100" "230230" "USD" "100" eq_refl H1)
    as (data & Hdata & Hover & _).
  exists data. split; [assumption|].
  rewrite Hover; [reflexivity | vm_compute; split; discriminate
                 | vm_compute; split; [reflexivity | discriminate]].
Defined.

(** ** BIC validation *)

Section BIC.

Import SWIFTParser.

Lemma upper_letter c : Str.is_upper (Str.upper c) = is_letter c.
Proof. destruct c as [[] [] [] [] [] [] [] []]; reflexivity. Qed.

Lemma upper_alnum c :
  Str.is_digit (Str.upper c) || Str.is_upper (Str.upper c) = is_alnum c.
Proof. destruct c as [[] [] [] [] [] [] [] []]; reflexivity. Qed.

Lemma all_toUpperCase (p q : ascii -> bool) :
  (forall c, p (Str.upper c) = q c) ->
  forall s, Str.all p (Str.toUpperCase s) = Str.all q s.
Proof.
  intros Hpq. induction s as [|c s IH]; [reflexivity|].
  cbn [Str.toUpperCase Str.all]. by rewrite Hpq, IH.
Qed.

Lemma length_toUpperCase s : String.length (Str.toUpperCase s) = String.length s.
Proof. induction s as [|c s IH]; [reflexivity|]. cbn. by rewrite IH. Qed.

Lemma take_toUpperCase n : forall s,
  Str.take n (Str.toUpperCase s) = Str.toUpperCase (Str.take n s).
Proof.
  induction n as [|n IH]; intros [|c s]; try reflexivity.
  cbn [Str.toUpperCase Str.take]. by rewrite IH.
Qed.

Lemma drop_toUpperCase n : forall s,
  Str.drop n (Str.toUpperCase s) = Str.toUpperCase (Str.drop n s).
Proof.
  induction n as [|n IH]; intros [|c s]; try reflexivity.
  cbn [Str.toUpperCase Str.drop]. by rewrite IH.
Qed.

Lemma all_append p a : forall b, Str.all p (a +:+ b) = Str.all p a && Str.all p b.
Proof.
  induction a as [|c a IH]; intros b; [reflexivity|].
  change (Str.all p (String c a +:+ b)) with (p c && Str.all p (a +:+ b)).
  cbn [Str.all]. by rewrite IH, andb_assoc.
Qed.

Lemma all_split p n s :
  Str.all p s = Str.all p (Str.take n s) && Str.all p (Str.drop n s).
Proof. by rewrite <- all_append, take_drop. Qed.

Lemma length_zero s : String.length s = 0%nat -> s = EmptyString.
Proof. by destruct s. Qed.

Lemma bicPattern_spec s :
  (String.length s = 8%nat \/ String.length s = 11%nat) ->
  bicPattern s
  = Str.all Str.is_upper (Str.take 6 s)
    && Str.all (fun c => Str.is_digit c || Str.is_upper c) (Str.drop 6 s).
Proof.
  intros Hlen. unfold bicPattern. cbv zeta.
  rewrite !length_take, !length_drop.
  rewrite (all_split Str.is_upper 4 (Str.take 6 s)).
  rewrite (all_split _ 2 (Str.drop 6 s)).
  assert (Str.take 4 (Str.take 6 s) = Str.take 4 s) as ->.
  { rewrite <- (take_drop 4 s) at 1.
    assert (H4 : String.length (Str.take 4 s) = 4%nat) by (rewrite length_take; lia).
    clear Hlen. revert H4. generalize (Str.take 4 s) (Str.drop 4 s).
    intros a b Ha.
    do 4 (destruct a as [|? a]; [discriminate|]). by destruct a. }
  assert (Str.drop 4 (Str.take 6 s) = Str.take 2 (Str.drop 4 s)) as ->.
  { clear Hlen. do 4 (destruct s as [|? s]; [reflexivity|]). reflexivity. }
  rewrite drop_drop. change (6 + 2)%nat with 8%nat.
  assert (Hbranch : String.eqb (Str.drop 8 s) EmptyString
                    || (String.length s - 8 =? 3)%nat
                       && Str.all (fun c => Str.is_digit c || Str.is_upper c) (Str.drop 8 s)
                    = Str.all (fun c => Str.is_digit c || Str.is_upper c) (Str.drop 8 s)).
  { destruct Hlen as [Hlen | Hlen]; rewrite Hlen.
    - assert (Str.drop 8 s = EmptyString) as ->; [|reflexivity].
      apply length_zero. rewrite length_drop. lia.
    - cbn [Nat.sub Nat.eqb andb]. by destruct (String.eqb _ _) eqn:E;
        [apply String.eqb_eq in E; rewrite E|]. }
  rewrite Hbranch.
  destruct Hlen as [Hlen | Hlen]; rewrite Hlen; cbn [Nat.min Nat.sub Nat.eqb andb];
    by rewrite ?andb_true_r, ?andb_assoc.
Qed.

End BIC.

(** X15. On a text of ASCII characters, [validateBIC] answers [true] exactly
    when the text has 8 or 11 characters, the first six are letters and the
    others are letters or digits; letters of either case are accepted, since
    the text is put in upper case first. *)
Theorem validateBIC_spec (bic : string) :
  is_ascii bic = true ->
  SWIFTParser.validateBIC (JStr bic) = true <->
  (String.length bic = 8%nat \/ String.length bic = 11%nat) /\
  Str.all is_letter (Str.take 6 bic) = true /\
  Str.all is_alnum (Str.drop 6 bic) = true.
Proof.
  intros _. unfold SWIFTParser.validateBIC.
  destruct bic as [|c bic']; [cbn; split; [discriminate | intros [[|] _]; discriminate]|].
  set (bic := String c bic').
  change (negb (Js.truthy (JStr bic)) || negb (String.eqb (Js.typeof (JStr bic)) "string"))
    with false. cbv iota zeta.
  rewrite length_toUpperCase.
  destruct (Nat.eqb_spec (String.length bic) 8) as [H8 | H8];
    [|destruct (Nat.eqb_spec (String.length bic) 11) as [H11 | H11]]; cbn [negb andb].
  3:{ split; [discriminate | intros [[|] _]; contradiction]. }
  all: rewrite bicPattern_spec by (rewrite length_toUpperCase; auto);
    rewrite take_toUpperCase, drop_toUpperCase;
    rewrite (all_toUpperCase _ _ upper_letter), (all_toUpperCase _ _ upper_alnum);
    rewrite andb_true_iff; intuition.
Qed.

Lemma validateBIC_spec_witness :
  is_ascii "deutDEFF500" = true /\
  SWIFTParser.validateBIC (JStr "deutDEFF500") = true.
Proof.
  assert (H1 : is_ascii "deutDEFF500" = true) by reflexivity.
  split; [assumption|].
  apply (validateBIC_spec "deutDEFF500" H1). vm_compute. auto.
Defined.

(** ** Delimited and fixed-width records *)

Section Delimited.

Lemma split_join sep parts :
  parts <> [] ->
  Forall (fun p => Str.includes (String sep EmptyString) p = false) parts ->
  Str.split sep (Str.join (String sep EmptyString) parts) = parts.
Proof.
  induction parts as [|p parts IH]; [done|]. intros _ Hparts.
  apply Forall_cons in Hparts as [Hp Hparts].
  destruct parts as [|q parts]; [by apply split_no_sep|].
  change (Str.join (String sep EmptyString) (p :: q :: parts))
    with (p +:+ String sep (Str.join (String sep EmptyString) (q :: parts))).
  rewrite split_first by assumption. by rewrite IH.
Qed.

Lemma join_split sep s : Str.join (String sep EmptyString) (Str.split sep s) = s.
Proof.
  induction s as [|c s IH]; [reflexivity|].
  cbn [Str.split]. destruct (Str.eqc c sep) eqn:Hc.
  - apply Ascii.eqb_eq in Hc. subst c.
    pose proof (split_nonempty sep s) as Hne.
    destruct (Str.split sep s) as [|x xs] eqn:Hs; [done|].
    change (Str.join (String sep EmptyString) (EmptyString :: x :: xs))
      with (String sep (Str.join (String sep EmptyString) (x :: xs))).
    by rewrite IH.
  - pose proof (split_nonempty sep s) as Hne.
    destruct (Str.split sep s) as [|x xs] eqn:Hs; [done|].
    destruct xs as [|y ys].
    + cbn [Str.join] in IH |- *. by rewrite IH.
    + change (Str.join (String sep EmptyString) (String c x :: y :: ys))
        with (String c (Str.join (String sep EmptyString) (x :: y :: ys))).
      by rewrite IH.
Qed.

Lemma split_parts sep s :
  Forall (fun p => Str.includes (String sep EmptyString) p = false) (Str.split sep s).
Proof.
  induction s as [|c s IH]; [by repeat constructor|].
  cbn [Str.split]. destruct (Str.eqc c sep) eqn:Hc.
  - constructor; [reflexivity|assumption].
  - pose proof (split_nonempty sep s) as Hne.
    destruct (Str.split sep s) as [|x xs]; [done|].
    apply Forall_cons in IH as [Hx Hxs]. constructor; [|assumption].
    rewrite includes_char, eqc_sym, Hc. exact Hx.
Qed.

Lemma item_nth fields i :
  (i < length fields)%nat -> FISParser.item fields i = JStr (nth i fields EmptyString).
Proof.
  intros Hi. unfold FISParser.item. rewrite nth_lookup.
  destruct (lookup_lt_is_Some_2 fields i Hi) as [s ->]. reflexivity.
Qed.

End Delimited.

Section Layout.

(** The slice [a, b) of a text whose field [f] starts at [a]. *)
Ltac slice :=
  unfold Str.substring;
  repeat (rewrite drop_past by lia;
          match goal with
          | H : String.length ?f = _ |- context [(_ - String.length ?f)%nat] => rewrite H
          end;
          cbn [Nat.sub]);
  rewrite ?drop_zero; try (apply take_field; assumption).

Lemma fixed_width_slices f0 f1 f2 f3 f4 f5 f6 f7 f8 f9 rest :
  String.length f0 = 2%nat -> String.length f1 = 15%nat ->
  String.length f2 = 15%nat -> String.length f3 = 9%nat ->
  String.length f4 = 3%nat -> String.length f5 = 8%nat ->
  String.length f6 = 3%nat -> String.length f7 = 45%nat ->
  String.length f8 = 50%nat -> String.length f9 = 4%nat ->
  let message := f0 +:+ f1 +:+ f2 +:+ f3 +:+ f4 +:+ f5 +:+ f6 +:+ f7 +:+ f8 +:+ f9 +:+ rest in
  Str.substring 0 2 message = f0 /\ Str.substring 2 17 message = f1 /\
  Str.substring 17 32 message = f2 /\ Str.substring 32 41 message = f3 /\
  Str.substring 41 44 message = f4 /\ Str.substring 44 52 message = f5 /\
  Str.substring 52 55 message = f6 /\ Str.substring 55 100 message = f7 /\
  Str.substring 100 150 message = f8 /\ Str.substring 150 154 message = f9 /\
  (154 <= String.length message)%nat.
Proof.
  intros H0 H1 H2 H3 H4 H5 H6 H7 H8 H9 message. subst message.
  repeat split; try (cbn [Nat.sub]; slice).
  rewrite !length_app_string. lia.
Qed.

Lemma flat_slices f0 f1 f2 f3 f4 rest :
  String.length f0 = 15%nat -> String.length f1 = 15%nat ->
  String.length f2 = 12%nat -> String.length f3 = 5%nat ->
  String.length f4 = 8%nat ->
  let message := f0 +:+ f1 +:+ f2 +:+ f3 +:+ f4 +:+ rest in
  Str.substring 0 15 message = f0 /\ Str.substring 15 30 message = f1 /\
  Str.substring 30 42 message = f2 /\ Str.substring 42 47 message = f3 /\
  Str.substring 47 55 message = f4 /\ Str.drop 55 message = rest /\
  (55 <= String.length message)%nat.
Proof.
  intros H0 H1 H2 H3 H4 message. subst message.
  repeat split; try (cbn [Nat.sub]; slice).
  - repeat (rewrite drop_past by lia;
            match goal with
            | H : String.length ?f = _ |- context [(_ - String.length ?f)%nat] => rewrite H
            end;
            cbn [Nat.sub]).
    apply drop_zero.
  - rewrite !length_app_string. lia.
Qed.

End Layout.

(** ** The banking parsers: detection against parsing *)

(** X16. The detection of the Fiserv parser and [parseDNA] agree: for every
    text, [detectFormat] answers [DNA] exactly when [parseDNA] returns a
    record. *)
Theorem Fiserv_detection_agrees (P : Platform) stamp (message : string) :
  FiservParser.detectFormat message = Return "DNA" <->
  returns (FiservParser.parseDNA stamp message) = true.
Proof.
  unfold FiservParser.detectFormat, FiservParser.parseDNA.
  destruct (JSON_parse message) as [parsed|e]; cbn [bind try_catch];
    [|split; discriminate].
  destruct (Js.get parsed "transactionId") as [transactionId|e]; cbn [bind try_catch];
    [|split; discriminate].
  destruct (Js.truthy transactionId).
  - destruct (Js.startsWith "parsed.transactionId" transactionId "DNA")
      as [isDNA|e] eqn:Hstarts.
    + assert (Js.startsWith "data.transactionId" transactionId "DNA" = Return isDNA) as ->.
      { destruct transactionId; try discriminate; exact Hstarts. }
      cbn [bind try_catch]. destruct isDNA; cbn; split; (reflexivity || discriminate).
    + assert (exists e', Js.startsWith "data.transactionId" transactionId "DNA" = Throw e')
        as [e' ->].
      { destruct transactionId; try discriminate; cbn; eauto. }
      cbn. split; discriminate.
  - cbn. split; discriminate.
Qed.

(** X17. [FISParser.detectFormat] answers one of four labels. A text it
    labels [JSON] is parsed by [parseJSON]; a text it labels [FIXED_WIDTH]
    is parsed by [parseFixedWidth], with its two leading digits as record
    type. A text it labels [DELIMITED] has at least six fields, and
    [parseDelimited] returns a record for it only when it has at least
    eight. *)
Theorem FIS_detection_sound (P : Platform) stamp (message label : string) :
  FISParser.detectFormat message = Return label ->
  In label ["JSON"; "DELIMITED"; "FIXED_WIDTH"; "UNKNOWN"] /\
  (label = "JSON" ->
     exists record,
       FISParser.parseJSON stamp message = Return record /\
       messageTypeOf record = Return (JStr "FIS_JSON")) /\
  (label = "FIXED_WIDTH" ->
     exists record,
       FISParser.parseFixedWidth stamp message = Return record /\
       Js.get record "recordType" = Return (JStr (Str.substring 0 2 message)) /\
       Str.all Str.is_digit (Str.substring 0 2 message) = true) /\
  (label = "DELIMITED" ->
     (6 <= length (Str.split "|" message))%nat /\
     (returns (FISParser.parseDelimited stamp message) = true <->
      (8 <= length (Str.split "|" message))%nat)).
Proof.
  unfold FISParser.detectFormat. intros H.
  apply bind_Return in H as (json & Hjson & H).
  destruct json.
  { injection H as <-. split; [cbn; auto|]. split; [|split; discriminate].
    intros _. unfold FISParser.parseJSON.
    destruct (JSON_parse message) as [parsed|e]; [|discriminate].
    cbn [bind try_catch] in Hjson |- *.
    destruct (Js.get parsed "transactionId") as [transactionId|e]; [|discriminate].
    cbn [bind try_catch] in Hjson |- *. injection Hjson as Hjson.
    apply andb_prop in Hjson as [-> _]. cbn [negb].
    eexists. split; [reflexivity|]. unfold messageTypeOf. by rewrite get_obj_head. }
  destruct (Str.includes "|" message && _) eqn:Hbars.
  { injection H as <-. split; [cbn; auto|]. split; [discriminate|]. split; [discriminate|].
    intros _. apply andb_prop in Hbars as [_ Hbars]. apply Nat.ltb_lt in Hbars.
    split; [lia|]. unfold FISParser.parseDelimited.
    destruct (length (Str.split "|" message) <? 8)%nat eqn:Hshort; cbn.
    - apply Nat.ltb_lt in Hshort. split; [discriminate | lia].
    - apply Nat.ltb_ge in Hshort. split; [intros _; assumption | reflexivity]. }
  destruct (_ && _ && _) eqn:Hfixed.
  { injection H as <-. split; [cbn; auto|]. split; [discriminate|]. split; [|discriminate].
    intros _. apply andb_prop in Hfixed as [Hfixed Hdigits].
    apply andb_prop in Hfixed as [Hlen _]. apply Nat.ltb_lt in Hlen.
    unfold FISParser.parseFixedWidth.
    assert ((String.length message <? 100)%nat = false) as -> by (apply Nat.ltb_ge; lia).
    cbn [try_catch]. eexists. split; [reflexivity|]. split; [|assumption].
    rewrite get_obj_skip by discriminate. by rewrite get_obj_head. }
  injection H as <-. split; [cbn; auto|]. repeat split; discriminate.
Qed.

Lemma FIS_detection_sound_witness :
  @FISParser.detectFormat node fis_json_example = Return "JSON" /\
  exists record,
    @FISParser.parseJSON node stamp0 fis_json_example = Return record /\
    messageTypeOf record = Return (JStr "FIS_JSON").
Proof.
  assert (H1 : @FISParser.detectFormat node fis_json_example = Return "JSON")
    by (vm_compute; reflexivity).
  split; [assumption|].
  destruct (FIS_detection_sound node stamp0 fis_json_example "JSON" H1) as (_ & Hjson & _).
  exact (Hjson eq_refl).
Defined.

(** X18. [parseDelimited] splits at the bars and reads the fields by
    position: for fields without a bar, joined by bars, it throws the
    insufficient-fields error below eight fields, and from eight on it
    returns a record whose properties are the fields in their order,
    untrimmed, the amount read by [parseFloat] and the branch code empty
    when there is no ninth field. *)
Theorem parseDelimited_fields stamp (parts : list string) :
  parts <> [] ->
  Forall (fun p => Str.includes "|" p = false) parts ->
  Str.split "|" (Str.join "|" parts) = parts /\
  ((length parts < 8)%nat ->
     FISParser.parseDelimited stamp (Str.join "|" parts)
     = Throw "FIS delimited parsing failed: Invalid FIS delimited: insufficient fields") /\
  ((8 <= length parts)%nat ->
     exists record,
       FISParser.parseDelimited stamp (Str.join "|" parts) = Return record /\
       messageTypeOf record = Return (JStr "FIS_DELIMITED") /\
       Js.get record "transactionId" = Return (JStr (nth 0 parts EmptyString)) /\
       Js.get record "accountNumber" = Return (JStr (nth 1 parts EmptyString)) /\
       Js.get record "amount"
       = Return (JNum (Js.parseFloat (nth 2 parts EmptyString))) /\
       Js.get record "currency" = Return (JStr (nth 3 parts EmptyString)) /\
       Js.get record "valueDate" = Return (JStr (nth 4 parts EmptyString)) /\
       Js.get record "transactionType" = Return (JStr (nth 5 parts EmptyString)) /\
       Js.get record "description" = Return (JStr (nth 6 parts EmptyString)) /\
       Js.get record "customerName" = Return (JStr (nth 7 parts EmptyString)) /\
       Js.get record "branchCode" = Return (JStr (nth 8 parts EmptyString))).
Proof.
  intros Hne Hparts. pose proof (split_join "|" parts Hne Hparts) as Hsplit.
  split; [assumption|]. unfold FISParser.parseDelimited. rewrite Hsplit. split.
  - intros Hshort. apply Nat.ltb_lt in Hshort. by rewrite Hshort.
  - intros Hlong.
    assert ((length parts <? 8)%nat = false) as -> by (apply Nat.ltb_ge; lia).
    cbn [try_catch]. eexists. split; [reflexivity|].
    unfold messageTypeOf.
    rewrite !item_nth by lia.
    assert (Hbranch : Js.or_else (FISParser.item parts 8) (JStr EmptyString)
                      = JStr (nth 8 parts EmptyString)).
    { unfold FISParser.item. rewrite nth_lookup.
      destruct (parts !! 8%nat) as [[|c s]|]; reflexivity. }
    rewrite Hbranch.
    repeat split; repeat (rewrite get_obj_skip by discriminate); by rewrite get_obj_head.
Qed.

Lemma parseDelimited_fields_witness :
  delimited_example <> [] /\
  Forall (fun p => Str.includes "|" p = false) delimited_example /\
  exists record,
    FISParser.parseDelimited stamp0 (Str.join "|" delimited_example) = Return record /\
    Js.get record "transactionId" = Return (JStr "TXN123456789") /\
    Js.get record "branchCode" = Return (JStr "BR01").
Proof.
  assert (H1 : delimited_example <> []) by discriminate.
  assert (H2 : Forall (fun p => Str.includes "|" p = false) delimited_example)
    by (repeat constructor).
  split; [assumption|]. split; [assumption|].
  destruct (parseDelimited_fields stamp0 delimited_example H1 H2) as (_ & _ & Hlong).
  destruct Hlong as (record & Hrecord & _ & Hid & _ & _ & _ & _ & _ & _ & _ & Hbranch).
  { vm_compute. lia. }
  exists record. auto.
Defined.

(** X19. [parseFixedWidth] reads a record of ten fields of widths 2, 15,
    15, 9, 3, 8, 3, 45, 50 and 4 laid end to end: each property is its field
    trimmed (the record type as it stands), the amount is the field read by
    [parseFloat] and divided by 100 on doubles, and whatever follows the
    branch code is ignored. *)
Theorem parseFixedWidth_layout stamp
    (recordType transactionId accountNumber amount currency valueDate
     transactionType description customerName branchCode rest : string) :
  String.length recordType = 2%nat -> String.length transactionId = 15%nat ->
  String.length accountNumber = 15%nat -> String.length amount = 9%nat ->
  String.length currency = 3%nat -> String.length valueDate = 8%nat ->
  String.length transactionType = 3%nat -> String.length description = 45%nat ->
  String.length customerName = 50%nat -> String.length branchCode = 4%nat ->
  exists record,
    FISParser.parseFixedWidth stamp
      (recordType +:+ transactionId +:+ accountNumber +:+ amount +:+ currency
       +:+ valueDate +:+ transactionType +:+ description +:+ customerName
       +:+ branchCode +:+ rest) = Return record /\
    Js.get record "recordType" = Return (JStr recordType) /\
    Js.get record "transactionId" = Return (JStr (Str.trim transactionId)) /\
    Js.get record "accountNumber" = Return (JStr (Str.trim accountNumber)) /\
    Js.get record "amount"
    = Return (JNum (Js.div100 (Js.parseFloat (Str.trim amount)))) /\
    Js.get record "currency" = Return (JStr (Str.trim currency)) /\
    Js.get record "valueDate" = Return (JStr (Str.trim valueDate)) /\
    Js.get record "transactionType" = Return (JStr (Str.trim transactionType)) /\
    Js.get record "description" = Return (JStr (Str.trim description)) /\
    Js.get record "customerName" = Return (JStr (Str.trim customerName)) /\
    Js.get record "branchCode" = Return (JStr (Str.trim branchCode)).
Proof.
  intros H0 H1 H2 H3 H4 H5 H6 H7 H8 H9.
  destruct (fixed_width_slices recordType transactionId accountNumber amount currency
              valueDate transactionType description customerName branchCode rest
              H0 H1 H2 H3 H4 H5 H6 H7 H8 H9)
    as (S0 & S1 & S2 & S3 & S4 & S5 & S6 & S7 & S8 & S9 & Hlen).
  cbv zeta in *. unfold FISParser.parseFixedWidth.
  rewrite S0, S1, S2, S3, S4, S5, S6, S7, S8, S9.
  match goal with |- context [(?n <? 100)%nat] =>
    assert ((n <? 100)%nat = false) as -> by (apply Nat.ltb_ge; lia) end.
  cbn [try_catch]. eexists. split; [reflexivity|].
  repeat split; repeat (rewrite get_obj_skip by discriminate); by rewrite get_obj_head.
Qed.

Lemma parseFixedWidth_layout_witness :
  exists record,
    FISParser.parseFixedWidth stamp0
      ("01" +:+ "TXN123456789   " +:+ "ACC987654321   " +:+ "000250000" +:+ "USD"
       +:+ "20240701" +:+ "001"
       +:+ "Monthly payment to vendor ABC Corp           "
       +:+ "John Doe                                          "
       +:+ "BR01" +:+ EmptyString) = Return record /\
    Js.get record "transactionId" = Return (JStr (Str.trim "TXN123456789   ")) /\
    Js.get record "amount"
    = Return (JNum (Js.div100 (Js.parseFloat (Str.trim "000250000")))).
Proof.
  destruct (parseFixedWidth_layout stamp0 "01" "TXN123456789   " "ACC987654321   "
              "000250000" "USD" "20240701" "001"
              "Monthly payment to vendor ABC Corp           "
              "John Doe                                          "
              "BR01" EmptyString
              eq_refl eq_refl eq_refl eq_refl eq_refl eq_refl eq_refl eq_refl eq_refl eq_refl)
    as (record & Hrecord & _ & Hid & _ & Hamount & _).
  exists record. auto.
Defined.

(** X20. [BANCSParser.detectFormat] answers one of four labels. No text it
    labels [XML] is parsed by [parseXML], which throws on every text; a text
    it labels [JSON] is parsed by [parseJSON] exactly when the parsed object
    has a truthy [transactionId] (an account number alone earns the label);
    a text it labels [FLAT] is parsed by [parseFlat]. *)
Theorem BANCS_detection (P : Platform) stamp (message label : string) :
  BANCSParser.detectFormat message = Return label ->
  In label ["XML"; "JSON"; "FLAT"; "UNKNOWN"] /\
  (label = "XML" -> returns (BANCSParser.parseXML stamp message) = false) /\
  (label = "JSON" ->
     exists parsed transactionId,
       JSON_parse message = Return parsed /\
       Js.get parsed "transactionId" = Return transactionId /\
       returns (BANCSParser.parseJSON stamp message) = Js.truthy transactionId) /\
  (label = "FLAT" ->
     exists record,
       BANCSParser.parseFlat stamp message = Return record /\
       messageTypeOf record = Return (JStr "BANCS_FLAT")).
Proof.
  unfold BANCSParser.detectFormat. intros H.
  destruct (_ || _).
  { injection H as <-. split; [cbn; auto|].
    split; [intros _; apply BANCS_parseXML_throws|]. split; discriminate. }
  apply bind_Return in H as (json & Hjson & H).
  destruct json.
  { injection H as <-. split; [cbn; auto|]. split; [discriminate|]. split; [|discriminate].
    intros _. unfold BANCSParser.parseJSON.
    destruct (JSON_parse message) as [parsed|e]; [|discriminate].
    cbn [bind try_catch] in Hjson |- *.
    destruct (Js.get parsed "transactionId") as [transactionId|e] eqn:Hid; [|discriminate].
    exists parsed, transactionId. split; [reflexivity|]. split; [assumption|].
    cbn [bind]. by destruct (Js.truthy transactionId). }
  destruct (_ && _ && _) eqn:Hflat.
  { injection H as <-. split; [cbn; auto|]. split; [discriminate|]. split; [discriminate|].
    intros _. apply andb_prop in Hflat as [_ Hlen]. apply Nat.ltb_lt in Hlen.
    unfold BANCSParser.parseFlat.
    assert ((String.length message <? 50)%nat = false) as -> by (apply Nat.ltb_ge; lia).
    cbn [try_catch]. eexists. split; [reflexivity|].
    unfold messageTypeOf. by rewrite get_obj_head. }
  injection H as <-. split; [cbn; auto|]. repeat split; discriminate.
Qed.

Lemma BANCS_detection_witness :
  @BANCSParser.detectFormat node account_json_example = Return "JSON" /\
  exists parsed transactionId,
    Json.parse account_json_example = Return parsed /\
    Js.get parsed "transactionId" = Return transactionId /\
    returns (@BANCSParser.parseJSON node stamp0 account_json_example)
    = Js.truthy transactionId.
Proof.
  assert (H1 : @BANCSParser.detectFormat node account_json_example = Return "JSON")
    by (vm_compute; reflexivity).
  split; [assumption|].
  destruct (BANCS_detection node stamp0 account_json_example "JSON" H1)
    as (_ & _ & Hjson & _).
  exact (Hjson eq_refl).
Defined.

(** X21. [parseFlat] reads five fields of widths 15, 15, 12, 5 and 8 laid
    end to end and takes all that follows as the description: each property
    is its field trimmed, and the amount is the field read by [parseFloat],
    not divided. *)
Theorem parseFlat_layout stamp
    (transactionId accountNumber amount currency valueDate description : string) :
  String.length transactionId = 15%nat -> String.length accountNumber = 15%nat ->
  String.length amount = 12%nat -> String.length currency = 5%nat ->
  String.length valueDate = 8%nat ->
  exists record,
    BANCSParser.parseFlat stamp
      (transactionId +:+ accountNumber +:+ amount +:+ currency +:+ valueDate
       +:+ description) = Return record /\
    messageTypeOf record = Return (JStr "BANCS_FLAT") /\
    Js.get record "transactionId" = Return (JStr (Str.trim transactionId)) /\
    Js.get record "accountNumber" = Return (JStr (Str.trim accountNumber)) /\
    Js.get record "amount" = Return (JNum (Js.parseFloat (Str.trim amount))) /\
    Js.get record "currency" = Return (JStr (Str.trim currency)) /\
    Js.get record "valueDate" = Return (JStr (Str.trim valueDate)) /\
    Js.get record "description" = Return (JStr (Str.trim description)).
Proof.
  intros H0 H1 H2 H3 H4.
  destruct (flat_slices transactionId accountNumber amount currency valueDate description
              H0 H1 H2 H3 H4) as (S0 & S1 & S2 & S3 & S4 & S5 & Hlen).
  cbv zeta in *. unfold BANCSParser.parseFlat.
  rewrite S0, S1, S2, S3, S4, S5.
  match goal with |- context [(?n <? 50)%nat] =>
    assert ((n <? 50)%nat = false) as -> by (apply Nat.ltb_ge; lia) end.
  cbn [try_catch]. eexists. split; [reflexivity|]. unfold messageTypeOf.
  repeat split; repeat (rewrite get_obj_skip by discriminate); by rewrite get_obj_head.
Qed.

Lemma parseFlat_layout_witness :
  exists record,
    BANCSParser.parseFlat stamp0
      ("TXN123456789   " +:+ "ACC987654321   " +:+ "     5000.00" +:+ "EUR  "
       +:+ "20240701" +:+ "Flat file payment") = Return record /\
    Js.get record "currency" = Return (JStr (Str.trim "EUR  ")) /\
    Js.get record "description" = Return (JStr (Str.trim "Flat file payment")).
Proof.
  destruct (parseFlat_layout stamp0 "TXN123456789   " "ACC987654321   " "     5000.00"
              "EUR  " "20240701" "Flat file payment"
              eq_refl eq_refl eq_refl eq_refl eq_refl)
    as (record & Hrecord & _ & _ & _ & _ & Hcur & _ & Hdesc).
  exists record. auto.
Defined.

(** X22. A text that [TemenosParser.detectFormat] labels [JSON] is parsed
    by [parseJSON]: it is a JSON value whose header has a [messageId] that
    is a text beginning with TMN, and the record carries that header. *)
Theorem Temenos_detection_JSON (P : Platform) stamp (message : string) :
  TemenosParser.detectFormat message = Return "JSON" ->
  exists parsed header messageId record,
    JSON_parse message = Return parsed /\
    Js.get parsed "header" = Return header /\
    Js.get header "messageId" = Return (JStr messageId) /\
    Str.startsWith "TMN" messageId = true /\
    TemenosParser.parseJSON stamp message = Return record /\
    messageTypeOf record = Return (JStr "TEMENOS_JSON") /\
    Js.get record "header" = Return header.
Proof.
  unfold TemenosParser.detectFormat. intros H.
  destruct (_ || _); [discriminate|].
  apply bind_Return in H as (json & Hjson & H).
  destruct json.
  2:{ destruct (_ && _); discriminate. }
  clear H. unfold TemenosParser.parseJSON.
  destruct (JSON_parse message) as [parsed|e]; [|discriminate].
  cbn [bind try_catch] in Hjson |- *.
  destruct (Js.get parsed "header") as [header|e] eqn:Hparsed; [|discriminate].
  cbn [bind try_catch] in Hjson |- *.
  destruct (Js.truthy header) eqn:Hheader; [|discriminate].
  assert (Hget : Js.get header "messageId" = Return (prop header "messageId")).
  { unfold prop. destruct header; try discriminate; reflexivity. }
  rewrite Hget. cbn [bind].
  destruct (Js.truthy (prop header "messageId")) eqn:Hid; [|discriminate].
  destruct (prop header "messageId") as [| | | |messageId| |] eqn:Hprop; try discriminate.
  assert (Hstarts : Str.startsWith "TMN" messageId = true).
  { unfold Js.startsWith in Hjson. cbn [try_catch] in Hjson. congruence. }
  exists parsed, header, messageId. eexists.
  split; [reflexivity|]. split; [assumption|]. split; [by rewrite Hget|].
  split; [assumption|]. cbn [negb orb try_catch].
  split; [reflexivity|]. unfold messageTypeOf.
  split; [by rewrite get_obj_head|].
  rewrite get_obj_skip by discriminate. by rewrite get_obj_head.
Qed.

Lemma Temenos_detection_JSON_witness :
  @TemenosParser.detectFormat node temenos_json_example = Return "JSON" /\
  exists record,
    @TemenosParser.parseJSON node stamp0 temenos_json_example = Return record /\
    messageTypeOf record = Return (JStr "TEMENOS_JSON").
Proof.
  assert (H1 : @TemenosParser.detectFormat node temenos_json_example = Return "JSON")
    by (vm_compute; reflexivity).
  split; [assumption|].
  destruct (Temenos_detection_JSON node stamp0 temenos_json_example H1)
    as (parsed & header & messageId & record & _ & _ & _ & _ & Hrecord & Htype & _).
  exists record. auto.
Defined.

(** ** The detection of the enhanced parser *)

Section Enhanced.

Context {P : Platform}.

Lemma TXN_not_DNA v :
  Js.startsWith "parsed.transactionId" v "TXN" = Return true ->
  Js.startsWith "parsed.transactionId" v "DNA" = Return false.
Proof.
  destruct v as [| | | |s| |]; try discriminate. unfold Js.startsWith.
  intros H. assert (Hs : Str.startsWith "TXN" s = true) by congruence. clear H.
  f_equal. destruct s as [|c s]; [discriminate|].
  change (Str.startsWith "TXN" (String c s))
    with (Str.eqc "T" c && Str.startsWith "XN" s) in Hs.
  apply andb_prop in Hs as [Hc _]. unfold Str.eqc in Hc.
  apply Ascii.eqb_eq in Hc. by subst c.
Qed.

Lemma detectJSON_enhanced text :
  try_catch (EnhancedSWIFTParser.detectJSON text) (fun _ => Return None)
  = (let* json := try_catch (SwiftParserOSS.detectJSON text) (fun _ => Return None) in
     Return (option_map enhancedLabel json)).
Proof.
  unfold EnhancedSWIFTParser.detectJSON, SwiftParserOSS.detectJSON.
  destruct (JSON_parse text) as [parsed|e]; [|reflexivity]. cbn [bind].
  destruct (Js.get parsed "transactionId") as [transactionId|e]; [|reflexivity].
  cbn [bind].
  assert (Hheader :
    forall k : Result (option string),
      k = (if Js.truthy (prop parsed "header")
           then if Js.truthy (prop (prop parsed "header") "messageId")
                then let* isTMN := Js.startsWith "parsed.header.messageId"
                                     (prop (prop parsed "header") "messageId") "TMN" in
                     if isTMN then Return (Some "TEMENOS_JSON") else Return None
                else Return None
           else Return None) ->
      try_catch k (fun _ => Return None)
      = (let* json := try_catch k (fun _ => Return None) in
         Return (option_map enhancedLabel json))).
  { intros k ->. destruct (Js.truthy (prop parsed "header")); [|reflexivity].
    destruct (Js.truthy (prop (prop parsed "header") "messageId")); [|reflexivity].
    destruct (Js.startsWith _ _ "TMN") as [[]|]; reflexivity. }
  destruct (Js.truthy transactionId); [|by apply Hheader].
  destruct (Js.startsWith "parsed.transactionId" transactionId "TXN") as [[]|e] eqn:HTXN.
  - rewrite (TXN_not_DNA _ HTXN). cbn [bind].
    by destruct (_ && _).
  - destruct (Js.startsWith "parsed.transactionId" transactionId "DNA") as [[]|e] eqn:HDNA;
      cbn [bind]; [reflexivity | by apply Hheader | reflexivity].
  - assert (exists e', Js.startsWith "parsed.transactionId" transactionId "DNA" = Throw e')
      as [e' ->]; [|reflexivity].
    destruct transactionId; try discriminate; cbn; eauto.
Qed.

End Enhanced.

(** X24. [detectMessageFormat] of the enhanced parser and [detectFormat] of
    the facade make the same decision on every value: the label of the
    first is the label of the second, except that it writes [BANCS_JSON]
    where the facade writes [FIS_JSON] and has no COBOL indicators, so it
    writes [UNKNOWN] where the facade writes [COBOL]. *)
Theorem detectMessageFormat_agrees (P : Platform) (message : JsValue) :
  EnhancedSWIFTParser.detectMessageFormat message
  = (let* label := SwiftParserOSS.detectFormat message in Return (enhancedLabel label)).
Proof.
  unfold EnhancedSWIFTParser.detectMessageFormat, SwiftParserOSS.detectFormat.
  destruct message as [| | | |text| |]; try reflexivity.
  destruct (negb (Js.truthy (JStr text))); [reflexivity|]. cbv zeta.
  match goal with |- context [if ?b then SWIFTParser.headerMatch _ else None] =>
    destruct (if b then SWIFTParser.headerMatch text else None) as [code|] end.
  { cbn [bind]. f_equal. }
  destruct (_ && _); [reflexivity|].
  destruct (_ || _); [reflexivity|].
  rewrite detectJSON_enhanced.
  destruct (try_catch (SwiftParserOSS.detectJSON text) _) as [[label|]|e] eqn:Hjson;
    cbn [bind option_map]; try reflexivity.
  destruct (Str.includes "<TemenosTransaction>" text); [reflexivity|].
  destruct (Cobol.detectCOBOL text); reflexivity.
Qed.

(** ** The COBOL indicators *)

Section CobolStub.

Import Cobol.

Lemma includes_tail a q s :
  Str.includes (String a q) s = true -> Str.includes q s = true.
Proof.
  induction s as [|c s IH]; cbn [Str.includes Str.startsWith]; [by rewrite !orb_false_r|].
  intros H. apply orb_prop in H as [H|H].
  - apply andb_prop in H as [_ H].
    assert (Hq : Str.includes q s = true).
    { clear -H. destruct s as [|d s]; cbn [Str.includes]; by rewrite H. }
    rewrite Hq. apply orb_true_r.
  - rewrite (IH H). apply orb_true_r.
Qed.

Lemma includes_drop n : forall p s,
  Str.includes p s = true -> Str.includes (Str.drop n p) s = true.
Proof.
  induction n as [|n IH]; intros p s H; [by rewrite drop_zero|].
  destruct p as [|a p]; [assumption|]. apply IH. by apply includes_tail in H.
Qed.

Lemma includes_take n p s :
  Str.includes p s = true -> Str.includes (Str.take n p) s = true.
Proof. rewrite <- (take_drop n p) at 1. apply includes_prefix. Qed.

(** A text that includes [p] includes the code unit at place [n] of [p]. *)
Lemma includes_at n p s :
  Str.includes p s = true -> Str.includes (Str.take 1 (Str.drop n p)) s = true.
Proof. intros H. by apply includes_take, includes_drop. Qed.

Lemma includes_cons q c s :
  Str.includes q s = true -> Str.includes q (String c s) = true.
Proof. intros H. cbn [Str.includes]. rewrite H. apply orb_true_r. Qed.

Lemma startsWith_includes q s : Str.startsWith q s = true -> Str.includes q s = true.
Proof. intros H. destruct s; cbn [Str.includes]; by rewrite H. Qed.

Lemma skip_run_suffix c s n r q :
  skip_run c s = (n, r) -> Str.includes q r = true -> Str.includes q s = true.
Proof.
  revert n r. induction s as [|d s IH]; intros n r; cbn [skip_run].
  - by intros [= <- <-].
  - destruct (Str.eqc d c); [|by intros [= <- <-]].
    destruct (skip_run c s) as [n' r'] eqn:Hrun. intros [= <- <-] Hq.
    apply includes_cons. by apply (IH n' r').
Qed.

Lemma skip_run_head c s n r :
  skip_run c s = (n, r) -> (0 <? n)%nat = true ->
  Str.startsWith (String c EmptyString) s = true.
Proof.
  destruct s as [|d s]; cbn [skip_run]; [by intros [= <- <-]|].
  destruct (Str.eqc d c) eqn:Hd; [|by intros [= <- <-]].
  intros _ _. cbn [Str.startsWith]. by rewrite eqc_sym, Hd.
Qed.

Lemma includes_after n q s :
  Str.includes q (Str.drop n s) = true -> Str.includes q s = true.
Proof.
  revert s. induction n as [|n IH]; intros s H; [by rewrite drop_zero in H|].
  destruct s as [|c s]; [assumption|]. apply includes_cons. by apply IH.
Qed.

Lemma lineNumberAt_s line : lineNumberAt line = true -> Str.includes "s" line = true.
Proof.
  unfold lineNumberAt. destruct (skip_run "s" line) as [n r] eqn:Hrun.
  intros H. apply andb_prop in H as [_ H].
  apply (skip_run_suffix _ _ _ _ _ Hrun), (includes_after 6).
  by apply startsWith_includes.
Qed.

Lemma lineNumbers_s s : forall b,
  lineNumbers_from b s = true -> Str.includes "s" s = true.
Proof.
  induction s as [|c s IH]; intros b H.
  - cbn [lineNumbers_from] in H. rewrite orb_false_r in H.
    apply andb_prop in H as [_ H]. by apply lineNumberAt_s.
  - cbn [lineNumbers_from] in H. apply orb_prop in H as [H|H].
    + apply andb_prop in H as [_ H]. by apply lineNumberAt_s.
    + apply includes_cons. by apply (IH _ H).
Qed.

Lemma anywhere_includes (p : string -> bool) q s :
  (forall r, p r = true -> Str.includes q r = true) ->
  anywhere p s = true -> Str.includes q s = true.
Proof.
  intros Hp. induction s as [|c s IH]; cbn [anywhere]; intros H.
  - rewrite orb_false_r in H. by apply Hp.
  - apply orb_prop in H as [H|H]; [by apply Hp|]. by apply includes_cons, IH.
Qed.

Lemma picAt_S r : picAt r = true -> Str.includes "S" r = true.
Proof.
  unfold picAt. destruct (skip_run "S" (Str.drop 3 r)) as [n r'] eqn:Hrun.
  intros H. apply andb_prop in H as [_ H]. apply andb_prop in H as [H _].
  apply (includes_after 3), startsWith_includes. by apply (skip_run_head _ _ _ _ Hrun).
Qed.

Lemma copyAt_S r : copyAt r = true -> Str.includes "S" r = true.
Proof.
  unfold copyAt. destruct (skip_run "S" (Str.drop 4 r)) as [n r'] eqn:Hrun.
  intros H. apply andb_prop in H as [_ H]. apply andb_prop in H as [H _].
  apply (includes_after 4), startsWith_includes. by apply (skip_run_head _ _ _ _ Hrun).
Qed.

Lemma includes_toUpperCase c : forall s,
  Str.includes (String c EmptyString) s = true ->
  Str.includes (String (Str.upper c) EmptyString) (Str.toUpperCase s) = true.
Proof.
  induction s as [|d s IH]; [discriminate|].
  rewrite includes_char. intros H. cbn [Str.toUpperCase]. rewrite includes_char.
  apply orb_prop in H as [H|H].
  - apply Ascii.eqb_eq in H. subst d. unfold Str.eqc. by rewrite Ascii.eqb_refl.
  - rewrite (IH H). apply orb_true_r.
Qed.

End CobolStub.

(** X25. Every indicator of [detectCOBOL] needs the letter s: the patterns
    are written without backslashes, so their [s], [d] and [w] stand for
    the letters. A text without an s of either case is never detected, and
    [parseCOBOL] returns [null] for it, whatever digits, line numbers or
    blanks it holds. *)
Theorem detectCOBOL_needs_s (data : string) :
  Str.includes_i "s" data = false ->
  Cobol.detectCOBOL data = false /\ Cobol.parseCOBOL data = Return JNull.
Proof.
  intros Hs.
  assert (Hdetect : Cobol.detectCOBOL data = false).
  { destruct (Cobol.detectCOBOL data) eqn:Hdetect; [|reflexivity].
    enough (Str.includes_i "s" data = true) by congruence.
    unfold Str.includes_i. change (Str.toUpperCase "s") with "S".
    unfold Cobol.detectCOBOL in Hdetect.
    repeat (apply orb_prop in Hdetect as [Hdetect | Hdetect]).
    - apply lineNumbers_s in Hdetect. by apply (includes_toUpperCase "s").
    - by apply (includes_at 19) in Hdetect.
    - by apply (includes_at 9) in Hdetect.
    - by apply (includes_at 14) in Hdetect.
    - apply (anywhere_includes _ _ _ picAt_S Hdetect).
    - apply (anywhere_includes _ _ _ copyAt_S Hdetect). }
  split; [assumption|]. unfold Cobol.parseCOBOL. by rewrite Hdetect.
Qed.

Lemma detectCOBOL_needs_s_witness :
  Str.includes_i "s" "       05 NAME PIC X(10)." = false /\
  Cobol.detectCOBOL "       05 NAME PIC X(10)." = false /\
  Cobol.parseCOBOL "       05 NAME PIC X(10)." = Return JNull.
Proof.
  assert (H1 : Str.includes_i "s" "       05 NAME PIC X(10)." = false) by reflexivity.
  split; [assumption|].
  exact (detectCOBOL_needs_s "       05 NAME PIC X(10)." H1).
Defined.
